(** * Debug logging for the symbol file functions (gdb/symfile-debug.c)

    A shallow embedding of [gdb/symfile-debug.c]: the per-objfile table of
    symbol reader functions ([struct sym_fns]), the logging copy that is
    swapped in for it while [debug_symfile] is on, and the [objfile]
    methods that forward to the quick-symbol-functions object [qf].

    Pointers are addresses ([positive]); a null pointer is [None] (or the
    [NULL_sf] constructor for a [const struct sym_fns *]).  The C code runs
    in a monad [M] that threads the debugger state, collects what is
    printed on [gdb_stdlog], and records how a call ended. *)

From Stdlib Require Import Ascii String.
From stdpp Require Import base gmap strings list fin_maps.

Local Open Scope Z_scope.

(** ** Text sent to [gdb_stdlog]

    A line is kept as the format string of the [fprintf_filtered] call
    together with its arguments, before any rendering. *)

Inductive farg : Type :=
  | FObjfileName (objfile : positive)          (* objfile_debug_name (objfile) *)
  | FHostAddr (p : option positive)            (* host_address_to_string (p) *)
  | FVectorData (v : positive)                 (* host_address_to_string (v.data ()) *)
  | FHex (z : Z)                               (* hex_string (z) *)
  | FInt (z : Z)                               (* %d *)
  | FUnsigned (z : Z)                          (* %x *)
  | FStr (s : option string)                   (* %s of a C string, None for NULL *)
  | FSymtabName (symtab : positive)            (* debug_symtab_name (symtab) *)
  | FPrimaryFiletabName (cust : positive)      (* debug_symtab_name (compunit_primary_filetab (cust)) *)
  | FDomainName (domain : Z)                   (* domain_name (domain) *)
  | FSearchDomainName (kind : Z).              (* search_domain_name (kind) *)

Record log_line : Type := Printf { fmt : string; fargs : list farg }.

(** The double-quote character, which C escapes inside a format string. *)
Definition dquote : string := String "034"%char EmptyString.

(** ** The table of symbol reader functions *)

(** Function pointers, one type per C signature.  A backend function is
    known by its address; the logging versions of this file are the other
    constructors. *)

(* pointer to function: void f (struct objfile *objfile) *)
Inductive objfile_fn : Type :=
  | Backend_objfile_fn (a : positive)
  | Fn_debug_sym_new_init
  | Fn_debug_sym_init
  | Fn_debug_sym_finish
  | Fn_debug_sym_read_linetable.

(* pointer to function: void f (struct objfile *objfile, symfile_add_flags flags) *)
Inductive read_fn : Type :=
  | Backend_read_fn (a : positive)
  | Fn_debug_sym_read.

(* pointer to function: void f (struct objfile *objfile, const section_addr_info &info) *)
Inductive offsets_fn : Type :=
  | Backend_offsets_fn (a : positive)
  | Fn_debug_sym_offsets.

(* pointer to function: symfile_segment_data_up f (bfd *abfd) *)
Inductive segments_fn : Type :=
  | Backend_segments_fn (a : positive)
  | Fn_debug_sym_segments.

(* pointer to function: bfd_byte *f (struct objfile *objfile, asection *sectp, bfd_byte *buf) *)
Inductive relocate_fn : Type :=
  | Backend_relocate_fn (a : positive)
  | Fn_debug_sym_relocate.

(* pointer to function: const std::vector<std::unique_ptr<probe>> &f (struct objfile *objfile) *)
Inductive get_probes_fn : Type :=
  | Backend_get_probes_fn (a : positive)
  | Fn_debug_sym_get_probes.

(* struct sym_probe_fns (the member of struct sym_fns has the same name in C) *)
Record struct_sym_probe_fns : Type := Build_sym_probe_fns {
  sym_get_probes : option get_probes_fn
}.

(* a non-null pointer to a const struct sym_probe_fns *)
Inductive sym_probe_fns_ptr : Type :=
  | Static_probe_fns (a : positive)   (* a backend's table *)
  | Addr_debug_sym_probe_fns.         (* &debug_sym_probe_fns *)

(* struct sym_fns; an absent slot is None *)
Record sym_fns : Type := Build_sym_fns {
  sym_new_init : option objfile_fn;
  sym_init : option objfile_fn;
  sym_read : option read_fn;
  sym_finish : option objfile_fn;
  sym_offsets : option offsets_fn;
  sym_segments : option segments_fn;
  sym_read_linetable : option objfile_fn;
  sym_relocate : option relocate_fn;
  sym_probe_fns : option sym_probe_fns_ptr
}.

(* pointer to a const struct sym_fns *)
Inductive sym_fns_ptr : Type :=
  | NULL_sf
  | Static_sf (a : positive)    (* a backend's static table *)
  | Debug_sf (d : positive).    (* &d->debug_sf, d pointing to a struct debug_sym_fns_data *)

(* struct debug_sym_fns_data *)
Record debug_sym_fns_data : Type := Build_debug_sym_fns_data {
  real_sf : sym_fns_ptr;
  debug_sf : sym_fns
}.

(* Debugging version of struct sym_probe_fns. *)
Definition debug_sym_probe_fns : struct_sym_probe_fns :=
  {| sym_get_probes := Some Fn_debug_sym_get_probes |}.

(* Template of debugging version of struct sym_fns. *)
Definition debug_sym_fns : sym_fns :=
  {| sym_new_init := Some Fn_debug_sym_new_init;
     sym_init := Some Fn_debug_sym_init;
     sym_read := Some Fn_debug_sym_read;
     sym_finish := Some Fn_debug_sym_finish;
     sym_offsets := Some Fn_debug_sym_offsets;
     sym_segments := Some Fn_debug_sym_segments;
     sym_read_linetable := Some Fn_debug_sym_read_linetable;
     sym_relocate := Some Fn_debug_sym_relocate;
     sym_probe_fns := Some Addr_debug_sym_probe_fns |}.

(** What [new struct debug_sym_fns_data] holds: the default member
    initialisers [real_sf = nullptr] and [debug_sf {}]. *)
Definition empty_sym_fns : sym_fns :=
  Build_sym_fns None None None None None None None None None.

Definition new_debug_sym_fns_data : debug_sym_fns_data :=
  {| real_sf := NULL_sf; debug_sf := empty_sym_fns |}.

(** Assignments to one member. *)
Definition set_sym_new_init (v : option objfile_fn) (t : sym_fns) : sym_fns :=
  Build_sym_fns v (sym_init t) (sym_read t) (sym_finish t) (sym_offsets t)
    (sym_segments t) (sym_read_linetable t) (sym_relocate t) (sym_probe_fns t).
Definition set_sym_init (v : option objfile_fn) (t : sym_fns) : sym_fns :=
  Build_sym_fns (sym_new_init t) v (sym_read t) (sym_finish t) (sym_offsets t)
    (sym_segments t) (sym_read_linetable t) (sym_relocate t) (sym_probe_fns t).
Definition set_sym_read (v : option read_fn) (t : sym_fns) : sym_fns :=
  Build_sym_fns (sym_new_init t) (sym_init t) v (sym_finish t) (sym_offsets t)
    (sym_segments t) (sym_read_linetable t) (sym_relocate t) (sym_probe_fns t).
Definition set_sym_finish (v : option objfile_fn) (t : sym_fns) : sym_fns :=
  Build_sym_fns (sym_new_init t) (sym_init t) (sym_read t) v (sym_offsets t)
    (sym_segments t) (sym_read_linetable t) (sym_relocate t) (sym_probe_fns t).
Definition set_sym_offsets (v : option offsets_fn) (t : sym_fns) : sym_fns :=
  Build_sym_fns (sym_new_init t) (sym_init t) (sym_read t) (sym_finish t) v
    (sym_segments t) (sym_read_linetable t) (sym_relocate t) (sym_probe_fns t).
Definition set_sym_segments (v : option segments_fn) (t : sym_fns) : sym_fns :=
  Build_sym_fns (sym_new_init t) (sym_init t) (sym_read t) (sym_finish t)
    (sym_offsets t) v (sym_read_linetable t) (sym_relocate t) (sym_probe_fns t).
Definition set_sym_read_linetable (v : option objfile_fn) (t : sym_fns) : sym_fns :=
  Build_sym_fns (sym_new_init t) (sym_init t) (sym_read t) (sym_finish t)
    (sym_offsets t) (sym_segments t) v (sym_relocate t) (sym_probe_fns t).
Definition set_sym_relocate (v : option relocate_fn) (t : sym_fns) : sym_fns :=
  Build_sym_fns (sym_new_init t) (sym_init t) (sym_read t) (sym_finish t)
    (sym_offsets t) (sym_segments t) (sym_read_linetable t) v (sym_probe_fns t).
Definition set_sym_probe_fns (v : option sym_probe_fns_ptr) (t : sym_fns) : sym_fns :=
  Build_sym_fns (sym_new_init t) (sym_init t) (sym_read t) (sym_finish t)
    (sym_offsets t) (sym_segments t) (sym_read_linetable t) (sym_relocate t) v.

Definition set_debug_sf (f : sym_fns → sym_fns) (d : debug_sym_fns_data)
  : debug_sym_fns_data :=
  {| real_sf := real_sf d; debug_sf := f (debug_sf d) |}.
Definition set_real_sf (p : sym_fns_ptr) (d : debug_sym_fns_data)
  : debug_sym_fns_data :=
  {| real_sf := p; debug_sf := debug_sf d |}.

(** ** Objfiles and the debugger state *)

(* The members of struct objfile that this file reads or writes. *)
Record struct_objfile : Type := Build_objfile {
  sf : sym_fns_ptr;          (* const struct sym_fns *sf *)
  qf : option positive;      (* std::unique_ptr<quick_symbol_functions> qf *)
  flags : Z                  (* objfile_flags flags *)
}.

Definition set_sf (p : sym_fns_ptr) (o : struct_objfile) : struct_objfile :=
  {| sf := p; qf := qf o; flags := flags o |}.

(* struct program_space, as far as pspace->objfiles () goes. *)
Record program_space : Type := Build_program_space {
  objfiles : list positive
}.

Global Instance sym_fns_ptr_eq_dec : EqDecision sym_fns_ptr.
Proof. solve_decision. Defined.

(** ** How a call ends *)

Inductive outcome (A : Type) : Type :=
  | Returned (a : A)               (* normal return *)
  | Thrown (e : Z)                 (* a gdb exception (error) propagating *)
  | InternalError (msg : string)   (* gdb_assert / gdb_assert_not_reached failed *)
  | Fault                          (* a null or dangling pointer was used *)
  | OutOfFuel.                     (* the bound on nested indirect calls was hit *)
Arguments Returned {A} a.
Arguments Thrown {A} e.
Arguments InternalError {A} msg.
Arguments Fault {A}.
Arguments OutOfFuel {A}.

(** A failed call carried over to another result type. *)
Definition propagate {A B : Type} (o : outcome A) (dflt : outcome B) : outcome B :=
  match o with
  | Returned _ => dflt
  | Thrown e => Thrown e
  | InternalError msg => InternalError msg
  | Fault => Fault
  | OutOfFuel => OutOfFuel
  end.

Section Symfile_debug.

Context {ext : Type}.

(** The debugger state: the live objfiles, the program spaces, the
    registry behind [symfile_debug_objfile_data_key], the allocated
    [debug_sym_fns_data] objects, the flag [debug_symfile], and the rest
    of gdb ([extern]), which only the backends and [qf] objects touch. *)
Record world : Type := Build_world {
  objfile_mem : gmap positive struct_objfile;
  program_spaces : list program_space;
  symfile_debug_objfile_data_key : gmap positive positive;
  debug_data_mem : gmap positive debug_sym_fns_data;
  debug_symfile : bool;
  extern : ext
}.

Definition set_objfile_mem (m : gmap positive struct_objfile) (w : world) : world :=
  Build_world m (program_spaces w) (symfile_debug_objfile_data_key w)
    (debug_data_mem w) (debug_symfile w) (extern w).
Definition set_key (m : gmap positive positive) (w : world) : world :=
  Build_world (objfile_mem w) (program_spaces w) m
    (debug_data_mem w) (debug_symfile w) (extern w).
Definition set_debug_data_mem (m : gmap positive debug_sym_fns_data) (w : world)
  : world :=
  Build_world (objfile_mem w) (program_spaces w)
    (symfile_debug_objfile_data_key w) m (debug_symfile w) (extern w).

(** The result of running a piece of code: how it ended, the state it
    left, and the lines it printed on [gdb_stdlog], oldest first. *)
Record result (A : Type) : Type := Result {
  res : outcome A;
  final : world;
  out : list log_line
}.
Arguments Result {A} res final out.
Arguments res {A} r.
Arguments final {A} r.
Arguments out {A} r.

Definition M (A : Type) : Type := world → result A.

Definition M_ret {A : Type} (a : A) : M A := λ w, Result (Returned a) w [].

Definition M_bind {A B : Type} (k : A → M B) (m : M A) : M B := λ w,
  match m w with
  | Result (Returned a) w' l =>
      match k a w' with
      | Result o w'' l' => Result o w'' (l ++ l')
      end
  | Result o w' l => Result (propagate o Fault) w' l
  end.

Global Instance M_mret : MRet M := @M_ret.
Global Instance M_mbind : MBind M := @M_bind.

Definition raise {A : Type} (o : outcome A) : M A := λ w, Result o w [].

Definition get_world : M world := λ w, Result (Returned w) w [].
Definition modify_world (f : world → world) : M unit :=
  λ w, Result (Returned tt) (f w) [].

(** A run with [l] printed ahead of it. *)
Definition printed_before {A : Type} (l : list log_line) (r : result A) : result A :=
  Result (res r) (final r) (l ++ out r).

(** *** Primitives *)

(** [fprintf_filtered (gdb_stdlog, fmt, args...)]. *)
Definition fprintf_filtered (fmt : string) (args : list farg) : M unit :=
  λ w, Result (Returned tt) w [Printf fmt args].

(** Modelled from the spec: [gdb_assert] is a macro of gdbsupport, which
    is not part of the sources.  A failed assertion is an abort-class
    failure: the call stops at once, with the text of the failed
    condition. *)
Definition gdb_assert (expr : string) (cond : bool) : M unit :=
  if cond then mret tt else raise (InternalError expr).

(** Modelled from the spec: [gdb_assert_not_reached], of gdbsupport as
    well, fails like an assertion whenever it is reached. *)
Definition gdb_assert_not_reached {A : Type} (msg : string) : M A :=
  raise (InternalError msg).

(** Reading [*objfile]; an address that holds no objfile is a fault. *)
Definition load_objfile (objfile : positive) : M struct_objfile :=
  w ← get_world;
  match objfile_mem w !! objfile with
  | Some o => mret o
  | None => raise Fault
  end.

(** [objfile->sf = p]. *)
Definition store_objfile_sf (objfile : positive) (p : sym_fns_ptr) : M unit :=
  o ← load_objfile objfile;
  modify_world (λ w, set_objfile_mem (<[objfile := set_sf p o]> (objfile_mem w)) w).

(** Modelled from the spec: [objfile_key::get] (objfiles.h and registry.h
    are not part of the sources) returns the entry of the objfile or
    null, and never fails. *)
Definition key_get (objfile : positive) : M (option positive) :=
  w ← get_world; mret (symfile_debug_objfile_data_key w !! objfile).

(** Modelled from the spec: [objfile_key::set] fails if the objfile
    already has an entry. *)
Definition key_set (objfile : positive) (data : positive) : M unit :=
  w ← get_world;
  match symfile_debug_objfile_data_key w !! objfile with
  | Some _ => raise (InternalError "objfile_key::set: entry exists")
  | None =>
      modify_world (set_key (<[objfile := data]> (symfile_debug_objfile_data_key w)))
  end.

(** Modelled from the spec: [objfile_key::clear] removes the entry and
    discards the data it owns, and fails if there is no entry. *)
Definition key_clear (objfile : positive) : M unit :=
  w ← get_world;
  match symfile_debug_objfile_data_key w !! objfile with
  | None => raise (InternalError "objfile_key::clear: no entry")
  | Some data =>
      modify_world (λ w, set_debug_data_mem (delete data (debug_data_mem w))
                           (set_key (delete objfile (symfile_debug_objfile_data_key w)) w))
  end.

(** [new struct debug_sym_fns_data]: a fresh address. *)
Definition new_data : M positive :=
  w ← get_world;
  let d := fresh (dom (debug_data_mem w)) in
  modify_world (set_debug_data_mem (<[d := new_debug_sym_fns_data]> (debug_data_mem w)));;
  mret d.

(** Reading [*debug_data]. *)
Definition load_data (debug_data : option positive) : M debug_sym_fns_data :=
  w ← get_world;
  match debug_data with
  | None => raise Fault
  | Some d =>
      match debug_data_mem w !! d with
      | Some x => mret x
      | None => raise Fault
      end
  end.

(** An assignment to a member of [*debug_data]. *)
Definition update_data (debug_data : positive)
    (f : debug_sym_fns_data → debug_sym_fns_data) : M unit :=
  x ← load_data (Some debug_data);
  modify_world (λ w, set_debug_data_mem (<[debug_data := f x]> (debug_data_mem w)) w).

(** Calling through a function pointer that may be null. *)
Definition nonnull {A : Type} (p : option A) : M A :=
  match p with
  | Some f => mret f
  | None => raise Fault
  end.

(** ** Code and tables supplied by the symbol readers

    The static [sym_fns] and [sym_probe_fns] tables of the backends, by
    address, and what running each backend function does. *)
Class backends : Type := Build_backends {
  static_sf : positive → sym_fns;
  static_probe_fns : positive → struct_sym_probe_fns;
  run_objfile_fn : positive → positive → M unit;
  run_read_fn : positive → positive → Z → M unit;
  run_offsets_fn : positive → positive → positive → M unit;
  run_segments_fn : positive → option positive → M (option positive);
  run_relocate_fn :
    positive → positive → option positive → option positive → M (option positive);
  run_get_probes_fn : positive → positive → M positive
}.

Context {code : backends}.

(** Reading the table behind a [const struct sym_fns *]. *)
Definition load_sym_fns (p : sym_fns_ptr) : M sym_fns :=
  match p with
  | NULL_sf => raise Fault
  | Static_sf a => mret (static_sf a)
  | Debug_sf d => x ← load_data (Some d); mret (debug_sf x)
  end.

(** Reading the table behind a [const struct sym_probe_fns *]. *)
Definition load_probe_fns (p : option sym_probe_fns_ptr) : M struct_sym_probe_fns :=
  match p with
  | None => raise Fault
  | Some (Static_probe_fns a) => mret (static_probe_fns a)
  | Some Addr_debug_sym_probe_fns => mret debug_sym_probe_fns
  end.

(** Return non-zero if symfile debug logging is installed. *)
Definition symfile_debug_installed (objfile : positive) : M bool :=
  o ← load_objfile objfile;
  match sf o with
  | NULL_sf => mret false
  | _ =>
      data ← key_get objfile;
      mret (match data with Some _ => true | None => false end)
  end.

(** ** Debugging versions of the [sym_fns] functions

    Each takes, as [call], the indirect call of its own signature, which
    it uses for [debug_data->real_sf->NAME (...)]. *)

Definition debug_sym_get_probes (call : get_probes_fn → positive → M positive)
    (objfile : positive) : M positive :=
  debug_data ← key_get objfile;
  data ← load_data debug_data;
  real ← load_sym_fns (real_sf data);
  probe_fns ← load_probe_fns (sym_probe_fns real);
  f ← nonnull (sym_get_probes probe_fns);
  retval ← call f objfile;
  fprintf_filtered "probes->sym_get_probes (%s) = %s\n"
    [FObjfileName objfile; FVectorData retval];;
  mret retval.

Definition debug_sym_new_init (call : objfile_fn → positive → M unit)
    (objfile : positive) : M unit :=
  debug_data ← key_get objfile;
  fprintf_filtered "sf->sym_new_init (%s)\n" [FObjfileName objfile];;
  data ← load_data debug_data;
  real ← load_sym_fns (real_sf data);
  f ← nonnull (sym_new_init real);
  call f objfile.

Definition debug_sym_init (call : objfile_fn → positive → M unit)
    (objfile : positive) : M unit :=
  debug_data ← key_get objfile;
  fprintf_filtered "sf->sym_init (%s)\n" [FObjfileName objfile];;
  data ← load_data debug_data;
  real ← load_sym_fns (real_sf data);
  f ← nonnull (sym_init real);
  call f objfile.

Definition debug_sym_read (call : read_fn → positive → Z → M unit)
    (objfile : positive) (symfile_flags : Z) : M unit :=
  debug_data ← key_get objfile;
  fprintf_filtered "sf->sym_read (%s, 0x%x)\n"
    [FObjfileName objfile; FUnsigned (Z.land symfile_flags (Z.ones 32))];;
  data ← load_data debug_data;
  real ← load_sym_fns (real_sf data);
  f ← nonnull (sym_read real);
  call f objfile symfile_flags.

Definition debug_sym_finish (call : objfile_fn → positive → M unit)
    (objfile : positive) : M unit :=
  debug_data ← key_get objfile;
  fprintf_filtered "sf->sym_finish (%s)\n" [FObjfileName objfile];;
  data ← load_data debug_data;
  real ← load_sym_fns (real_sf data);
  f ← nonnull (sym_finish real);
  call f objfile.

Definition debug_sym_offsets (call : offsets_fn → positive → positive → M unit)
    (objfile : positive) (info : positive) : M unit :=
  debug_data ← key_get objfile;
  fprintf_filtered "sf->sym_offsets (%s, %s)\n"
    [FObjfileName objfile; FHostAddr (Some info)];;
  data ← load_data debug_data;
  real ← load_sym_fns (real_sf data);
  f ← nonnull (sym_offsets real);
  call f objfile info.

(** This function takes no objfile; it is never meant to be called. *)
Definition debug_sym_segments (abfd : option positive) : M (option positive) :=
  gdb_assert_not_reached "debug_sym_segments called".

Definition debug_sym_read_linetable (call : objfile_fn → positive → M unit)
    (objfile : positive) : M unit :=
  debug_data ← key_get objfile;
  fprintf_filtered "sf->sym_read_linetable (%s)\n" [FObjfileName objfile];;
  data ← load_data debug_data;
  real ← load_sym_fns (real_sf data);
  f ← nonnull (sym_read_linetable real);
  call f objfile.

Definition debug_sym_relocate
    (call : relocate_fn → positive → option positive → option positive
            → M (option positive))
    (objfile : positive) (sectp buf : option positive) : M (option positive) :=
  debug_data ← key_get objfile;
  data ← load_data debug_data;
  real ← load_sym_fns (real_sf data);
  f ← nonnull (sym_relocate real);
  retval ← call f objfile sectp buf;
  fprintf_filtered "sf->sym_relocate (%s, %s, %s) = %s\n"
    [FObjfileName objfile; FHostAddr sectp; FHostAddr buf; FHostAddr retval];;
  mret retval.

(** ** Indirect calls

    A call through a function pointer runs the backend function at that
    address or one of the functions above.  [fuel] bounds how many logging
    functions may be entered one inside the other. *)

Fixpoint call_objfile_fn (fuel : nat) (f : objfile_fn) (objfile : positive)
  : M unit :=
  match f, fuel with
  | Backend_objfile_fn a, _ => run_objfile_fn a objfile
  | _, O => raise OutOfFuel
  | Fn_debug_sym_new_init, S n => debug_sym_new_init (call_objfile_fn n) objfile
  | Fn_debug_sym_init, S n => debug_sym_init (call_objfile_fn n) objfile
  | Fn_debug_sym_finish, S n => debug_sym_finish (call_objfile_fn n) objfile
  | Fn_debug_sym_read_linetable, S n =>
      debug_sym_read_linetable (call_objfile_fn n) objfile
  end.

Fixpoint call_read_fn (fuel : nat) (f : read_fn) (objfile : positive)
    (symfile_flags : Z) : M unit :=
  match f, fuel with
  | Backend_read_fn a, _ => run_read_fn a objfile symfile_flags
  | _, O => raise OutOfFuel
  | Fn_debug_sym_read, S n => debug_sym_read (call_read_fn n) objfile symfile_flags
  end.

Fixpoint call_offsets_fn (fuel : nat) (f : offsets_fn) (objfile info : positive)
  : M unit :=
  match f, fuel with
  | Backend_offsets_fn a, _ => run_offsets_fn a objfile info
  | _, O => raise OutOfFuel
  | Fn_debug_sym_offsets, S n => debug_sym_offsets (call_offsets_fn n) objfile info
  end.

Definition call_segments_fn (f : segments_fn) (abfd : option positive)
  : M (option positive) :=
  match f with
  | Backend_segments_fn a => run_segments_fn a abfd
  | Fn_debug_sym_segments => debug_sym_segments abfd
  end.

Fixpoint call_relocate_fn (fuel : nat) (f : relocate_fn) (objfile : positive)
    (sectp buf : option positive) : M (option positive) :=
  match f, fuel with
  | Backend_relocate_fn a, _ => run_relocate_fn a objfile sectp buf
  | _, O => raise OutOfFuel
  | Fn_debug_sym_relocate, S n =>
      debug_sym_relocate (call_relocate_fn n) objfile sectp buf
  end.

Fixpoint call_get_probes_fn (fuel : nat) (f : get_probes_fn) (objfile : positive)
  : M positive :=
  match f, fuel with
  | Backend_get_probes_fn a, _ => run_get_probes_fn a objfile
  | _, O => raise OutOfFuel
  | Fn_debug_sym_get_probes, S n =>
      debug_sym_get_probes (call_get_probes_fn n) objfile
  end.

(** ** Installing and removing the logging table *)

(** The macro of [install_symfile_debug_logging]:
    [if ((from)->name) (to)->debug_sf.name = func;]. *)
Definition COPY_SF_PTR {F : Type} (from : sym_fns_ptr) (to : positive)
    (name : sym_fns → option F) (set_name : option F → sym_fns → sym_fns)
    (func : F) : M unit :=
  t ← load_sym_fns from;
  match name t with
  | Some _ => update_data to (set_debug_sf (set_name (Some func)))
  | None => mret tt
  end.

(** Install the debugging versions of the symfile functions for OBJFILE.
    Do not call this if the debug versions are already installed. *)
Definition install_symfile_debug_logging (objfile : positive) : M unit :=
  (* The debug versions should not already be installed. *)
  installed ← symfile_debug_installed objfile;
  gdb_assert "!symfile_debug_installed (objfile)" (negb installed);;
  o ← load_objfile objfile;
  let real_sf := sf o in
  (* Alas we have to preserve NULL entries in REAL_SF. *)
  debug_data ← new_data;
  COPY_SF_PTR real_sf debug_data sym_new_init set_sym_new_init Fn_debug_sym_new_init;;
  COPY_SF_PTR real_sf debug_data sym_init set_sym_init Fn_debug_sym_init;;
  COPY_SF_PTR real_sf debug_data sym_read set_sym_read Fn_debug_sym_read;;
  COPY_SF_PTR real_sf debug_data sym_finish set_sym_finish Fn_debug_sym_finish;;
  COPY_SF_PTR real_sf debug_data sym_offsets set_sym_offsets Fn_debug_sym_offsets;;
  COPY_SF_PTR real_sf debug_data sym_segments set_sym_segments Fn_debug_sym_segments;;
  COPY_SF_PTR real_sf debug_data sym_read_linetable set_sym_read_linetable
    Fn_debug_sym_read_linetable;;
  COPY_SF_PTR real_sf debug_data sym_relocate set_sym_relocate Fn_debug_sym_relocate;;
  t ← load_sym_fns real_sf;
  match sym_probe_fns t with
  | Some _ =>
      update_data debug_data
        (set_debug_sf (set_sym_probe_fns (Some Addr_debug_sym_probe_fns)))
  | None => mret tt
  end;;
  update_data debug_data (set_real_sf real_sf);;
  key_set objfile debug_data;;
  store_objfile_sf objfile (Debug_sf debug_data).

(** Uninstall the debugging versions of the symfile functions for OBJFILE.
    Do not call this if the debug versions are not installed. *)
Definition uninstall_symfile_debug_logging (objfile : positive) : M unit :=
  (* The debug versions should be currently installed. *)
  installed ← symfile_debug_installed objfile;
  gdb_assert "symfile_debug_installed (objfile)" installed;;
  debug_data ← key_get objfile;
  data ← load_data debug_data;
  store_objfile_sf objfile (real_sf data);;
  key_clear objfile.

(** Call this function to set OBJFILE->SF.
    Do not set OBJFILE->SF directly. *)
Definition objfile_set_sym_fns (objfile : positive) (sf : sym_fns_ptr) : M unit :=
  installed ← symfile_debug_installed objfile;
  (if installed : bool then
     w ← get_world;
     gdb_assert "debug_symfile" (debug_symfile w);;
     (* Remove the current one, and reinstall a new one later. *)
     uninstall_symfile_debug_logging objfile
   else mret tt : M unit);;
  (* Assume debug logging is disabled. *)
  store_objfile_sf objfile sf;;
  (* Turn debug logging on if enabled. *)
  w ← get_world;
  if debug_symfile w then install_symfile_debug_logging objfile else mret tt.

(** A range-based [for] over a container that the body leaves alone. *)
Fixpoint for_each {A : Type} (l : list A) (body : A → M unit) : M unit :=
  match l with
  | [] => mret tt
  | x :: l' => body x;; for_each l' body
  end.

(** The handler run after [set debug symfile] has stored the new value
    of [debug_symfile]. *)
Definition set_debug_symfile (args : option string) (from_tty : Z)
    (c : option positive) : M unit :=
  w ← get_world;
  for_each (program_spaces w) (λ pspace,
    for_each (objfiles pspace) (λ objfile,
      w ← get_world;
      if debug_symfile w then
        installed ← symfile_debug_installed objfile;
        if negb installed then install_symfile_debug_logging objfile else mret tt
      else
        installed ← symfile_debug_installed objfile;
        if installed : bool then uninstall_symfile_debug_logging objfile else mret tt)).

(** ** Calls through the active table of an objfile

    What a caller elsewhere in gdb does with [objfile->sf->NAME (...)]. *)

Definition active_sym_fns (objfile : positive) : M sym_fns :=
  o ← load_objfile objfile; load_sym_fns (sf o).

Definition invoke_sym_new_init (fuel : nat) (objfile : positive) : M unit :=
  t ← active_sym_fns objfile; f ← nonnull (sym_new_init t);
  call_objfile_fn fuel f objfile.
Definition invoke_sym_init (fuel : nat) (objfile : positive) : M unit :=
  t ← active_sym_fns objfile; f ← nonnull (sym_init t);
  call_objfile_fn fuel f objfile.
Definition invoke_sym_read (fuel : nat) (objfile : positive) (symfile_flags : Z)
  : M unit :=
  t ← active_sym_fns objfile; f ← nonnull (sym_read t);
  call_read_fn fuel f objfile symfile_flags.
Definition invoke_sym_finish (fuel : nat) (objfile : positive) : M unit :=
  t ← active_sym_fns objfile; f ← nonnull (sym_finish t);
  call_objfile_fn fuel f objfile.
Definition invoke_sym_offsets (fuel : nat) (objfile info : positive) : M unit :=
  t ← active_sym_fns objfile; f ← nonnull (sym_offsets t);
  call_offsets_fn fuel f objfile info.
Definition invoke_sym_segments (objfile : positive) (abfd : option positive)
  : M (option positive) :=
  t ← active_sym_fns objfile; f ← nonnull (sym_segments t);
  call_segments_fn f abfd.
Definition invoke_sym_read_linetable (fuel : nat) (objfile : positive) : M unit :=
  t ← active_sym_fns objfile; f ← nonnull (sym_read_linetable t);
  call_objfile_fn fuel f objfile.
Definition invoke_sym_relocate (fuel : nat) (objfile : positive)
    (sectp buf : option positive) : M (option positive) :=
  t ← active_sym_fns objfile; f ← nonnull (sym_relocate t);
  call_relocate_fn fuel f objfile sectp buf.
Definition invoke_sym_get_probes (fuel : nat) (objfile : positive) : M positive :=
  t ← active_sym_fns objfile;
  probe_fns ← load_probe_fns (sym_probe_fns t);
  f ← nonnull (sym_get_probes probe_fns);
  call_get_probes_fn fuel f objfile.

(** ** The [objfile] methods that forward to [qf] *)

(* struct bound_minimal_symbol *)
Record bound_minimal_symbol : Type := Build_bound_minimal_symbol {
  minsym : option positive;
  msym_objfile : option positive
}.

(** The virtual methods of [quick_symbol_functions] that this file calls.
    [qf_lookup_global_symbol_language] takes what the caller's
    [*symbol_found_p] holds and returns what it holds afterwards. *)
Record quick_symbol_functions : Type := Build_quick_symbol_functions {
  qf_can_lazily_read_symbols : M bool;
  qf_has_symbols : positive → M bool;
  qf_find_last_source_symtab : positive → M (option positive);
  qf_forget_cached_source_info : positive → M unit;
  qf_map_symtabs_matching_filename :
    positive → string → option string → positive → M bool;
  qf_lookup_symbol : positive → Z → string → Z → M (option positive);
  qf_print_stats : positive → bool → M unit;
  qf_dump : positive → M unit;
  qf_expand_symtabs_for_function : positive → string → M unit;
  qf_expand_all_symtabs : positive → M unit;
  qf_expand_symtabs_with_fullname : positive → string → M unit;
  qf_map_matching_symbols :
    positive → positive → Z → Z → positive → option positive → M unit;
  qf_expand_symtabs_matching :
    positive → positive → option positive → positive → positive → Z → M unit;
  qf_find_pc_sect_compunit_symtab :
    positive → bound_minimal_symbol → Z → option positive → Z → M (option positive);
  qf_map_symbol_filenames :
    positive → option positive → option positive → Z → M unit;
  qf_find_compunit_symtab_by_address : positive → Z → M (option positive);
  qf_lookup_global_symbol_language : positive → string → Z → bool → M (Z * bool)
}.

(** The object behind each non-null [qf]. *)
Class qf_objects : Type := Build_qf_objects {
  qf_object : positive → quick_symbol_functions
}.

(** Two constants of headers that are not part of the sources. *)
Class header_constants : Type := Build_header_constants {
  OBJF_PSYMTABS_READ : Z;
  language_unknown : Z
}.

Context {qfs : qf_objects} {consts : header_constants}.

(** [this->qf]. *)
Definition this_qf (this : positive) : M (option positive) :=
  o ← load_objfile this; mret (qf o).

(** [if (debug_symfile) fprintf_filtered (gdb_stdlog, fmt, args...)]. *)
Definition debug_printf (fmt : string) (args : list farg) : M unit :=
  w ← get_world;
  if debug_symfile w then fprintf_filtered fmt args else mret tt.

Definition symtab_or_NULL (retval : option positive) : farg :=
  match retval with
  | Some s => FSymtabName s
  | None => FStr (Some "NULL"%string)
  end.

Definition primary_filetab_or_NULL (retval : option positive) : farg :=
  match retval with
  | Some cust => FPrimaryFiletabName cust
  | None => FStr (Some "NULL"%string)
  end.

Definition objfile_has_partial_symbols (this : positive) : M bool :=
  o ← load_objfile this;
  (* (flags & OBJF_PSYMTABS_READ) == 0 && qf != nullptr
     && qf->can_lazily_read_symbols () *)
  lazily ←
    (if bool_decide (Z.land (flags o) OBJF_PSYMTABS_READ = 0) then
       match qf o with
       | Some q => qf_can_lazily_read_symbols (qf_object q)
       | None => mret false
       end
     else mret false);
  retval ←
    (if lazily : bool then mret true
     else
       q ← this_qf this;
       match q with
       | Some q => qf_has_symbols (qf_object q) this
       | None => mret false
       end);
  debug_printf "qf->has_symbols (%s) = %d\n"
    [FObjfileName this; FInt (Z.b2z retval)];;
  mret retval.

Definition objfile_find_last_source_symtab (this : positive) : M (option positive) :=
  debug_printf "qf->find_last_source_symtab (%s)\n" [FObjfileName this];;
  q ← this_qf this;
  retval ← match q with
           | Some q => qf_find_last_source_symtab (qf_object q) this
           | None => mret None
           end;
  debug_printf "qf->find_last_source_symtab (...) = %s\n" [symtab_or_NULL retval];;
  mret retval.

Definition objfile_forget_cached_source_info (this : positive) : M unit :=
  debug_printf "qf->forget_cached_source_info (%s)\n" [FObjfileName this];;
  q ← this_qf this;
  match q with
  | Some q => qf_forget_cached_source_info (qf_object q) this
  | None => mret tt
  end.

Definition objfile_map_symtabs_matching_filename (this : positive)
    (name : string) (real_path : option string) (callback : positive) : M bool :=
  debug_printf
    ("qf->map_symtabs_matching_filename (%s, " +:+ dquote +:+ "%s" +:+ dquote
       +:+ ", " +:+ dquote +:+ "%s" +:+ dquote +:+ ", %s)\n")
    [FObjfileName this; FStr (Some name); FStr real_path;
     FHostAddr (Some callback)];;
  q ← this_qf this;
  retval ← match q with
           | Some q =>
               qf_map_symtabs_matching_filename (qf_object q) this name
                 real_path callback
           | None => mret false
           end;
  debug_printf "qf->map_symtabs_matching_filename (...) = %d\n"
    [FInt (Z.b2z retval)];;
  mret retval.

Definition objfile_lookup_symbol (this : positive) (kind : Z) (name : string)
    (domain : Z) : M (option positive) :=
  debug_printf
    ("qf->lookup_symbol (%s, %d, " +:+ dquote +:+ "%s" +:+ dquote +:+ ", %s)\n")
    [FObjfileName this; FInt kind; FStr (Some name); FDomainName domain];;
  q ← this_qf this;
  retval ← match q with
           | Some q => qf_lookup_symbol (qf_object q) this kind name domain
           | None => mret None
           end;
  debug_printf "qf->lookup_symbol (...) = %s\n" [primary_filetab_or_NULL retval];;
  mret retval.

Definition objfile_print_stats (this : positive) (print_bcache : bool) : M unit :=
  debug_printf "qf->print_stats (%s, %d)\n"
    [FObjfileName this; FInt (Z.b2z print_bcache)];;
  q ← this_qf this;
  match q with
  | Some q => qf_print_stats (qf_object q) this print_bcache
  | None => mret tt
  end.

Definition objfile_dump (this : positive) : M unit :=
  debug_printf "qf->dump (%s)\n" [FObjfileName this];;
  q ← this_qf this;
  match q with
  | Some q => qf_dump (qf_object q) this
  | None => mret tt
  end.

Definition objfile_expand_symtabs_for_function (this : positive)
    (func_name : string) : M unit :=
  debug_printf
    ("qf->expand_symtabs_for_function (%s, " +:+ dquote +:+ "%s" +:+ dquote
       +:+ ")\n")
    [FObjfileName this; FStr (Some func_name)];;
  q ← this_qf this;
  match q with
  | Some q => qf_expand_symtabs_for_function (qf_object q) this func_name
  | None => mret tt
  end.

Definition objfile_expand_all_symtabs (this : positive) : M unit :=
  debug_printf "qf->expand_all_symtabs (%s)\n" [FObjfileName this];;
  q ← this_qf this;
  match q with
  | Some q => qf_expand_all_symtabs (qf_object q) this
  | None => mret tt
  end.

Definition objfile_expand_symtabs_with_fullname (this : positive)
    (fullname : string) : M unit :=
  debug_printf
    ("qf->expand_symtabs_with_fullname (%s, " +:+ dquote +:+ "%s" +:+ dquote
       +:+ ")\n")
    [FObjfileName this; FStr (Some fullname)];;
  q ← this_qf this;
  match q with
  | Some q => qf_expand_symtabs_with_fullname (qf_object q) this fullname
  | None => mret tt
  end.

Definition objfile_map_matching_symbols (this : positive) (name : positive)
    (domain global : Z) (callback : positive) (ordered_compare : option positive)
  : M unit :=
  debug_printf "qf->map_matching_symbols (%s, %s, %d, %s)\n"
    [FObjfileName this; FDomainName domain; FInt global;
     FHostAddr ordered_compare];;
  q ← this_qf this;
  match q with
  | Some q =>
      qf_map_matching_symbols (qf_object q) this name domain global callback
        ordered_compare
  | None => mret tt
  end.

Definition objfile_expand_symtabs_matching (this : positive)
    (file_matcher : positive) (lookup_name : option positive)
    (symbol_matcher expansion_notify : positive) (kind : Z) : M unit :=
  debug_printf "qf->expand_symtabs_matching (%s, %s, %s, %s, %s)\n"
    [FObjfileName this; FHostAddr (Some file_matcher);
     FHostAddr (Some symbol_matcher); FHostAddr (Some expansion_notify);
     FSearchDomainName kind];;
  q ← this_qf this;
  match q with
  | Some q =>
      qf_expand_symtabs_matching (qf_object q) this file_matcher lookup_name
        symbol_matcher expansion_notify kind
  | None => mret tt
  end.

Definition objfile_find_pc_sect_compunit_symtab (this : positive)
    (msymbol : bound_minimal_symbol) (pc : Z) (section : option positive)
    (warn_if_readin : Z) : M (option positive) :=
  debug_printf "qf->find_pc_sect_compunit_symtab (%s, %s, %s, %s, %d)\n"
    [FObjfileName this; FHostAddr (minsym msymbol); FHex pc; FHostAddr section;
     FInt warn_if_readin];;
  q ← this_qf this;
  retval ← match q with
           | Some q =>
               qf_find_pc_sect_compunit_symtab (qf_object q) this msymbol pc
                 section warn_if_readin
           | None => mret None
           end;
  debug_printf "qf->find_pc_sect_compunit_symtab (...) = %s\n"
    [primary_filetab_or_NULL retval];;
  mret retval.

Definition objfile_map_symbol_filenames (this : positive)
    (fun_ data : option positive) (need_fullname : Z) : M unit :=
  debug_printf "qf->map_symbol_filenames (%s, %s, %s, %d)\n"
    [FObjfileName this; FHostAddr fun_; FHostAddr data; FInt need_fullname];;
  q ← this_qf this;
  match q with
  | Some q => qf_map_symbol_filenames (qf_object q) this fun_ data need_fullname
  | None => mret tt
  end.

Definition objfile_find_compunit_symtab_by_address (this : positive)
    (address : Z) : M (option positive) :=
  debug_printf "qf->find_compunit_symtab_by_address (%s, %s)\n"
    [FObjfileName this; FHex address];;
  q ← this_qf this;
  result ← match q with
           | Some q => qf_find_compunit_symtab_by_address (qf_object q) this address
           | None => mret None
           end;
  debug_printf "qf->find_compunit_symtab_by_address (...) = %s\n"
    [primary_filetab_or_NULL result];;
  mret result.

Definition objfile_lookup_global_symbol_language (this : positive)
    (name : string) (domain : Z) (symbol_found_p : bool) : M (Z * bool) :=
  q ← this_qf this;
  match q with
  | Some q =>
      qf_lookup_global_symbol_language (qf_object q) this name domain
        symbol_found_p
  | None => mret (language_unknown, false)
  end.

(** ** Notions used to state the properties *)

(** The state with [x] stored at [d] in the memory of logging data. *)
Definition with_data (d : positive) (x : debug_sym_fns_data) (w : world) : world :=
  set_debug_data_mem (<[d := x]> (debug_data_mem w)) w.

(** [objfile->sf] read off the state. *)
Definition sf_of (w : world) (objfile : positive) : option sym_fns_ptr :=
  sf <$> objfile_mem w !! objfile.

(** Whether logging is installed for [objfile], read off the state. *)
Definition installed_in (w : world) (objfile : positive) : bool :=
  match objfile_mem w !! objfile with
  | Some o =>
      match sf o, symfile_debug_objfile_data_key w !! objfile with
      | NULL_sf, _ => false
      | _, Some _ => true
      | _, None => false
      end
  | None => false
  end.

(** The nine members of [struct sym_fns]. *)
Inductive slot : Type :=
  | Slot_sym_new_init
  | Slot_sym_init
  | Slot_sym_read
  | Slot_sym_finish
  | Slot_sym_offsets
  | Slot_sym_segments
  | Slot_sym_read_linetable
  | Slot_sym_relocate
  | Slot_sym_probe_fns.

Definition populated (s : slot) (t : sym_fns) : bool :=
  match s with
  | Slot_sym_new_init => bool_decide (is_Some (sym_new_init t))
  | Slot_sym_init => bool_decide (is_Some (sym_init t))
  | Slot_sym_read => bool_decide (is_Some (sym_read t))
  | Slot_sym_finish => bool_decide (is_Some (sym_finish t))
  | Slot_sym_offsets => bool_decide (is_Some (sym_offsets t))
  | Slot_sym_segments => bool_decide (is_Some (sym_segments t))
  | Slot_sym_read_linetable => bool_decide (is_Some (sym_read_linetable t))
  | Slot_sym_relocate => bool_decide (is_Some (sym_relocate t))
  | Slot_sym_probe_fns => bool_decide (is_Some (sym_probe_fns t))
  end.

(** The slot holds the logging function written for it (for the probe
    table: the address of [debug_sym_probe_fns]). *)
Definition holds_proxy (s : slot) (t : sym_fns) : Prop :=
  match s with
  | Slot_sym_new_init => sym_new_init t = Some Fn_debug_sym_new_init
  | Slot_sym_init => sym_init t = Some Fn_debug_sym_init
  | Slot_sym_read => sym_read t = Some Fn_debug_sym_read
  | Slot_sym_finish => sym_finish t = Some Fn_debug_sym_finish
  | Slot_sym_offsets => sym_offsets t = Some Fn_debug_sym_offsets
  | Slot_sym_segments => sym_segments t = Some Fn_debug_sym_segments
  | Slot_sym_read_linetable =>
      sym_read_linetable t = Some Fn_debug_sym_read_linetable
  | Slot_sym_relocate => sym_relocate t = Some Fn_debug_sym_relocate
  | Slot_sym_probe_fns => sym_probe_fns t = Some Addr_debug_sym_probe_fns
  end.

(** [func] where the slot [v] is populated, null where it is not. *)
Definition proxy_for {F G : Type} (v : option F) (func : G) : option G :=
  match v with
  | Some _ => Some func
  | None => None
  end.

(** The table that wraps [t]. *)
Definition logging_copy (t : sym_fns) : sym_fns :=
  {| sym_new_init := proxy_for (sym_new_init t) Fn_debug_sym_new_init;
     sym_init := proxy_for (sym_init t) Fn_debug_sym_init;
     sym_read := proxy_for (sym_read t) Fn_debug_sym_read;
     sym_finish := proxy_for (sym_finish t) Fn_debug_sym_finish;
     sym_offsets := proxy_for (sym_offsets t) Fn_debug_sym_offsets;
     sym_segments := proxy_for (sym_segments t) Fn_debug_sym_segments;
     sym_read_linetable :=
       proxy_for (sym_read_linetable t) Fn_debug_sym_read_linetable;
     sym_relocate := proxy_for (sym_relocate t) Fn_debug_sym_relocate;
     sym_probe_fns := proxy_for (sym_probe_fns t) Addr_debug_sym_probe_fns |}.

(** The state in which [objfile], whose record was [o], has the logging
    data [d] wrapping the table [t] that [o] pointed to. *)
Definition world_with_logging (w : world) (objfile : positive) (o : struct_objfile)
    (d : positive) (t : sym_fns) : world :=
  Build_world
    (<[objfile := set_sf (Debug_sf d) o]> (objfile_mem w))
    (program_spaces w)
    (<[objfile := d]> (symfile_debug_objfile_data_key w))
    (<[d := Build_debug_sym_fns_data (sf o) (logging_copy t)]> (debug_data_mem w))
    (debug_symfile w)
    (extern w).

(** The state in which the logging data [d] of [objfile] is gone and its
    table pointer is [p]. *)
Definition world_without_logging (w : world) (objfile : positive)
    (o : struct_objfile) (d : positive) (p : sym_fns_ptr) : world :=
  Build_world
    (<[objfile := set_sf p o]> (objfile_mem w))
    (program_spaces w)
    (delete objfile (symfile_debug_objfile_data_key w))
    (delete d (debug_data_mem w))
    (debug_symfile w)
    (extern w).

(** The invariants of the data model, for one objfile: an entry of the
    registry exists only while [debug_symfile] is on, names live logging
    data, and the objfile then points at the table inside that data. *)
Definition consistent (w : world) (objfile : positive) : bool :=
  match symfile_debug_objfile_data_key w !! objfile with
  | None => true
  | Some d =>
      debug_symfile w
      && bool_decide (sf_of w objfile = Some (Debug_sf d))
      && bool_decide (is_Some (debug_data_mem w !! d))
  end.

(** The trace lines of the logging functions. *)
Definition line_sym_new_init (objfile : positive) : log_line :=
  Printf "sf->sym_new_init (%s)\n" [FObjfileName objfile].
Definition line_sym_init (objfile : positive) : log_line :=
  Printf "sf->sym_init (%s)\n" [FObjfileName objfile].
Definition line_sym_read (objfile : positive) (symfile_flags : Z) : log_line :=
  Printf "sf->sym_read (%s, 0x%x)\n"
    [FObjfileName objfile; FUnsigned (Z.land symfile_flags (Z.ones 32))].
Definition line_sym_finish (objfile : positive) : log_line :=
  Printf "sf->sym_finish (%s)\n" [FObjfileName objfile].
Definition line_sym_offsets (objfile info : positive) : log_line :=
  Printf "sf->sym_offsets (%s, %s)\n" [FObjfileName objfile; FHostAddr (Some info)].
Definition line_sym_read_linetable (objfile : positive) : log_line :=
  Printf "sf->sym_read_linetable (%s)\n" [FObjfileName objfile].
Definition line_sym_relocate (objfile : positive) (sectp buf retval : option positive)
  : log_line :=
  Printf "sf->sym_relocate (%s, %s, %s) = %s\n"
    [FObjfileName objfile; FHostAddr sectp; FHostAddr buf; FHostAddr retval].
Definition line_sym_get_probes (objfile retval : positive) : log_line :=
  Printf "probes->sym_get_probes (%s) = %s\n"
    [FObjfileName objfile; FVectorData retval].

(** A run with [l] printed after it, when it returned. *)
Definition printed_after {A : Type} (r : result A) (l : A → list log_line)
  : result A :=
  match res r with
  | Returned a => Result (res r) (final r) (out r ++ l a)
  | _ => r
  end.

(** Two runs that end the same way and leave the same state. *)
Definition same_result {A : Type} (r r' : result A) : Prop :=
  res r = res r' ∧ final r = final r'.

(** [w'] agrees with [w] on the table pointer and the other members of
    [objfile], on its registry entry and on [debug_symfile]. *)
Definition same_at (objfile : positive) (w w' : world) : Prop :=
  objfile_mem w' !! objfile = objfile_mem w !! objfile
  ∧ symfile_debug_objfile_data_key w' !! objfile
    = symfile_debug_objfile_data_key w !! objfile
  ∧ debug_symfile w' = debug_symfile w.

(** Code that leaves [objfile] alone, however it ends. *)
Definition frames {A : Type} (objfile : positive) (c : M A) : Prop :=
  ∀ w, same_at objfile w (final (c w)).

(** The table behind a non-null [const struct sym_probe_fns *]. *)
Definition probe_fns_at (p : sym_probe_fns_ptr) : struct_sym_probe_fns :=
  match p with
  | Static_probe_fns a => static_probe_fns a
  | Addr_debug_sym_probe_fns => debug_sym_probe_fns
  end.

(** A run that returned [v] and left the state [w]. *)
Definition returns_unchanged {A : Type} (r : result A) (v : A) (w : world) : Prop :=
  res r = Returned v ∧ final r = w.

(** The output of the run [r] is that of the run [r'] with one line put
    before it and at most one line after it, none if [r'] did not
    return. *)
Definition logged_around {A : Type} (r r' : result A) : Prop :=
  ∃ before tail,
    out r = before :: out r' ++ tail
    ∧ (length tail ≤ 1)%nat
    ∧ ((∀ v, res r' ≠ Returned v) → tail = []).

(** Code that prints nothing on [gdb_stdlog], however it ends. *)
Definition silent {A : Type} (c : M A) : Prop := ∀ w, out (c w) = [].

(** The registry entry [d] of [objfile] is sound: the objfile is live and
    points at the table inside [d], and [d] is live logging data. *)
Definition entry_ok (w : world) (objfile d : positive) : Prop :=
  sf_of w objfile = Some (Debug_sf d) ∧ is_Some (debug_data_mem w !! d).

(** The registry as a whole: every entry is sound and no two objfiles
    share their logging data. *)
Definition well_formed (w : world) : Prop :=
  map_Forall (entry_ok w) (symfile_debug_objfile_data_key w)
  ∧ map_Forall
      (λ objfile1 d1,
         map_Forall (λ objfile2 d2, d1 = d2 → objfile1 = objfile2)
           (symfile_debug_objfile_data_key w))
      (symfile_debug_objfile_data_key w).

(** [objfile] has logging installed around the table pointer [p]. *)
Definition wraps (w : world) (objfile : positive) (p : sym_fns_ptr) : Prop :=
  ∃ d x,
    sf_of w objfile = Some (Debug_sf d)
    ∧ symfile_debug_objfile_data_key w !! objfile = Some d
    ∧ debug_data_mem w !! d = Some x
    ∧ real_sf x = p
    ∧ ∀ a, p = Static_sf a → debug_sf x = logging_copy (static_sf a).

(** The pointer of a live objfile to a backend's static table. *)
Definition is_static (p : option sym_fns_ptr) : bool :=
  match p with
  | Some (Static_sf _) => true
  | _ => false
  end.

(** [P] holds of every objfile of every program space. *)
Definition all_listed (w : world) (P : positive → Prop) : Prop :=
  Forall (λ pspace, Forall P (objfiles pspace)) (program_spaces w).

(** The assignment [debug_symfile = b]. *)
Definition with_debug_symfile (b : bool) (w : world) : world :=
  Build_world (objfile_mem w) (program_spaces w)
    (symfile_debug_objfile_data_key w) (debug_data_mem w) b (extern w).

(** What holds between the state [w0] in which the handler starts with
    [debug_symfile] on and any state [w] it passes through: old entries
    stay, objfiles without entry are as they were, and an objfile that got
    its entry since wraps the table it pointed at. *)
Definition enabling_invariant (w0 w : world) : Prop :=
  debug_symfile w = true
  ∧ well_formed w
  ∧ program_spaces w = program_spaces w0
  ∧ (∀ objfile d, symfile_debug_objfile_data_key w0 !! objfile = Some d →
                  symfile_debug_objfile_data_key w !! objfile = Some d)
  ∧ (∀ objfile, symfile_debug_objfile_data_key w !! objfile = None →
                objfile_mem w !! objfile = objfile_mem w0 !! objfile)
  ∧ (∀ objfile a, symfile_debug_objfile_data_key w0 !! objfile = None →
                  sf_of w0 objfile = Some (Static_sf a) →
                  is_Some (symfile_debug_objfile_data_key w !! objfile) →
                  wraps w objfile (Static_sf a)).

(** The same with [debug_symfile] off: live objfiles stay live, the
    entries that are left are old and their data is as it was, objfiles
    that had no entry keep their pointer, and an objfile that lost its
    entry points at the table its data recorded. *)
Definition disabling_invariant (w0 w : world) : Prop :=
  debug_symfile w = false
  ∧ well_formed w
  ∧ program_spaces w = program_spaces w0
  ∧ (∀ objfile, is_Some (objfile_mem w0 !! objfile) →
                is_Some (objfile_mem w !! objfile))
  ∧ (∀ objfile d, symfile_debug_objfile_data_key w !! objfile = Some d →
                  symfile_debug_objfile_data_key w0 !! objfile = Some d
                  ∧ debug_data_mem w !! d = debug_data_mem w0 !! d)
  ∧ (∀ objfile, symfile_debug_objfile_data_key w0 !! objfile = None →
                sf_of w objfile = sf_of w0 objfile)
  ∧ (∀ objfile d x, symfile_debug_objfile_data_key w0 !! objfile = Some d →
                    debug_data_mem w0 !! d = Some x →
                    symfile_debug_objfile_data_key w !! objfile = None →
                    sf_of w objfile = Some (real_sf x)).

(** The table a [const struct sym_fns *] points at: none behind a null
    pointer or behind the address of logging data that is not live. *)
Definition table_at (w : world) (p : sym_fns_ptr) : option sym_fns :=
  match p with
  | NULL_sf => None
  | Static_sf a => Some (static_sf a)
  | Debug_sf d => debug_sf <$> debug_data_mem w !! d
  end.

(** [p] is a table that [objfile] can be given while logging is on: it
    points at a table, and not at the one inside the logging data of
    [objfile] itself, which is discarded before [p] is used. *)
Definition valid_new_table (w : world) (objfile : positive) (p : sym_fns_ptr)
  : Prop :=
  is_Some (table_at w p)
  ∧ match symfile_debug_objfile_data_key w !! objfile with
    | Some d => p ≠ Debug_sf d
    | None => True
    end.

(** The logging data of [objfile], if it has any, is live and no other
    objfile has it as its entry. *)
Definition owns_its_data (w : world) (objfile : positive) : Prop :=
  match symfile_debug_objfile_data_key w !! objfile with
  | Some d =>
      is_Some (debug_data_mem w !! d)
      ∧ map_Forall (λ objfile' d', d' = d → objfile' = objfile)
          (symfile_debug_objfile_data_key w)
  | None => True
  end.

(** [c], started in a state where [P] holds, fails no assertion; when it
    returns [a] it leaves a state where [Q a] holds, and when it ends in
    another way it leaves one where [E] holds. *)
Definition triple {A : Type} (P : world → Prop) (c : M A)
    (Q : A → world → Prop) (E : world → Prop) : Prop :=
  ∀ w, P w →
    match res (c w) with
    | Returned a => Q a (final (c w))
    | InternalError _ => False
    | _ => E (final (c w))
    end.

(** What the handler keeps of an [objfile] that is already in the state
    the flag asks for, between the state [w0] in which it starts and any
    state [w] it passes through: the objfile, its registry entry and the
    flag, and, if the objfile owned its logging data in [w0], that data
    and the ownership of it. *)
Definition kept (objfile : positive) (w0 w : world) : Prop :=
  same_at objfile w0 w
  ∧ (owns_its_data w0 objfile →
     ∀ d, symfile_debug_objfile_data_key w0 !! objfile = Some d →
          debug_data_mem w !! d = debug_data_mem w0 !! d
          ∧ is_Some (debug_data_mem w !! d)
          ∧ ∀ objfile', symfile_debug_objfile_data_key w !! objfile' = Some d →
                        objfile' = objfile).

(** The same while the logging data [dnew] of another objfile,
    [objfile'], is being filled in: [dnew] is live and is not the data of
    [objfile], and [objfile'] is live and has no entry yet. *)
Definition kept_installing (objfile : positive) (w0 : world)
    (objfile' dnew : positive) (w : world) : Prop :=
  kept objfile w0 w
  ∧ is_Some (debug_data_mem w !! dnew)
  ∧ (owns_its_data w0 objfile →
     symfile_debug_objfile_data_key w0 !! objfile ≠ Some dnew)
  ∧ symfile_debug_objfile_data_key w !! objfile' = None
  ∧ is_Some (objfile_mem w !! objfile').

(** The body of the loops of [set_debug_symfile], for one objfile. *)
Definition toggle_one (objfile : positive) : M unit :=
  w ← get_world;
  if debug_symfile w then
    installed ← symfile_debug_installed objfile;
    if negb installed then install_symfile_debug_logging objfile else mret tt
  else
    installed ← symfile_debug_installed objfile;
    if installed : bool then uninstall_symfile_debug_logging objfile else mret tt.

End Symfile_debug.

Arguments world : clear implicits.
Arguments result : clear implicits.
Arguments M : clear implicits.
Arguments backends : clear implicits.
Arguments quick_symbol_functions : clear implicits.
Arguments qf_objects : clear implicits.
Arguments Result {ext A} res final out.
Arguments res {ext A} r.
Arguments final {ext A} r.
Arguments out {ext A} r.

Global Instance entry_ok_dec {ext : Type} (w : world ext) objfile d :
  Decision (entry_ok w objfile d).
Proof. unfold entry_ok. apply _. Defined.

Global Instance well_formed_dec {ext : Type} (w : world ext) :
  Decision (well_formed w).
Proof. unfold well_formed. apply _. Defined.

Global Instance all_listed_dec {ext : Type} (w : world ext) (P : positive → Prop)
  `{∀ objfile, Decision (P objfile)} : Decision (all_listed w P).
Proof. unfold all_listed. apply _. Defined.

Global Instance valid_new_table_dec {ext : Type} {code : backends ext}
  (w : world ext) objfile p : Decision (valid_new_table w objfile p).
Proof.
  unfold valid_new_table.
  destruct (symfile_debug_objfile_data_key w !! objfile); apply _.
Defined.

Global Instance owns_its_data_dec {ext : Type} (w : world ext) objfile :
  Decision (owns_its_data w objfile).
Proof.
  unfold owns_its_data.
  destruct (symfile_debug_objfile_data_key w !! objfile); apply _.
Defined.

(** ** A small instance

    One objfile, at address 1, with two backends.  Table 1 has every slot
    but [sym_finish] and [sym_read_linetable]; table 2 has [sym_read] and a
    [sym_relocate] that always throws.  No backend prints or touches the
    state. *)

Definition example_table_1 : sym_fns :=
  {| sym_new_init := Some (Backend_objfile_fn 10);
     sym_init := Some (Backend_objfile_fn 11);
     sym_read := Some (Backend_read_fn 12);
     sym_finish := None;
     sym_offsets := Some (Backend_offsets_fn 14);
     sym_segments := Some (Backend_segments_fn 15);
     sym_read_linetable := None;
     sym_relocate := Some (Backend_relocate_fn 17);
     sym_probe_fns := Some (Static_probe_fns 1) |}.

Definition example_table_2 : sym_fns :=
  set_sym_relocate (Some (Backend_relocate_fn 18))
    (set_sym_read (Some (Backend_read_fn 12)) empty_sym_fns).

Global Instance example_backends : backends unit :=
  {| static_sf := λ a, match a with
                       | 1%positive => example_table_1
                       | 2%positive => example_table_2
                       | _ => empty_sym_fns
                       end;
     static_probe_fns := λ _, {| sym_get_probes := Some (Backend_get_probes_fn 19) |};
     run_objfile_fn := λ _ _, mret tt;
     run_read_fn := λ _ _ _, mret tt;
     run_offsets_fn := λ _ _ _, mret tt;
     run_segments_fn := λ _ _, mret (Some 5%positive);
     run_relocate_fn := λ a _ _ buf,
       match a with
       | 18%positive => raise (Thrown 1)
       | _ => mret buf
       end;
     run_get_probes_fn := λ _ _, mret 9%positive |}.

Definition example_qf : quick_symbol_functions unit :=
  {| qf_can_lazily_read_symbols := mret false;
     qf_has_symbols := λ _, mret true;
     qf_find_last_source_symtab := λ _, mret None;
     qf_forget_cached_source_info := λ _, mret tt;
     qf_map_symtabs_matching_filename := λ _ _ _ _, mret false;
     qf_lookup_symbol := λ _ _ _ _, mret None;
     qf_print_stats := λ _ _, mret tt;
     qf_dump := λ _, mret tt;
     qf_expand_symtabs_for_function := λ _ _, mret tt;
     qf_expand_all_symtabs := λ _, mret tt;
     qf_expand_symtabs_with_fullname := λ _ _, mret tt;
     qf_map_matching_symbols := λ _ _ _ _ _ _, mret tt;
     qf_expand_symtabs_matching := λ _ _ _ _ _ _, mret tt;
     qf_find_pc_sect_compunit_symtab := λ _ _ _ _ _, mret None;
     qf_map_symbol_filenames := λ _ _ _ _, mret tt;
     qf_find_compunit_symtab_by_address := λ _ _, mret None;
     qf_lookup_global_symbol_language := λ _ _ _ found, mret (1, found) |}.

Global Instance example_qf_objects : qf_objects unit :=
  {| qf_object := λ _, example_qf |}.

Global Instance example_constants : header_constants :=
  {| OBJF_PSYMTABS_READ := 8; language_unknown := 0 |}.

(** The objfile at 1 points at table [p]; nothing is installed. *)
Definition example_world (p : sym_fns_ptr) (debug_symfile : bool) : world unit :=
  {| objfile_mem := {[ 1%positive := {| sf := p; qf := None; flags := 0 |} ]};
     program_spaces := [Build_program_space [1%positive]];
     symfile_debug_objfile_data_key := ∅;
     debug_data_mem := ∅;
     debug_symfile := debug_symfile;
     extern := tt |}.

(** The same after [set debug symfile on] has installed the logging. *)
Definition example_world_logging (a : positive) : world unit :=
  final (install_symfile_debug_logging 1 (example_world (Static_sf a) true)).

(** The same with the flag switched off behind the back of the handler,
    which leaves the logging installed. *)
Definition example_world_stale (a : positive) : world unit :=
  let w := example_world_logging a in
  Build_world (objfile_mem w) (program_spaces w)
    (symfile_debug_objfile_data_key w) (debug_data_mem w) false (extern w).

(** The record of the objfile at 1 while it points at [p]. *)
Definition example_objfile (p : sym_fns_ptr) : struct_objfile :=
  Build_objfile p None 0.

(** The objfile at 1 with a [qf] object and the given [flags]. *)
Definition example_objfile_qf (flags : Z) : struct_objfile :=
  {| sf := Static_sf 1; qf := Some 1%positive; flags := flags |}.

Definition example_world_qf (flags : Z) (debug_symfile : bool) : world unit :=
  {| objfile_mem := {[ 1%positive := example_objfile_qf flags ]};
     program_spaces := [Build_program_space [1%positive]];
     symfile_debug_objfile_data_key := ∅;
     debug_data_mem := ∅;
     debug_symfile := debug_symfile;
     extern := tt |}.

(** The logging data that installing over table [a] allocates. *)
Definition example_data (a : positive) : debug_sym_fns_data :=
  {| real_sf := Static_sf a; debug_sf := logging_copy (static_sf a) |}.

(** Two objfiles, at 1 and 2, pointing at tables 1 and 2, in two program
    spaces; the objfile at 1 is listed twice.  Nothing is installed. *)
Definition example_world_two (debug_symfile : bool) : world unit :=
  {| objfile_mem :=
       {[ 1%positive := example_objfile (Static_sf 1);
          2%positive := example_objfile (Static_sf 2) ]};
     program_spaces :=
       [Build_program_space [1%positive];
        Build_program_space [2%positive; 1%positive]];
     symfile_debug_objfile_data_key := ∅;
     debug_data_mem := ∅;
     debug_symfile := debug_symfile;
     extern := tt |}.

(** The same after the handler has installed the logging everywhere,
    with the flag then switched off. *)
Definition example_world_two_logging : world unit :=
  with_debug_symfile false
    (final (set_debug_symfile None 0 None (example_world_two true))).

(** The two objfiles with [debug_symfile] on and the logging installed
    for the objfile at 1 only. *)
Definition example_world_half : world unit :=
  final (install_symfile_debug_logging 1 (example_world_two true)).

(** * Verification *)

(** Unfolding of the monad and of the primitives, leaving the maps alone. *)
Ltac mred :=
  cbv beta iota zeta delta
    [mbind M_mbind M_bind mret M_mret M_ret raise get_world modify_world
     propagate fprintf_filtered gdb_assert gdb_assert_not_reached
     load_objfile store_objfile_sf key_get key_set key_clear new_data
     load_data update_data nonnull load_sym_fns load_probe_fns
     symfile_debug_installed COPY_SF_PTR negb debug_printf this_qf
     active_sym_fns];
  cbn [objfile_mem program_spaces symfile_debug_objfile_data_key debug_data_mem
       debug_symfile extern set_objfile_mem set_key set_debug_data_mem].

Section Verification.

Context {ext : Type} {code : backends ext} {qfs : qf_objects ext}
  {consts : header_constants}.

Implicit Types (w : world ext) (objfile d : positive) (o : struct_objfile)
  (t : sym_fns) (p : sym_fns_ptr) (x : debug_sym_fns_data).

(** ** Running the monad *)

Lemma bind_returned {A B : Type} (m : M ext A) (k : A → M ext B) w a w' l :
  m w = Result (Returned a) w' l →
  (m ≫= k) w = printed_before l (k a w').
Proof.
  intros H. unfold printed_before. mred. rewrite H. by destruct (k a w').
Qed.

Lemma bind_silent {A B : Type} (m : M ext A) (k : A → M ext B) w a w' :
  m w = Result (Returned a) w' [] → (m ≫= k) w = k a w'.
Proof.
  intros H. rewrite (bind_returned _ _ _ _ _ _ H).
  unfold printed_before. by destruct (k a w').
Qed.

Lemma bind_failed {A B : Type} (m : M ext A) (k : A → M ext B) w
    (r : outcome A) w' l :
  m w = Result r w' l → (∀ a, r ≠ Returned a) →
  (m ≫= k) w = Result (propagate r Fault) w' l.
Proof.
  intros H Hr. mred. rewrite H. destruct r; try done. by destruct (Hr a).
Qed.

Lemma load_objfile_run w objfile o :
  objfile_mem w !! objfile = Some o →
  load_objfile objfile w = Result (Returned o) w [].
Proof. intros H. mred. by rewrite H. Qed.

Lemma symfile_debug_installed_run w objfile o :
  objfile_mem w !! objfile = Some o →
  symfile_debug_installed objfile w
  = Result (Returned (installed_in w objfile)) w [].
Proof.
  intros H. unfold installed_in. mred. rewrite H.
  destruct (sf o); [done | |];
    by destruct (symfile_debug_objfile_data_key w !! objfile).
Qed.

Lemma update_data_run w d x f :
  debug_data_mem w !! d = Some x →
  update_data d f w = Result (Returned tt) (with_data d (f x) w) [].
Proof. intros H. unfold with_data. mred. by rewrite H. Qed.

Lemma with_data_twice d x y w : with_data d y (with_data d x w) = with_data d y w.
Proof.
  unfold with_data, set_debug_data_mem. simpl. by rewrite insert_insert_eq.
Qed.

Lemma with_data_lookup d x w : debug_data_mem (with_data d x w) !! d = Some x.
Proof. unfold with_data. simpl. apply lookup_insert_eq. Qed.

(** A table that can be read stays readable, and the same, when a new
    object is allocated. *)
Lemma load_sym_fns_with_data p t w d x :
  load_sym_fns p w = Result (Returned t) w [] →
  debug_data_mem w !! d = None →
  load_sym_fns p (with_data d x w) = Result (Returned t) (with_data d x w) [].
Proof.
  intros H Hd. destruct p as [|a|d']; mred; [done | | ].
  - revert H. mred. congruence.
  - revert H. mred. unfold with_data. simpl.
    destruct (decide (d = d')) as [->|Hne].
    + by rewrite Hd.
    + rewrite lookup_insert_ne by done.
      destruct (debug_data_mem w !! d'); [|done]. congruence.
Qed.

Lemma COPY_SF_PTR_run {F : Type} from d (name : sym_fns → option F) set_name func
    t x w :
  load_sym_fns from (with_data d x w) = Result (Returned t) (with_data d x w) [] →
  COPY_SF_PTR from d name set_name func (with_data d x w)
  = Result (Returned tt)
      (with_data d (set_debug_sf (λ s, match name t with
                                       | Some _ => set_name (Some func) s
                                       | None => s
                                       end) x) w) [].
Proof.
  intros H. unfold COPY_SF_PTR. rewrite (bind_silent _ _ _ _ _ H).
  destruct (name t).
  - rewrite (update_data_run _ _ x) by apply with_data_lookup.
    by rewrite with_data_twice.
  - by destruct x.
Qed.

Lemma optional_update_run {F : Type} (v : option F) d f x w :
  (match v with Some _ => update_data d (set_debug_sf f) | None => mret tt end)
    (with_data d x w)
  = Result (Returned tt)
      (with_data d (set_debug_sf (λ s, match v with Some _ => f s | None => s end) x)
         w) [].
Proof.
  destruct v.
  - rewrite (update_data_run _ _ x) by apply with_data_lookup.
    by rewrite with_data_twice.
  - by destruct x.
Qed.

Lemma fresh_data_unused w : debug_data_mem w !! fresh (dom (debug_data_mem w)) = None.
Proof. apply not_elem_of_dom, is_fresh. Qed.

(** ** What installing and uninstalling do *)

Lemma installed_in_no_entry w objfile :
  symfile_debug_objfile_data_key w !! objfile = None →
  installed_in w objfile = false.
Proof.
  intros H. unfold installed_in. rewrite H.
  destruct (objfile_mem w !! objfile) as [o|]; [|done]. by destruct (sf o).
Qed.

Lemma install_run w objfile o t :
  objfile_mem w !! objfile = Some o →
  load_sym_fns (sf o) w = Result (Returned t) w [] →
  symfile_debug_objfile_data_key w !! objfile = None →
  install_symfile_debug_logging objfile w
  = Result (Returned tt)
      (world_with_logging w objfile o (fresh (dom (debug_data_mem w))) t) [].
Proof.
  intros Ho Ht Hk. unfold install_symfile_debug_logging.
  rewrite (bind_silent _ _ _ _ _ (symfile_debug_installed_run _ _ _ Ho)).
  rewrite installed_in_no_entry by done.
  rewrite (bind_silent (gdb_assert _ _) _ w tt w) by done.
  rewrite (bind_silent _ _ _ _ _ (load_objfile_run _ _ _ Ho)).
  set (d := fresh (dom (debug_data_mem w))).
  assert (Hd : debug_data_mem w !! d = None) by apply fresh_data_unused.
  rewrite (bind_silent new_data _ w d (with_data d new_debug_sym_fns_data w))
    by done.
  pose proof (λ x, load_sym_fns_with_data _ _ _ d x Ht Hd) as Hload.
  do 8 (erewrite bind_silent; [|by apply COPY_SF_PTR_run]).
  rewrite (bind_silent _ _ _ _ _ (Hload _)).
  erewrite bind_silent; [|by apply optional_update_run].
  erewrite bind_silent; [|by apply update_data_run, with_data_lookup].
  rewrite with_data_twice.
  unfold with_data. mred. rewrite Hk. mred. rewrite Ho. mred.
  unfold world_with_logging. do 3 f_equal.
  unfold logging_copy, proxy_for.
  destruct t as [[?|] [?|] [?|] [?|] [?|] [?|] [?|] [?|] [?|]]; reflexivity.
Qed.

Lemma uninstall_run w objfile o d x :
  objfile_mem w !! objfile = Some o →
  sf o ≠ NULL_sf →
  symfile_debug_objfile_data_key w !! objfile = Some d →
  debug_data_mem w !! d = Some x →
  uninstall_symfile_debug_logging objfile w
  = Result (Returned tt) (world_without_logging w objfile o d (real_sf x)) [].
Proof.
  intros Ho Hsf Hk Hd. unfold uninstall_symfile_debug_logging.
  rewrite (bind_silent _ _ _ _ _ (symfile_debug_installed_run _ _ _ Ho)).
  unfold installed_in. rewrite Ho, Hk.
  destruct (sf o) eqn:Eo; [done | |]; mred; rewrite Hk, Hd; mred;
    rewrite Ho; mred; rewrite Hk; done.
Qed.

(** Installing and then uninstalling gives back the very same state. *)
Lemma install_then_uninstall w objfile o t :
  objfile_mem w !! objfile = Some o →
  load_sym_fns (sf o) w = Result (Returned t) w [] →
  symfile_debug_objfile_data_key w !! objfile = None →
  (install_symfile_debug_logging objfile;;
   uninstall_symfile_debug_logging objfile) w
  = Result (Returned tt) w [].
Proof.
  intros Ho Ht Hk.
  rewrite (bind_silent _ _ _ _ _ (install_run _ _ _ _ Ho Ht Hk)).
  set (d := fresh (dom (debug_data_mem w))).
  erewrite (uninstall_run _ objfile (set_sf (Debug_sf d) o) d).
  2: { simpl. apply lookup_insert_eq. }
  2: done.
  2: { simpl. apply lookup_insert_eq. }
  2: { simpl. apply lookup_insert_eq. }
  f_equal. unfold world_without_logging, world_with_logging. simpl.
  rewrite insert_insert_eq, !delete_insert_eq.
  rewrite (delete_id _ _ Hk), (delete_id _ _ (fresh_data_unused w)).
  replace (set_sf (sf o) (set_sf (Debug_sf d) o)) with o by by destruct o.
  rewrite (insert_id _ _ _ Ho). by destruct w.
Qed.

(** *** Claim C4 *)

(** C4.  Round trip.  For every objfile whose active table is an original
    table [Static_sf a], with no entry in the registry, installing the
    logging and uninstalling it at once returns normally, prints nothing,
    and leaves [objfile->sf] equal to the same pointer [Static_sf a] and
    the registry without an entry for the objfile; indeed the whole state
    is the one before. *)
Theorem install_uninstall_round_trip w objfile o a :
  objfile_mem w !! objfile = Some o →
  sf o = Static_sf a →
  symfile_debug_objfile_data_key w !! objfile = None →
  let r := (install_symfile_debug_logging objfile;;
            uninstall_symfile_debug_logging objfile) w in
  res r = Returned tt
  ∧ sf_of (final r) objfile = Some (Static_sf a)
  ∧ symfile_debug_objfile_data_key (final r) !! objfile = None
  ∧ final r = w.
Proof.
  intros Ho Hsf Hk r. subst r.
  rewrite (install_then_uninstall w objfile o (static_sf a)); try done.
  - simpl. unfold sf_of. rewrite Ho. simpl. by rewrite Hsf.
  - by rewrite Hsf.
Qed.

(** *** Claim C1 *)

Lemma logging_copy_slots t (s : slot) :
  (holds_proxy s (logging_copy t) ↔ populated s t = true)
  ∧ (populated s t = false → populated s (logging_copy t) = false).
Proof.
  destruct t as [a1 a2 a3 a4 a5 a6 a7 a8 a9].
  destruct s; simpl;
    match goal with
    | |- context [proxy_for ?v _] => destruct v
    end; simpl; split; try split; try done;
    rewrite ?bool_decide_eq_true, ?bool_decide_eq_false;
    try (intros [? ?]; done); try (intros H; by destruct H); eauto.
Qed.

(** C1.  Absence preservation.  For every original table (the static
    table at any address [a], whatever it holds) and every slot of
    [struct sym_fns], the probe table included: after
    [install_symfile_debug_logging] the table the objfile points at holds
    the logging function of that slot if and only if the slot is
    populated in the original table, and a slot that is null in the
    original is null in the new table. *)
Theorem install_preserves_absence w objfile o a :
  objfile_mem w !! objfile = Some o →
  sf o = Static_sf a →
  symfile_debug_objfile_data_key w !! objfile = None →
  let r := install_symfile_debug_logging objfile w in
  res r = Returned tt
  ∧ ∃ d x,
      sf_of (final r) objfile = Some (Debug_sf d)
      ∧ symfile_debug_objfile_data_key (final r) !! objfile = Some d
      ∧ debug_data_mem (final r) !! d = Some x
      ∧ real_sf x = Static_sf a
      ∧ ∀ s : slot,
          (holds_proxy s (debug_sf x) ↔ populated s (static_sf a) = true)
          ∧ (populated s (static_sf a) = false → populated s (debug_sf x) = false).
Proof.
  intros Ho Hsf Hk r. subst r.
  rewrite (install_run w objfile o (static_sf a)); [|done|by rewrite Hsf|done].
  split; [done|]. simpl.
  exists (fresh (dom (debug_data_mem w))),
    (Build_debug_sym_fns_data (sf o) (logging_copy (static_sf a))).
  unfold sf_of. simpl. rewrite !lookup_insert_eq.
  split; [done|]. split; [done|]. split; [done|]. split; [done|].
  apply logging_copy_slots.
Qed.

(** *** Claim C5 *)

Lemma installed_in_mapped w objfile :
  installed_in w objfile = true → is_Some (objfile_mem w !! objfile).
Proof. unfold installed_in. destruct (objfile_mem w !! objfile); eauto. done. Qed.

Lemma install_when_installed w objfile :
  installed_in w objfile = true →
  install_symfile_debug_logging objfile w
  = Result (InternalError "!symfile_debug_installed (objfile)") w [].
Proof.
  intros Hi. destruct (installed_in_mapped _ _ Hi) as [o Ho].
  unfold install_symfile_debug_logging.
  rewrite (bind_silent _ _ _ _ _ (symfile_debug_installed_run _ _ _ Ho)).
  by rewrite Hi.
Qed.

Lemma uninstall_when_not_installed w objfile o :
  objfile_mem w !! objfile = Some o →
  installed_in w objfile = false →
  uninstall_symfile_debug_logging objfile w
  = Result (InternalError "symfile_debug_installed (objfile)") w [].
Proof.
  intros Ho Hi. unfold uninstall_symfile_debug_logging.
  rewrite (bind_silent _ _ _ _ _ (symfile_debug_installed_run _ _ _ Ho)).
  by rewrite Hi.
Qed.

(** With a null table pointer the assertion of install passes, whether
    the objfile has a registry entry or not, and the first [COPY_SF_PTR]
    reads through the null pointer, after the new object was allocated. *)
Lemma install_null_table w objfile o :
  objfile_mem w !! objfile = Some o →
  sf o = NULL_sf →
  install_symfile_debug_logging objfile w
  = Result Fault
      (with_data (fresh (dom (debug_data_mem w))) new_debug_sym_fns_data w) [].
Proof.
  intros Ho Hsf. unfold install_symfile_debug_logging.
  rewrite (bind_silent _ _ _ _ _ (symfile_debug_installed_run _ _ _ Ho)).
  assert (Hi : installed_in w objfile = false).
  { unfold installed_in. by rewrite Ho, Hsf. }
  rewrite Hi.
  rewrite (bind_silent (gdb_assert _ _) _ w tt w) by done.
  rewrite (bind_silent _ _ _ _ _ (load_objfile_run _ _ _ Ho)).
  set (d := fresh (dom (debug_data_mem w))).
  rewrite (bind_silent new_data _ w d (with_data d new_debug_sym_fns_data w))
    by done.
  rewrite Hsf.
  by rewrite (bind_failed _ _ (with_data d new_debug_sym_fns_data w) Fault
                (with_data d new_debug_sym_fns_data w) []).
Qed.

(** C5 (amended).  The assertions of install and uninstall are on
    [symfile_debug_installed]: installing for an objfile for which logging
    is installed (its table pointer is not null and it has a registry
    entry) stops at once with the assertion failure, and so does
    uninstalling for a live objfile for which it is not installed; in both
    cases nothing is printed and the state is untouched. *)
Theorem install_uninstall_assertions w objfile o :
  objfile_mem w !! objfile = Some o →
  (installed_in w objfile = true →
   install_symfile_debug_logging objfile w
   = Result (InternalError "!symfile_debug_installed (objfile)") w [])
  ∧ (installed_in w objfile = false →
     uninstall_symfile_debug_logging objfile w
     = Result (InternalError "symfile_debug_installed (objfile)") w []).
Proof.
  intros Ho. split.
  - apply install_when_installed.
  - by apply uninstall_when_not_installed with o.
Qed.

(** *** Claim C7 *)

(** C7.  Whatever its argument and the state, [debug_sym_segments] ends
    in the failed assertion [debug_sym_segments called]: it never
    returns, prints nothing and changes nothing; a call through the
    function pointer in the logging table does the same. *)
Theorem debug_sym_segments_aborts (abfd : option positive) w :
  debug_sym_segments abfd w
  = Result (InternalError "debug_sym_segments called") w []
  ∧ call_segments_fn Fn_debug_sym_segments abfd w
    = Result (InternalError "debug_sym_segments called") w []
  ∧ ∀ v, res (call_segments_fn Fn_debug_sym_segments abfd w) ≠ Returned v.
Proof. by repeat split. Qed.

(** *** Claim C10 *)

Lemma guard_assert_fails w objfile p :
  installed_in w objfile = true →
  debug_symfile w = false →
  objfile_set_sym_fns objfile p w = Result (InternalError "debug_symfile") w [].
Proof.
  intros Hi Hds. destruct (installed_in_mapped _ _ Hi) as [o Ho].
  unfold objfile_set_sym_fns.
  rewrite (bind_silent _ _ _ _ _ (symfile_debug_installed_run _ _ _ Ho)).
  rewrite Hi. mred. by rewrite Hds.
Qed.

(** C10.  When [objfile_set_sym_fns] finds the logging installed for the
    objfile, it asserts [debug_symfile]: with the flag off the call stops
    at once with that assertion failure, before anything is changed or
    printed; so a call that finds the logging installed and does not stop
    there ran with the flag on. *)
Theorem objfile_set_sym_fns_asserts_toggle w objfile p :
  installed_in w objfile = true →
  (debug_symfile w = false →
   objfile_set_sym_fns objfile p w = Result (InternalError "debug_symfile") w [])
  ∧ (res (objfile_set_sym_fns objfile p w) ≠ InternalError "debug_symfile" →
     debug_symfile w = true).
Proof.
  intros Hi. split.
  - by apply guard_assert_fails.
  - intros Hr. destruct (debug_symfile w) eqn:Hds; [done|].
    by rewrite guard_assert_fails in Hr.
Qed.

(** ** The guard [objfile_set_sym_fns] *)

Lemma store_objfile_sf_run w objfile o p :
  objfile_mem w !! objfile = Some o →
  store_objfile_sf objfile p w
  = Result (Returned tt)
      (set_objfile_mem (<[objfile := set_sf p o]> (objfile_mem w)) w) [].
Proof. intros Ho. mred. rewrite Ho. by mred. Qed.

Lemma consistent_entry w objfile d :
  consistent w objfile = true →
  symfile_debug_objfile_data_key w !! objfile = Some d →
  debug_symfile w = true
  ∧ sf_of w objfile = Some (Debug_sf d)
  ∧ is_Some (debug_data_mem w !! d).
Proof.
  unfold consistent. intros Hc Hk. rewrite Hk in Hc.
  apply andb_prop in Hc as [Hc H3]. apply andb_prop in Hc as [H1 H2].
  by rewrite !bool_decide_eq_true in *.
Qed.

(** With no registry entry the guard stores the pointer and, if the flag
    is on, installs the logging around it. *)
Lemma guard_run_fresh w objfile o a :
  objfile_mem w !! objfile = Some o →
  symfile_debug_objfile_data_key w !! objfile = None →
  objfile_set_sym_fns objfile (Static_sf a) w
  = let w1 := set_objfile_mem
                (<[objfile := set_sf (Static_sf a) o]> (objfile_mem w)) w in
    Result (Returned tt)
      (if debug_symfile w
       then world_with_logging w1 objfile (set_sf (Static_sf a) o)
              (fresh (dom (debug_data_mem w))) (static_sf a)
       else w1) [].
Proof.
  intros Ho Hk. unfold objfile_set_sym_fns.
  rewrite (bind_silent _ _ _ _ _ (symfile_debug_installed_run _ _ _ Ho)).
  rewrite installed_in_no_entry by done.
  rewrite (bind_silent (mret tt) _ w tt w) by done.
  rewrite (bind_silent _ _ _ _ _ (store_objfile_sf_run _ _ _ _ Ho)).
  set (w1 := set_objfile_mem _ w). simpl.
  rewrite (bind_silent get_world _ w1 w1 w1) by done.
  change (debug_symfile w1) with (debug_symfile w).
  destruct (debug_symfile w); [|done].
  rewrite (install_run w1 objfile (set_sf (Static_sf a) o) (static_sf a)); try done.
  subst w1. simpl. apply lookup_insert_eq.
Qed.

(** With the logging installed and the flag on, the guard uninstalls,
    stores the pointer and installs again. *)
Lemma guard_run_installed w objfile o d x a :
  objfile_mem w !! objfile = Some o →
  sf o ≠ NULL_sf →
  symfile_debug_objfile_data_key w !! objfile = Some d →
  debug_data_mem w !! d = Some x →
  debug_symfile w = true →
  objfile_set_sym_fns objfile (Static_sf a) w
  = let w1 := world_without_logging w objfile o d (Static_sf a) in
    Result (Returned tt)
      (world_with_logging w1 objfile (set_sf (Static_sf a) o)
         (fresh (dom (debug_data_mem w1))) (static_sf a)) [].
Proof.
  intros Ho Hsf Hk Hd Hds. unfold objfile_set_sym_fns.
  rewrite (bind_silent _ _ _ _ _ (symfile_debug_installed_run _ _ _ Ho)).
  assert (Hi : installed_in w objfile = true).
  { unfold installed_in. rewrite Ho, Hk. by destruct (sf o). }
  rewrite Hi.
  erewrite (bind_silent _ _ w tt).
  2: { rewrite (bind_silent get_world _ w w w) by done. rewrite Hds.
       rewrite (bind_silent (gdb_assert _ true) _ w tt w) by done.
       by apply uninstall_run. }
  set (w0 := world_without_logging w objfile o d (real_sf x)).
  rewrite (bind_silent _ _ _ _ _
             (store_objfile_sf_run w0 objfile (set_sf (real_sf x) o) (Static_sf a)
                ltac:(apply lookup_insert_eq))).
  match goal with |- context [set_objfile_mem ?m w0] => set (w1 := set_objfile_mem m w0) end.
  assert (Hw1 : w1 = world_without_logging w objfile o d (Static_sf a)).
  { subst w1 w0. unfold world_without_logging, set_objfile_mem. simpl.
    by rewrite insert_insert_eq. }
  rewrite (bind_silent get_world _ w1 w1 w1) by done.
  change (debug_symfile w1) with (debug_symfile w). rewrite Hds.
  rewrite (install_run w1 objfile (set_sf (Static_sf a) o) (static_sf a)).
  - simpl. by rewrite Hw1.
  - rewrite Hw1. simpl. apply lookup_insert_eq.
  - done.
  - rewrite Hw1. simpl. apply lookup_delete_eq.
Qed.

(** With the flag on and no logging installed, a null table pointer is
    stored and the installation then reads through it. *)
Lemma guard_null_table w objfile o :
  objfile_mem w !! objfile = Some o →
  symfile_debug_objfile_data_key w !! objfile = None →
  debug_symfile w = true →
  res (objfile_set_sym_fns objfile NULL_sf w) = Fault.
Proof.
  intros Ho Hk Hds. unfold objfile_set_sym_fns.
  rewrite (bind_silent _ _ _ _ _ (symfile_debug_installed_run _ _ _ Ho)).
  rewrite installed_in_no_entry by done.
  rewrite (bind_silent (mret tt) _ w tt w) by done.
  rewrite (bind_silent _ _ _ _ _ (store_objfile_sf_run _ _ _ _ Ho)).
  set (w1 := set_objfile_mem _ w).
  rewrite (bind_silent get_world _ w1 w1 w1) by done.
  change (debug_symfile w1) with (debug_symfile w). rewrite Hds.
  rewrite (install_null_table w1 objfile (set_sf NULL_sf o)); [done| |done].
  subst w1. simpl. apply lookup_insert_eq.
Qed.

(** What both cases give.  The last line says that the invariants of the
    objfile hold again afterwards. *)
Lemma guard_run w objfile o a :
  objfile_mem w !! objfile = Some o →
  consistent w objfile = true →
  let r := objfile_set_sym_fns objfile (Static_sf a) w in
  res r = Returned tt
  ∧ debug_symfile (final r) = debug_symfile w
  ∧ (if debug_symfile w then
       ∃ d x,
         sf_of (final r) objfile = Some (Debug_sf d)
         ∧ symfile_debug_objfile_data_key (final r) !! objfile = Some d
         ∧ debug_data_mem (final r) !! d = Some x
         ∧ real_sf x = Static_sf a
         ∧ debug_sf x = logging_copy (static_sf a)
     else
       sf_of (final r) objfile = Some (Static_sf a)
       ∧ symfile_debug_objfile_data_key (final r) !! objfile = None)
  ∧ consistent (final r) objfile = true.
Proof.
  intros Ho Hc r. subst r.
  destruct (symfile_debug_objfile_data_key w !! objfile) as [d|] eqn:Hk.
  - destruct (consistent_entry _ _ _ Hc Hk) as (Hds & Hsf & [x Hd]).
    unfold sf_of in Hsf. rewrite Ho in Hsf. simpl in Hsf.
    assert (Ho' : sf o = Debug_sf d) by congruence.
    rewrite (guard_run_installed w objfile o d x a); try done.
    2: by rewrite Ho'.
    rewrite Hds. unfold consistent, sf_of. simpl. rewrite !lookup_insert_eq.
    simpl. rewrite Hds.
    repeat split; try done.
    + eexists _, _. by rewrite !lookup_insert_eq.
    + by rewrite !bool_decide_eq_true_2.
  - rewrite (guard_run_fresh w objfile o a) by done.
    unfold consistent, sf_of. destruct (debug_symfile w) eqn:Hds; simpl.
    + rewrite !lookup_insert_eq. simpl. rewrite Hds.
      repeat split; try done.
      * eexists _, _. by rewrite !lookup_insert_eq.
      * by rewrite !bool_decide_eq_true_2.
    + rewrite !lookup_insert_eq, Hk. done.
Qed.

(** The guard for any table pointer, null included. *)

Lemma load_sym_fns_table_at w p t :
  table_at w p = Some t → load_sym_fns p w = Result (Returned t) w [].
Proof.
  destruct p as [|a|d']; simpl; [done | by intros [= <-] |].
  mred. destruct (debug_data_mem w !! d'); simpl; [by intros [= <-] | done].
Qed.

(** With no registry entry the guard stores the pointer, whatever it is,
    and then installs the logging if the flag is on. *)
Lemma guard_run_no_entry w objfile o p :
  objfile_mem w !! objfile = Some o →
  symfile_debug_objfile_data_key w !! objfile = None →
  objfile_set_sym_fns objfile p w
  = let w1 := set_objfile_mem (<[objfile := set_sf p o]> (objfile_mem w)) w in
    if debug_symfile w then install_symfile_debug_logging objfile w1
    else Result (Returned tt) w1 [].
Proof.
  intros Ho Hk. unfold objfile_set_sym_fns.
  rewrite (bind_silent _ _ _ _ _ (symfile_debug_installed_run _ _ _ Ho)).
  rewrite installed_in_no_entry by done.
  rewrite (bind_silent (mret tt) _ w tt w) by done.
  rewrite (bind_silent _ _ _ _ _ (store_objfile_sf_run _ _ _ _ Ho)).
  set (w1 := set_objfile_mem _ w). simpl.
  rewrite (bind_silent get_world _ w1 w1 w1) by done.
  change (debug_symfile w1) with (debug_symfile w).
  by destruct (debug_symfile w).
Qed.

(** With the logging installed and the flag on, the guard discards the
    logging data [d] and wraps the table behind [p], if [p] is another
    table than the one inside [d]. *)
Lemma guard_run_rewrap w objfile o d x p t :
  objfile_mem w !! objfile = Some o →
  sf o ≠ NULL_sf →
  symfile_debug_objfile_data_key w !! objfile = Some d →
  debug_data_mem w !! d = Some x →
  debug_symfile w = true →
  table_at w p = Some t →
  p ≠ Debug_sf d →
  objfile_set_sym_fns objfile p w
  = let w1 := world_without_logging w objfile o d p in
    Result (Returned tt)
      (world_with_logging w1 objfile (set_sf p o)
         (fresh (dom (debug_data_mem w1))) t) [].
Proof.
  intros Ho Hsf Hk Hd Hds Ht Hp. unfold objfile_set_sym_fns.
  rewrite (bind_silent _ _ _ _ _ (symfile_debug_installed_run _ _ _ Ho)).
  assert (Hi : installed_in w objfile = true).
  { unfold installed_in. rewrite Ho, Hk. by destruct (sf o). }
  rewrite Hi.
  erewrite (bind_silent _ _ w tt).
  2: { rewrite (bind_silent get_world _ w w w) by done. rewrite Hds.
       rewrite (bind_silent (gdb_assert _ true) _ w tt w) by done.
       by apply uninstall_run. }
  set (w0 := world_without_logging w objfile o d (real_sf x)).
  rewrite (bind_silent _ _ _ _ _
             (store_objfile_sf_run w0 objfile (set_sf (real_sf x) o) p
                ltac:(apply lookup_insert_eq))).
  match goal with |- context [set_objfile_mem ?m w0] => set (w1 := set_objfile_mem m w0) end.
  assert (Hw1 : w1 = world_without_logging w objfile o d p).
  { subst w1 w0. unfold world_without_logging, set_objfile_mem. simpl.
    by rewrite insert_insert_eq. }
  rewrite (bind_silent get_world _ w1 w1 w1) by done.
  change (debug_symfile w1) with (debug_symfile w). rewrite Hds.
  rewrite (install_run w1 objfile (set_sf p o) t).
  - simpl. by rewrite Hw1.
  - rewrite Hw1. simpl. apply lookup_insert_eq.
  - apply load_sym_fns_table_at. rewrite Hw1.
    destruct p as [|a|d']; simpl in *; [done..|].
    rewrite lookup_delete_ne; [done | congruence].
  - rewrite Hw1. simpl. apply lookup_delete_eq.
Qed.

(** *** Claim C3 *)

(** C3 (amended).  For every live objfile whose registry entry, if any,
    is consistent with the data model, and every new table pointer [p]:
    if [debug_symfile] is off, [p] may be any pointer, null included,
    and after [objfile_set_sym_fns] the objfile has no logging installed,
    [objfile->sf] is exactly [p] and the registry has no entry for the
    objfile; if [debug_symfile] is on and [p] is a valid new table (it
    points at a table, so it is not null, and not at the table inside the
    logging data that the call discards), logging is installed
    afterwards, the recorded real table is [p], not the table wrapped
    before, and the logging table is the copy that wraps the table behind
    [p].  In both cases the call returns normally. *)
Theorem objfile_set_sym_fns_replaces w objfile o p :
  objfile_mem w !! objfile = Some o →
  consistent w objfile = true →
  (debug_symfile w = true → valid_new_table w objfile p) →
  let r := objfile_set_sym_fns objfile p w in
  res r = Returned tt
  ∧ if debug_symfile w then
      installed_in (final r) objfile = true
      ∧ ∃ d x t,
          sf_of (final r) objfile = Some (Debug_sf d)
          ∧ symfile_debug_objfile_data_key (final r) !! objfile = Some d
          ∧ debug_data_mem (final r) !! d = Some x
          ∧ real_sf x = p
          ∧ table_at w p = Some t
          ∧ debug_sf x = logging_copy t
    else
      installed_in (final r) objfile = false
      ∧ sf_of (final r) objfile = Some p
      ∧ symfile_debug_objfile_data_key (final r) !! objfile = None.
Proof.
  intros Ho Hc Hp r. subst r.
  destruct (symfile_debug_objfile_data_key w !! objfile) as [d|] eqn:Hk.
  - destruct (consistent_entry _ _ _ Hc Hk) as (Hds & Hsf & [x Hd]).
    unfold sf_of in Hsf. rewrite Ho in Hsf. simpl in Hsf.
    assert (Ho' : sf o = Debug_sf d) by congruence.
    destruct (Hp Hds) as [[t Ht] Hne]. rewrite Hk in Hne.
    rewrite (guard_run_rewrap w objfile o d x p t); try done.
    2: by rewrite Ho'.
    rewrite Hds. unfold installed_in, sf_of. simpl. rewrite !lookup_insert_eq.
    simpl. split; [done|]. split; [done|].
    eexists _, _, t. rewrite !lookup_insert_eq. done.
  - rewrite (guard_run_no_entry w objfile o p) by done.
    destruct (debug_symfile w) eqn:Hds; simpl.
    + destruct (Hp eq_refl) as [[t Ht] _].
      rewrite (install_run _ objfile (set_sf p o) t).
      * unfold installed_in, sf_of. simpl. rewrite !lookup_insert_eq.
        simpl. split; [done|]. split; [done|].
        eexists _, _, t. rewrite !lookup_insert_eq. done.
      * simpl. apply lookup_insert_eq.
      * by apply load_sym_fns_table_at.
      * done.
    + split; [done|]. split; [by apply installed_in_no_entry|].
      unfold sf_of. simpl. by rewrite lookup_insert_eq.
Qed.

(** ** The handler [set_debug_symfile] *)

Lemma same_at_refl objfile w : same_at objfile w w.
Proof. by repeat split. Qed.

Lemma same_at_trans objfile w1 w2 w3 :
  same_at objfile w1 w2 → same_at objfile w2 w3 → same_at objfile w1 w3.
Proof.
  intros (H1 & H2 & H3) (H4 & H5 & H6). repeat split; congruence.
Qed.

Lemma frames_bind {A B : Type} objfile (c : M ext A) (k : A → M ext B) :
  frames objfile c → (∀ a, frames objfile (k a)) → frames objfile (c ≫= k).
Proof.
  intros Hc Hk w. specialize (Hc w). unfold mbind, M_mbind, M_bind.
  destruct (c w) as [[a| | | |] w' l]; simpl in *; try done.
  specialize (Hk a w'). destruct (k a w') as [r w'' l']. simpl in *.
  by apply same_at_trans with w'.
Qed.

Lemma frames_pure {A : Type} objfile (c : M ext A) :
  (∀ w, final (c w) = w) → frames objfile c.
Proof. intros H w. rewrite H. apply same_at_refl. Qed.

Lemma frames_ret {A : Type} objfile (a : A) : frames objfile (mret a : M ext A).
Proof. by apply frames_pure. Qed.

Lemma frames_raise {A : Type} objfile (r : outcome A) :
  frames objfile (raise r : M ext A).
Proof. by apply frames_pure. Qed.

Lemma frames_get_world objfile : frames objfile (get_world : M ext _).
Proof. by apply frames_pure. Qed.

Lemma frames_gdb_assert objfile expr cond :
  frames objfile (gdb_assert expr cond : M ext _).
Proof. apply frames_pure. by destruct cond. Qed.

Lemma frames_load_objfile objfile objfile' :
  frames objfile (load_objfile objfile' : M ext _).
Proof.
  apply frames_pure. intros w. mred. by destruct (objfile_mem w !! objfile').
Qed.

Lemma frames_key_get objfile objfile' :
  frames objfile (key_get objfile' : M ext _).
Proof. by apply frames_pure. Qed.

Lemma frames_symfile_debug_installed objfile objfile' :
  frames objfile (symfile_debug_installed objfile' : M ext _).
Proof.
  apply frames_pure. intros w. mred.
  destruct (objfile_mem w !! objfile') as [o|]; [|done]. by destruct (sf o).
Qed.

Lemma frames_load_data objfile dd : frames objfile (load_data dd : M ext _).
Proof.
  apply frames_pure. intros w. mred. destruct dd as [d|]; [|done].
  by destruct (debug_data_mem w !! d).
Qed.

Lemma frames_update_data objfile d f :
  frames objfile (update_data d f : M ext _).
Proof.
  intros w. mred. by destruct (debug_data_mem w !! d).
Qed.

Lemma frames_new_data objfile : frames objfile (new_data : M ext _).
Proof. by intros w. Qed.

Lemma frames_load_sym_fns objfile p : frames objfile (load_sym_fns p : M ext _).
Proof.
  apply frames_pure. intros w. destruct p as [|a|d]; try done.
  mred. by destruct (debug_data_mem w !! d).
Qed.

Lemma frames_COPY_SF_PTR {F : Type} objfile from to (name : sym_fns → option F)
    set_name func :
  frames objfile (COPY_SF_PTR from to name set_name func : M ext _).
Proof.
  apply frames_bind; [apply frames_load_sym_fns|]. intros t.
  destruct (name t); [apply frames_update_data | apply frames_ret].
Qed.

Lemma frames_key_set objfile objfile' d :
  objfile ≠ objfile' → frames objfile (key_set objfile' d : M ext _).
Proof.
  intros Hne w. mred.
  destruct (symfile_debug_objfile_data_key w !! objfile'); [done|].
  repeat split; simpl. by rewrite lookup_insert_ne.
Qed.

Lemma frames_key_clear objfile objfile' :
  objfile ≠ objfile' → frames objfile (key_clear objfile' : M ext _).
Proof.
  intros Hne w. mred.
  destruct (symfile_debug_objfile_data_key w !! objfile'); [|done].
  repeat split; simpl. by rewrite lookup_delete_ne.
Qed.

Lemma frames_store_objfile_sf objfile objfile' p :
  objfile ≠ objfile' → frames objfile (store_objfile_sf objfile' p : M ext _).
Proof.
  intros Hne w. mred.
  destruct (objfile_mem w !! objfile'); [|done].
  repeat split; simpl. by rewrite lookup_insert_ne.
Qed.

(** Installing or removing the logging of one objfile leaves every other
    objfile alone, however the call ends. *)
Lemma frames_install objfile objfile' :
  objfile ≠ objfile' →
  frames objfile (install_symfile_debug_logging objfile' : M ext _).
Proof.
  intros Hne. unfold install_symfile_debug_logging.
  apply frames_bind; [apply frames_symfile_debug_installed|intros b].
  apply frames_bind; [apply frames_gdb_assert|intros _].
  apply frames_bind; [apply frames_load_objfile|intros o].
  apply frames_bind; [apply frames_new_data|intros d].
  do 8 (apply frames_bind; [apply frames_COPY_SF_PTR|intros _]).
  apply frames_bind; [apply frames_load_sym_fns|intros t].
  apply frames_bind.
  { destruct (sym_probe_fns t); [apply frames_update_data|apply frames_ret]. }
  intros _.
  apply frames_bind; [apply frames_update_data|intros _].
  apply frames_bind; [by apply frames_key_set|intros _].
  by apply frames_store_objfile_sf.
Qed.

Lemma frames_uninstall objfile objfile' :
  objfile ≠ objfile' →
  frames objfile (uninstall_symfile_debug_logging objfile' : M ext _).
Proof.
  intros Hne. unfold uninstall_symfile_debug_logging.
  apply frames_bind; [apply frames_symfile_debug_installed|intros b].
  apply frames_bind; [apply frames_gdb_assert|intros _].
  apply frames_bind; [apply frames_key_get|intros dd].
  apply frames_bind; [apply frames_load_data|intros x].
  apply frames_bind; [by apply frames_store_objfile_sf|intros _].
  by apply frames_key_clear.
Qed.

Lemma same_at_installed_in objfile w w' :
  same_at objfile w w' → installed_in w' objfile = installed_in w objfile.
Proof. intros (H1 & H2 & _). unfold installed_in. by rewrite H1, H2. Qed.

(** An objfile already in the state that the flag asks for is left alone
    by the body of the loops, whichever objfile the body is run for. *)
Lemma toggle_one_keeps objfile0 objfile w :
  installed_in w objfile0 = debug_symfile w →
  same_at objfile0 w (final (toggle_one objfile w)).
Proof.
  intros Hm. destruct (decide (objfile0 = objfile)) as [<-|Hne].
  - unfold toggle_one. rewrite (bind_silent get_world _ w w w) by done.
    destruct (objfile_mem w !! objfile0) as [o|] eqn:Ho.
    + destruct (debug_symfile w) eqn:Hds;
        rewrite (bind_silent _ _ _ _ _ (symfile_debug_installed_run _ _ _ Ho));
        rewrite Hm; apply same_at_refl.
    + destruct (debug_symfile w); mred; rewrite Ho; apply same_at_refl.
  - revert w Hm. 
    assert (H : frames objfile0 (toggle_one objfile)); [|by intros w _; apply H].
    unfold toggle_one. apply frames_bind; [apply frames_get_world|intros w].
    destruct (debug_symfile w);
      (apply frames_bind; [apply frames_symfile_debug_installed|intros b]);
      destruct b; simpl;
      auto using frames_ret, frames_install, frames_uninstall.
Qed.

Lemma for_each_keeps {A : Type} objfile0 (l : list A) (body : A → M ext unit) w :
  (∀ item w', installed_in w' objfile0 = debug_symfile w' →
              same_at objfile0 w' (final (body item w'))) →
  installed_in w objfile0 = debug_symfile w →
  same_at objfile0 w (final (for_each l body w)).
Proof.
  intros Hbody. revert w. induction l as [|item l IH]; intros w Hm.
  - apply same_at_refl.
  - simpl. specialize (Hbody item w Hm). unfold mbind, M_mbind, M_bind.
    destruct (body item w) as [[[]| | | |] w' l0]; simpl in *; try done.
    assert (Hm' : installed_in w' objfile0 = debug_symfile w').
    { rewrite (same_at_installed_in _ _ _ Hbody).
      destruct Hbody as (_ & _ & ->). done. }
    specialize (IH w' Hm'). destruct (for_each l body w') as [r w'' l']. simpl in *.
    by apply same_at_trans with w'.
Qed.

Lemma set_debug_symfile_keeps objfile0 args from_tty c w :
  installed_in w objfile0 = debug_symfile w →
  same_at objfile0 w (final (set_debug_symfile args from_tty c w)).
Proof.
  intros Hm. unfold set_debug_symfile.
  rewrite (bind_silent get_world _ w w w) by done.
  apply for_each_keeps; [|done]. intros pspace w' Hm'.
  apply for_each_keeps; [|done]. intros objfile w'' Hm''.
  by apply toggle_one_keeps.
Qed.

(** When every listed objfile is live and already in the state that the
    flag asks for, the handler returns normally, prints nothing and leaves
    the whole state as it was: no assertion fails and nothing is installed
    a second time. *)
Lemma toggle_one_noop objfile w :
  is_Some (objfile_mem w !! objfile) →
  installed_in w objfile = debug_symfile w →
  toggle_one objfile w = Result (Returned tt) w [].
Proof.
  intros [o Ho] Hm. unfold toggle_one.
  rewrite (bind_silent get_world _ w w w) by done.
  destruct (debug_symfile w) eqn:Hds;
    rewrite (bind_silent _ _ _ _ _ (symfile_debug_installed_run _ _ _ Ho));
    by rewrite Hm.
Qed.

Lemma for_each_noop {A : Type} (l : list A) (body : A → M ext unit) w :
  (∀ item, item ∈ l → body item w = Result (Returned tt) w []) →
  for_each l body w = Result (Returned tt) w [].
Proof.
  induction l as [|item l IH]; intros Hbody; [done|]. simpl.
  rewrite (bind_silent _ _ w tt w) by (apply Hbody; left).
  apply IH. intros item' Hin. apply Hbody. by right.
Qed.

Lemma set_debug_symfile_noop args from_tty c w :
  (∀ pspace objfile,
      pspace ∈ program_spaces w → objfile ∈ objfiles pspace →
      is_Some (objfile_mem w !! objfile)
      ∧ installed_in w objfile = debug_symfile w) →
  set_debug_symfile args from_tty c w = Result (Returned tt) w [].
Proof.
  intros Hall. unfold set_debug_symfile.
  rewrite (bind_silent get_world _ w w w) by done.
  apply for_each_noop. intros pspace Hps.
  apply for_each_noop. intros objfile Hobj.
  destruct (Hall pspace objfile Hps Hobj) as [Hlive Hm].
  by apply toggle_one_noop.
Qed.

(** *** What the handler keeps of an objfile it has nothing to do for *)

Lemma triple_bind {A B : Type} (P : world ext → Prop) (c : M ext A)
    (k : A → M ext B) Q R E :
  triple P c Q E → (∀ a, triple (Q a) (k a) R E) → triple P (c ≫= k) R E.
Proof.
  intros Hc Hk w HP. specialize (Hc w HP). unfold mbind, M_mbind, M_bind.
  destruct (c w) as [[a| | | |] w' l]; simpl in *; try done.
  specialize (Hk a w' Hc). by destruct (k a w') as [r w'' l'].
Qed.

(** Code that only reads the state, and can fail by a fault only. *)
Lemma triple_reader {A : Type} (P : world ext → Prop) (c : M ext A) E :
  (∀ w, (∃ a, c w = Result (Returned a) w []) ∨ c w = Result Fault w []) →
  (∀ w, P w → E w) →
  triple P c (λ _, P) E.
Proof.
  intros Hc HE w HP. destruct (Hc w) as [[a ->] | ->]; simpl; auto.
Qed.

Lemma load_sym_fns_reads p w :
  (∃ t, load_sym_fns p w = Result (Returned t) w [])
  ∨ load_sym_fns p w = Result Fault w [].
Proof.
  destruct p as [|a|d]; mred; eauto.
  destruct (debug_data_mem w !! d); eauto.
Qed.

Lemma for_each_triple {A : Type} (I : world ext → Prop) (l : list A)
    (body : A → M ext unit) :
  (∀ item, triple I (body item) (λ _, I) I) →
  triple I (for_each l body) (λ _, I) I.
Proof.
  intros Hbody. induction l as [|item l IH]; [by intros w HI|].
  simpl. apply triple_bind with (Q := λ _, I); auto.
Qed.

Lemma owns_its_data_spec w objfile d :
  owns_its_data w objfile →
  symfile_debug_objfile_data_key w !! objfile = Some d →
  is_Some (debug_data_mem w !! d)
  ∧ ∀ objfile', symfile_debug_objfile_data_key w !! objfile' = Some d →
                objfile' = objfile.
Proof.
  unfold owns_its_data. intros H Hk. rewrite Hk in H. destruct H as [H1 H2].
  split; [done|]. intros objfile' Hk'. by apply (H2 objfile' d Hk').
Qed.

Lemma kept_start objfile w : kept objfile w w.
Proof.
  split; [apply same_at_refl|]. intros Ho d Hk.
  destruct (owns_its_data_spec _ _ _ Ho Hk). done.
Qed.

(** The changes of state that installing and removing the logging of
    another objfile are made of. *)
Lemma kept_with_data objfile w0 w dnew x :
  kept objfile w0 w →
  (owns_its_data w0 objfile →
   symfile_debug_objfile_data_key w0 !! objfile ≠ Some dnew) →
  kept objfile w0 (with_data dnew x w).
Proof.
  intros [Hs Hd] Hne. split; [done|]. intros Ho d Hk.
  destruct (Hd Ho d Hk) as (H1 & H2 & H3). unfold with_data. simpl.
  rewrite lookup_insert_ne; [done|]. intros ->. by apply Hne.
Qed.

Lemma kept_key_set objfile w0 w objfile' dnew :
  objfile' ≠ objfile →
  kept objfile w0 w →
  (owns_its_data w0 objfile →
   symfile_debug_objfile_data_key w0 !! objfile ≠ Some dnew) →
  kept objfile w0
    (set_key (<[objfile' := dnew]> (symfile_debug_objfile_data_key w)) w).
Proof.
  intros Hne [(Hs1 & Hs2 & Hs3) Hd] Hnew. split.
  - repeat split; simpl; [done | | done]. by rewrite lookup_insert_ne.
  - intros Ho d Hk. destruct (Hd Ho d Hk) as (H1 & H2 & H3). simpl.
    split; [done|]. split; [done|]. intros objfile''.
    destruct (decide (objfile'' = objfile')) as [->|Hne'].
    + rewrite lookup_insert_eq. intros [= ->]. by destruct (Hnew Ho).
    + rewrite lookup_insert_ne by done. apply H3.
Qed.

Lemma kept_store objfile w0 w objfile' o :
  objfile' ≠ objfile →
  kept objfile w0 w →
  kept objfile w0 (set_objfile_mem (<[objfile' := o]> (objfile_mem w)) w).
Proof.
  intros Hne [(Hs1 & Hs2 & Hs3) Hd]. split; [|done].
  repeat split; simpl; [|done..]. by rewrite lookup_insert_ne.
Qed.

Lemma kept_without_logging objfile w0 w objfile' o d' p :
  objfile' ≠ objfile →
  symfile_debug_objfile_data_key w !! objfile' = Some d' →
  kept objfile w0 w →
  kept objfile w0 (world_without_logging w objfile' o d' p).
Proof.
  intros Hne Hk' [(Hs1 & Hs2 & Hs3) Hd]. split.
  - repeat split; simpl; [| |done].
    + by rewrite lookup_insert_ne.
    + by rewrite lookup_delete_ne.
  - intros Ho d Hk. destruct (Hd Ho d Hk) as (H1 & H2 & H3). simpl.
    assert (d' ≠ d) by (intros ->; by apply Hne, H3).
    rewrite lookup_delete_ne by done.
    split; [done|]. split; [done|]. intros objfile''.
    destruct (decide (objfile'' = objfile')) as [->|Hne'].
    + by rewrite lookup_delete_eq.
    + rewrite lookup_delete_ne by done. apply H3.
Qed.

Lemma kept_installing_update objfile w0 objfile' dnew x w :
  kept_installing objfile w0 objfile' dnew w →
  kept_installing objfile w0 objfile' dnew (with_data dnew x w).
Proof.
  intros (HK & Hlive & Hnew & Hk & Ho).
  split; [by apply kept_with_data|]. split; [|done].
  unfold with_data. simpl. rewrite lookup_insert_eq. by eexists.
Qed.

Lemma triple_update_data objfile w0 objfile' dnew f :
  triple (kept_installing objfile w0 objfile' dnew) (update_data dnew f)
    (λ _, kept_installing objfile w0 objfile' dnew) (kept objfile w0).
Proof.
  intros w HP. pose proof HP as (HK & [x Hx] & _).
  rewrite (update_data_run _ _ x) by done. simpl.
  by apply kept_installing_update.
Qed.

Lemma triple_load_sym_fns objfile w0 objfile' dnew p :
  triple (kept_installing objfile w0 objfile' dnew) (load_sym_fns p)
    (λ _, kept_installing objfile w0 objfile' dnew) (kept objfile w0).
Proof.
  apply triple_reader; [apply load_sym_fns_reads | by intros w [HK _]].
Qed.

Lemma triple_ret objfile w0 objfile' dnew :
  triple (kept_installing objfile w0 objfile' dnew) (mret tt)
    (λ _, kept_installing objfile w0 objfile' dnew) (kept objfile w0).
Proof. by intros w HP. Qed.

Lemma triple_COPY_SF_PTR {F : Type} objfile w0 objfile' dnew from
    (name : sym_fns → option F) set_name func :
  triple (kept_installing objfile w0 objfile' dnew)
    (COPY_SF_PTR from dnew name set_name func)
    (λ _, kept_installing objfile w0 objfile' dnew) (kept objfile w0).
Proof.
  eapply triple_bind; [apply triple_load_sym_fns|]. intros t.
  destruct (name t); [apply triple_update_data | apply triple_ret].
Qed.

(** Entering the logging data in the registry and pointing the objfile
    at it. *)
Lemma triple_register objfile w0 objfile' dnew :
  objfile' ≠ objfile →
  triple (kept_installing objfile w0 objfile' dnew)
    (key_set objfile' dnew;; store_objfile_sf objfile' (Debug_sf dnew))
    (λ _, kept objfile w0) (kept objfile w0).
Proof.
  intros Hne w (HK & Hlive & Hnew & Hk & [o Ho]).
  mred. rewrite Hk. mred. rewrite Ho. simpl.
  exact (kept_store objfile w0 _ objfile' (set_sf (Debug_sf dnew) o) Hne
           (kept_key_set objfile w0 w objfile' dnew Hne HK Hnew)).
Qed.

(** Installing the logging for another objfile that has none. *)
Lemma triple_install objfile w0 objfile' :
  objfile' ≠ objfile →
  triple (λ w, kept objfile w0 w ∧ installed_in w objfile' = false)
    (install_symfile_debug_logging objfile')
    (λ _, kept objfile w0) (kept objfile w0).
Proof.
  intros Hne w [HK Hi].
  destruct (objfile_mem w !! objfile') as [o|] eqn:Ho.
  2: { unfold install_symfile_debug_logging. mred. by rewrite Ho. }
  set (dnew := fresh (dom (debug_data_mem w))).
  assert (Hfresh : debug_data_mem w !! dnew = None) by apply fresh_data_unused.
  assert (Hnew : owns_its_data w0 objfile →
                 symfile_debug_objfile_data_key w0 !! objfile ≠ Some dnew).
  { intros Hown Hk. destruct HK as [_ Hd].
    destruct (Hd Hown dnew Hk) as (_ & [x Hx] & _). congruence. }
  destruct (decide (sf o = NULL_sf)) as [Hnull|Hsf].
  { rewrite (install_null_table w objfile' o) by done. simpl.
    by apply kept_with_data. }
  assert (Hk : symfile_debug_objfile_data_key w !! objfile' = None).
  { revert Hi. unfold installed_in. rewrite Ho.
    destruct (sf o), (symfile_debug_objfile_data_key w !! objfile'); done. }
  unfold install_symfile_debug_logging.
  rewrite (bind_silent _ _ _ _ _ (symfile_debug_installed_run _ _ _ Ho)).
  rewrite Hi.
  rewrite (bind_silent (gdb_assert _ _) _ w tt w) by done.
  rewrite (bind_silent _ _ _ _ _ (load_objfile_run _ _ _ Ho)).
  rewrite (bind_silent new_data _ w dnew (with_data dnew new_debug_sym_fns_data w))
    by done.
  assert (Hw1 : kept_installing objfile w0 objfile' dnew
                  (with_data dnew new_debug_sym_fns_data w)).
  { split; [by apply kept_with_data|]. unfold with_data. simpl.
    rewrite lookup_insert_eq. eauto. }
  match goal with
  | |- context [final ?r] =>
      match r with
      | ?c ?w1 =>
          assert (H : triple (kept_installing objfile w0 objfile' dnew) c
                        (λ _, kept objfile w0) (kept objfile w0));
          [|apply (H w1), Hw1]
      end
  end.
  do 8 (eapply triple_bind; [apply triple_COPY_SF_PTR|intros ?]).
  eapply triple_bind; [apply triple_load_sym_fns|intros t].
  eapply triple_bind.
  { destruct (sym_probe_fns t); [apply triple_update_data | apply triple_ret]. }
  intros ?.
  eapply triple_bind; [apply triple_update_data|intros ?].
  by apply triple_register.
Qed.

Lemma installed_in_inv w objfile :
  installed_in w objfile = true →
  ∃ o d, objfile_mem w !! objfile = Some o
         ∧ sf o ≠ NULL_sf
         ∧ symfile_debug_objfile_data_key w !! objfile = Some d.
Proof.
  unfold installed_in. destruct (objfile_mem w !! objfile) as [o|]; [|done].
  destruct (symfile_debug_objfile_data_key w !! objfile) as [d|].
  - intros H. exists o, d. repeat split. intros Hsf. by rewrite Hsf in H.
  - by destruct (sf o).
Qed.

(** Removing the logging of another objfile that has it. *)
Lemma triple_uninstall objfile w0 objfile' :
  objfile' ≠ objfile →
  triple (λ w, kept objfile w0 w ∧ installed_in w objfile' = true)
    (uninstall_symfile_debug_logging objfile')
    (λ _, kept objfile w0) (kept objfile w0).
Proof.
  intros Hne w [HK Hi].
  destruct (installed_in_inv _ _ Hi) as (o & d' & Ho & Hsf & Hk).
  destruct (debug_data_mem w !! d') as [x|] eqn:Hd.
  - rewrite (uninstall_run w objfile' o d' x) by done. simpl.
    by apply kept_without_logging.
  - unfold uninstall_symfile_debug_logging.
    rewrite (bind_silent _ _ _ _ _ (symfile_debug_installed_run _ _ _ Ho)).
    rewrite Hi. mred. by rewrite Hk, Hd.
Qed.

(** The body of the loops, whichever objfile it is run for. *)
Lemma triple_toggle_one objfile0 w0 objfile :
  installed_in w0 objfile0 = debug_symfile w0 →
  triple (kept objfile0 w0) (toggle_one objfile)
    (λ _, kept objfile0 w0) (kept objfile0 w0).
Proof.
  intros Hm w HK.
  assert (Hm' : installed_in w objfile0 = debug_symfile w).
  { destruct HK as [Hs _]. rewrite (same_at_installed_in _ _ _ Hs).
    by destruct Hs as (_ & _ & ->). }
  destruct (objfile_mem w !! objfile) as [o|] eqn:Ho.
  2: { unfold toggle_one. mred. destruct (debug_symfile w); by rewrite Ho. }
  destruct (decide (objfile = objfile0)) as [->|Hne].
  { by rewrite toggle_one_noop. }
  unfold toggle_one. rewrite (bind_silent get_world _ w w w) by done.
  destruct (debug_symfile w) eqn:Hds;
    rewrite (bind_silent _ _ _ _ _ (symfile_debug_installed_run _ _ _ Ho));
    destruct (installed_in w objfile) eqn:Hi; simpl; try done.
  - by apply (triple_install objfile0 w0 objfile Hne w).
  - by apply (triple_uninstall objfile0 w0 objfile Hne w).
Qed.

Lemma triple_set_debug_symfile objfile0 w0 args from_tty c :
  installed_in w0 objfile0 = debug_symfile w0 →
  triple (kept objfile0 w0) (set_debug_symfile args from_tty c)
    (λ _, kept objfile0 w0) (kept objfile0 w0).
Proof.
  intros Hm. unfold set_debug_symfile.
  apply triple_bind with (Q := λ _, kept objfile0 w0); [by intros w HK|].
  intros w. apply for_each_triple. intros pspace.
  apply for_each_triple. intros objfile.
  by apply triple_toggle_one.
Qed.

(** *** Claim C8 *)

(** C8.  Idempotent toggle.  If, when the handler [set_debug_symfile]
    runs, logging is installed for an objfile exactly when
    [debug_symfile] is on, then the handler fails no assertion, so it
    neither installs logging where it is installed nor removes it where
    it is not, and after the handler, however it ends and whatever it did
    to other objfiles, that objfile has the same table pointer, the same
    registry entry (or none, as before) and the same installed state;
    moreover, if the objfile had logging data of its own, live and
    shared with no other objfile, that data is what it was: no second
    logging table is installed over the first. *)
Theorem set_debug_symfile_idempotent objfile args from_tty c w :
  installed_in w objfile = debug_symfile w →
  let r := set_debug_symfile args from_tty c w in
  let w' := final r in
  (∀ msg, res r ≠ InternalError msg)
  ∧ installed_in w' objfile = installed_in w objfile
  ∧ sf_of w' objfile = sf_of w objfile
  ∧ symfile_debug_objfile_data_key w' !! objfile
    = symfile_debug_objfile_data_key w !! objfile
  ∧ (owns_its_data w objfile →
     ∀ d, symfile_debug_objfile_data_key w !! objfile = Some d →
          debug_data_mem w' !! d = debug_data_mem w !! d).
Proof.
  intros Hm r w'.
  pose proof (triple_set_debug_symfile objfile w args from_tty c Hm w
                (kept_start objfile w)) as H.
  fold r in H.
  assert (Hr : (∀ msg, res r ≠ InternalError msg) ∧ kept objfile w w').
  { subst w'. by destruct (res r). }
  destruct Hr as [Hr [Hs Hd]]. split; [done|].
  split; [by apply same_at_installed_in|].
  destruct Hs as (H1 & H2 & _). unfold sf_of. rewrite H1.
  split; [done|]. split; [done|].
  intros Hown d Hk. by destruct (Hd Hown d Hk).
Qed.

(** ** The forwarding methods when [qf] is null *)

Ltac qf_null Ho Hq :=
  unfold returns_unchanged;
  repeat (mred; rewrite ?Ho; mred; rewrite ?Hq;
          try match goal with
              | |- context [bool_decide ?P] => destruct (bool_decide P)
              | |- context [debug_symfile ?w] => destruct (debug_symfile w)
              end);
  done.

Section Null_qf.

Variables (w : world ext) (this : positive) (o : struct_objfile).
Hypothesis Ho : objfile_mem w !! this = Some o.
Hypothesis Hq : qf o = None.

Lemma has_partial_symbols_null_qf  :
  returns_unchanged (objfile_has_partial_symbols this  w) false w.
Proof. unfold objfile_has_partial_symbols. qf_null Ho Hq. Qed.

Lemma find_last_source_symtab_null_qf  :
  returns_unchanged (objfile_find_last_source_symtab this  w) None w.
Proof. unfold objfile_find_last_source_symtab. qf_null Ho Hq. Qed.

Lemma forget_cached_source_info_null_qf  :
  returns_unchanged (objfile_forget_cached_source_info this  w) tt w.
Proof. unfold objfile_forget_cached_source_info. qf_null Ho Hq. Qed.

Lemma map_symtabs_matching_filename_null_qf name real_path callback :
  returns_unchanged (objfile_map_symtabs_matching_filename this name real_path callback w) false w.
Proof. unfold objfile_map_symtabs_matching_filename. qf_null Ho Hq. Qed.

Lemma lookup_symbol_null_qf kind name domain :
  returns_unchanged (objfile_lookup_symbol this kind name domain w) None w.
Proof. unfold objfile_lookup_symbol. qf_null Ho Hq. Qed.

Lemma print_stats_null_qf print_bcache :
  returns_unchanged (objfile_print_stats this print_bcache w) tt w.
Proof. unfold objfile_print_stats. qf_null Ho Hq. Qed.

Lemma dump_null_qf  :
  returns_unchanged (objfile_dump this  w) tt w.
Proof. unfold objfile_dump. qf_null Ho Hq. Qed.

Lemma expand_symtabs_for_function_null_qf name :
  returns_unchanged (objfile_expand_symtabs_for_function this name w) tt w.
Proof. unfold objfile_expand_symtabs_for_function. qf_null Ho Hq. Qed.

Lemma expand_all_symtabs_null_qf  :
  returns_unchanged (objfile_expand_all_symtabs this  w) tt w.
Proof. unfold objfile_expand_all_symtabs. qf_null Ho Hq. Qed.

Lemma expand_symtabs_with_fullname_null_qf name :
  returns_unchanged (objfile_expand_symtabs_with_fullname this name w) tt w.
Proof. unfold objfile_expand_symtabs_with_fullname. qf_null Ho Hq. Qed.

Lemma map_matching_symbols_null_qf lookup_name domain global callback ordered_compare :
  returns_unchanged (objfile_map_matching_symbols this lookup_name domain global callback ordered_compare w) tt w.
Proof. unfold objfile_map_matching_symbols. qf_null Ho Hq. Qed.

Lemma expand_symtabs_matching_null_qf file_matcher lookup_name_p symbol_matcher expansion_notify kind :
  returns_unchanged (objfile_expand_symtabs_matching this file_matcher lookup_name_p symbol_matcher expansion_notify kind w) tt w.
Proof. unfold objfile_expand_symtabs_matching. qf_null Ho Hq. Qed.

Lemma find_pc_sect_compunit_symtab_null_qf msymbol pc section warn_if_readin :
  returns_unchanged (objfile_find_pc_sect_compunit_symtab this msymbol pc section warn_if_readin w) None w.
Proof. unfold objfile_find_pc_sect_compunit_symtab. qf_null Ho Hq. Qed.

Lemma map_symbol_filenames_null_qf fun_ data need_fullname :
  returns_unchanged (objfile_map_symbol_filenames this fun_ data need_fullname w) tt w.
Proof. unfold objfile_map_symbol_filenames. qf_null Ho Hq. Qed.

Lemma find_compunit_symtab_by_address_null_qf pc :
  returns_unchanged (objfile_find_compunit_symtab_by_address this pc w) None w.
Proof. unfold objfile_find_compunit_symtab_by_address. qf_null Ho Hq. Qed.

Lemma lookup_global_symbol_language_null_qf name domain symbol_found_p :
  returns_unchanged (objfile_lookup_global_symbol_language this name domain symbol_found_p w) (language_unknown, false) w.
Proof. unfold objfile_lookup_global_symbol_language. qf_null Ho Hq. Qed.

End Null_qf.

(** *** Claim C9 *)

(** C9.  For a live objfile whose [qf] is null, every forwarding method
    returns normally with its neutral value and leaves the state as it
    was, whatever the [qf] objects of the program would do: false for
    [has_partial_symbols] and [map_symtabs_matching_filename], a null
    pointer for the four lookups, [language_unknown] with
    [*symbol_found_p] set to false for [lookup_global_symbol_language],
    and nothing at all for the methods that return void. *)
Theorem forwarding_methods_null_qf w this o
    (name : string) (real_path : option string) (callback : positive)
    (kind domain global pc need_fullname warn_if_readin search_kind : Z)
    (print_bcache symbol_found_p : bool) (lookup_name file_matcher
    symbol_matcher expansion_notify : positive)
    (ordered_compare lookup_name_p section fun_ data : option positive)
    (msymbol : bound_minimal_symbol) :
  objfile_mem w !! this = Some o →
  qf o = None →
  returns_unchanged (objfile_has_partial_symbols this w) false w
  ∧ returns_unchanged (objfile_find_last_source_symtab this w) None w
  ∧ returns_unchanged (objfile_forget_cached_source_info this w) tt w
  ∧ returns_unchanged
      (objfile_map_symtabs_matching_filename this name real_path callback w)
      false w
  ∧ returns_unchanged (objfile_lookup_symbol this kind name domain w) None w
  ∧ returns_unchanged (objfile_print_stats this print_bcache w) tt w
  ∧ returns_unchanged (objfile_dump this w) tt w
  ∧ returns_unchanged (objfile_expand_symtabs_for_function this name w) tt w
  ∧ returns_unchanged (objfile_expand_all_symtabs this w) tt w
  ∧ returns_unchanged (objfile_expand_symtabs_with_fullname this name w) tt w
  ∧ returns_unchanged
      (objfile_map_matching_symbols this lookup_name domain global callback
         ordered_compare w) tt w
  ∧ returns_unchanged
      (objfile_expand_symtabs_matching this file_matcher lookup_name_p
         symbol_matcher expansion_notify search_kind w) tt w
  ∧ returns_unchanged
      (objfile_find_pc_sect_compunit_symtab this msymbol pc section
         warn_if_readin w) None w
  ∧ returns_unchanged
      (objfile_map_symbol_filenames this fun_ data need_fullname w) tt w
  ∧ returns_unchanged (objfile_find_compunit_symtab_by_address this pc w) None w
  ∧ returns_unchanged
      (objfile_lookup_global_symbol_language this name domain symbol_found_p w)
      (language_unknown, false) w.
Proof.
  intros Ho Hq.
  repeat match goal with |- _ ∧ _ => split end;
    eauto using has_partial_symbols_null_qf, find_last_source_symtab_null_qf,
      forget_cached_source_info_null_qf, map_symtabs_matching_filename_null_qf,
      lookup_symbol_null_qf, print_stats_null_qf, dump_null_qf,
      expand_symtabs_for_function_null_qf, expand_all_symtabs_null_qf,
      expand_symtabs_with_fullname_null_qf, map_matching_symbols_null_qf,
      expand_symtabs_matching_null_qf, find_pc_sect_compunit_symtab_null_qf,
      map_symbol_filenames_null_qf, find_compunit_symtab_by_address_null_qf,
      lookup_global_symbol_language_null_qf.
Qed.

(** ** The logging functions *)

Lemma load_data_run w d x :
  debug_data_mem w !! d = Some x →
  load_data (Some d) w = Result (Returned x) w [].
Proof. intros H. mred. by rewrite H. Qed.

Lemma same_result_printed_before {A : Type} l (r : result ext A) :
  same_result (printed_before l r) r.
Proof. done. Qed.

Lemma same_result_printed_after {A : Type} (r : result ext A) l :
  same_result (printed_after r l) r.
Proof. unfold printed_after. by destruct r as [[] ? ?]. Qed.

(** A function that prints its line and only then makes the call. *)
Lemma print_then_call {A B : Type} (c : M ext A) (k : A → M ext B) fmt args w a :
  c w = Result (Returned a) w [] →
  (fprintf_filtered fmt args;; c ≫= k) w
  = printed_before [Printf fmt args] (k a w).
Proof.
  intros Hc.
  rewrite (bind_returned (fprintf_filtered fmt args) _ w tt w [Printf fmt args])
    by done.
  by rewrite (bind_silent _ _ _ _ _ Hc).
Qed.

(** A function that makes the call and prints its line with the value
    returned. *)
Lemma call_then_print {A : Type} (c : M ext A) fmt (args : A → list farg) w :
  (retval ← c; fprintf_filtered fmt (args retval);; mret retval) w
  = printed_after (c w) (λ retval, [Printf fmt (args retval)]).
Proof.
  unfold printed_after. mred. by destruct (c w) as [[v| | | |] w' l].
Qed.

Section Logging_installed.

(** [objfile] has the logging data [x], at [d], which records the real
    table pointer [real_sf x], behind which the table [t] is found. *)
Variables (w : world ext) (objfile d : positive) (x : debug_sym_fns_data)
  (t : sym_fns).
Hypothesis Hk : symfile_debug_objfile_data_key w !! objfile = Some d.
Hypothesis Hd : debug_data_mem w !! d = Some x.
Hypothesis Ht : load_sym_fns (real_sf x) w = Result (Returned t) w [].

Lemma real_table_run {B : Type} (k : sym_fns → M ext B) :
  (data ← load_data (Some d); real ← load_sym_fns (real_sf data); k real) w
  = k t w.
Proof.
  rewrite (bind_silent _ _ _ _ _ (load_data_run _ _ _ Hd)).
  by rewrite (bind_silent _ _ _ _ _ Ht).
Qed.

Lemma key_get_logging {B : Type} (k : option positive → M ext B) :
  (key_get objfile ≫= k) w = k (Some d) w.
Proof. rewrite (bind_silent (key_get objfile) _ w (Some d) w); [done|]. mred. by rewrite Hk. Qed.

Ltac forward_void Hf f :=
  rewrite key_get_logging;
  erewrite print_then_call; [|by apply load_data_run];
  rewrite (bind_silent _ _ _ _ _ Ht); rewrite Hf;
  by rewrite (bind_silent (nonnull (Some f)) _ w f w).

Lemma debug_sym_new_init_run call f :
  sym_new_init t = Some f →
  debug_sym_new_init call objfile w
  = printed_before [line_sym_new_init objfile] (call f objfile w).
Proof. intros Hf. unfold debug_sym_new_init. forward_void Hf f. Qed.

Lemma debug_sym_init_run call f :
  sym_init t = Some f →
  debug_sym_init call objfile w
  = printed_before [line_sym_init objfile] (call f objfile w).
Proof. intros Hf. unfold debug_sym_init. forward_void Hf f. Qed.

Lemma debug_sym_read_run call f symfile_flags :
  sym_read t = Some f →
  debug_sym_read call objfile symfile_flags w
  = printed_before [line_sym_read objfile symfile_flags]
      (call f objfile symfile_flags w).
Proof. intros Hf. unfold debug_sym_read. forward_void Hf f. Qed.

Lemma debug_sym_finish_run call f :
  sym_finish t = Some f →
  debug_sym_finish call objfile w
  = printed_before [line_sym_finish objfile] (call f objfile w).
Proof. intros Hf. unfold debug_sym_finish. forward_void Hf f. Qed.

Lemma debug_sym_offsets_run call f info :
  sym_offsets t = Some f →
  debug_sym_offsets call objfile info w
  = printed_before [line_sym_offsets objfile info] (call f objfile info w).
Proof. intros Hf. unfold debug_sym_offsets. forward_void Hf f. Qed.

Lemma debug_sym_read_linetable_run call f :
  sym_read_linetable t = Some f →
  debug_sym_read_linetable call objfile w
  = printed_before [line_sym_read_linetable objfile] (call f objfile w).
Proof. intros Hf. unfold debug_sym_read_linetable. forward_void Hf f. Qed.

(** [debug_sym_relocate] and [debug_sym_get_probes] print one line, and
    only after the call has returned. *)
Lemma debug_sym_relocate_run call f sectp buf :
  sym_relocate t = Some f →
  debug_sym_relocate call objfile sectp buf w
  = printed_after (call f objfile sectp buf w)
      (λ retval, [line_sym_relocate objfile sectp buf retval]).
Proof.
  intros Hf. unfold debug_sym_relocate.
  rewrite key_get_logging, real_table_run, Hf.
  rewrite (bind_silent (nonnull (Some f)) _ w f w) by done.
  apply (call_then_print (call f objfile sectp buf)
           "sf->sym_relocate (%s, %s, %s) = %s\n"
           (λ retval, [FObjfileName objfile; FHostAddr sectp; FHostAddr buf;
                       FHostAddr retval])).
Qed.

Lemma debug_sym_get_probes_run call pp pt f :
  sym_probe_fns t = Some pp →
  load_probe_fns (Some pp) w = Result (Returned pt) w [] →
  sym_get_probes pt = Some f →
  debug_sym_get_probes call objfile w
  = printed_after (call f objfile w)
      (λ retval, [line_sym_get_probes objfile retval]).
Proof.
  intros Hp Hpt Hf. unfold debug_sym_get_probes.
  rewrite key_get_logging, real_table_run, Hp.
  rewrite (bind_silent _ _ _ _ _ Hpt), Hf.
  rewrite (bind_silent (nonnull (Some f)) _ w f w) by done.
  apply (call_then_print (call f objfile)
           "probes->sym_get_probes (%s) = %s\n"
           (λ retval, [FObjfileName objfile; FVectorData retval])).
Qed.

End Logging_installed.

(** ** Calls through the logging table *)

Section After_install.

Variables (w : world ext) (objfile : positive) (o : struct_objfile) (a : positive).
Hypothesis Ho : objfile_mem w !! objfile = Some o.
Hypothesis Hsf : sf o = Static_sf a.
Hypothesis Hk : symfile_debug_objfile_data_key w !! objfile = None.

Let w1 : world ext := final (install_symfile_debug_logging objfile w).
Let d : positive := fresh (dom (debug_data_mem w)).
Let x : debug_sym_fns_data :=
  Build_debug_sym_fns_data (Static_sf a) (logging_copy (static_sf a)).

Lemma after_install_state :
  w1 = world_with_logging w objfile o d (static_sf a).
Proof.
  subst w1. rewrite (install_run w objfile o (static_sf a)); try done.
  by rewrite Hsf.
Qed.

Lemma after_install_key : symfile_debug_objfile_data_key w1 !! objfile = Some d.
Proof. rewrite after_install_state. simpl. apply lookup_insert_eq. Qed.

Lemma after_install_data : debug_data_mem w1 !! d = Some x.
Proof.
  rewrite after_install_state. simpl. rewrite lookup_insert_eq.
  subst x. by rewrite Hsf.
Qed.

Lemma after_install_real :
  load_sym_fns (real_sf x) w1 = Result (Returned (static_sf a)) w1 [].
Proof. done. Qed.

Lemma after_install_active {B : Type} (k : sym_fns → M ext B) :
  (active_sym_fns objfile ≫= k) w1 = k (logging_copy (static_sf a)) w1.
Proof.
  apply bind_silent. unfold active_sym_fns.
  rewrite (bind_silent (load_objfile objfile) _ w1 (set_sf (Debug_sf d) o) w1).
  - simpl. mred. by rewrite after_install_data.
  - apply load_objfile_run. rewrite after_install_state. simpl.
    apply lookup_insert_eq.
Qed.

Lemma nonnull_bind {A B : Type} (f : A) (k : A → M ext B) w0 :
  (nonnull (Some f) ≫= k) w0 = k f w0.
Proof. by apply bind_silent. Qed.

Ltac through_table Hf lem :=
  rewrite after_install_active; unfold logging_copy; simpl; rewrite Hf;
  unfold proxy_for; rewrite nonnull_bind; simpl;
  erewrite lem by
    first [apply after_install_key | apply after_install_data
          | apply after_install_real | done];
  first [apply same_result_printed_before | apply same_result_printed_after].

Lemma invoke_sym_new_init_forwards n f :
  sym_new_init (static_sf a) = Some f →
  same_result (invoke_sym_new_init (S n) objfile w1)
    (call_objfile_fn n f objfile w1).
Proof.
  intros Hf. unfold invoke_sym_new_init. through_table Hf debug_sym_new_init_run.
Qed.

Lemma invoke_sym_init_forwards n f :
  sym_init (static_sf a) = Some f →
  same_result (invoke_sym_init (S n) objfile w1) (call_objfile_fn n f objfile w1).
Proof.
  intros Hf. unfold invoke_sym_init. through_table Hf debug_sym_init_run.
Qed.

Lemma invoke_sym_read_forwards n f symfile_flags :
  sym_read (static_sf a) = Some f →
  same_result (invoke_sym_read (S n) objfile symfile_flags w1)
    (call_read_fn n f objfile symfile_flags w1).
Proof.
  intros Hf. unfold invoke_sym_read. through_table Hf debug_sym_read_run.
Qed.

Lemma invoke_sym_finish_forwards n f :
  sym_finish (static_sf a) = Some f →
  same_result (invoke_sym_finish (S n) objfile w1)
    (call_objfile_fn n f objfile w1).
Proof.
  intros Hf. unfold invoke_sym_finish. through_table Hf debug_sym_finish_run.
Qed.

Lemma invoke_sym_offsets_forwards n f info :
  sym_offsets (static_sf a) = Some f →
  same_result (invoke_sym_offsets (S n) objfile info w1)
    (call_offsets_fn n f objfile info w1).
Proof.
  intros Hf. unfold invoke_sym_offsets. through_table Hf debug_sym_offsets_run.
Qed.

Lemma invoke_sym_read_linetable_forwards n f :
  sym_read_linetable (static_sf a) = Some f →
  same_result (invoke_sym_read_linetable (S n) objfile w1)
    (call_objfile_fn n f objfile w1).
Proof.
  intros Hf. unfold invoke_sym_read_linetable.
  through_table Hf debug_sym_read_linetable_run.
Qed.

Lemma invoke_sym_relocate_forwards n f sectp buf :
  sym_relocate (static_sf a) = Some f →
  same_result (invoke_sym_relocate (S n) objfile sectp buf w1)
    (call_relocate_fn n f objfile sectp buf w1).
Proof.
  intros Hf. unfold invoke_sym_relocate. through_table Hf debug_sym_relocate_run.
Qed.

Lemma invoke_sym_get_probes_forwards n pp f :
  sym_probe_fns (static_sf a) = Some pp →
  sym_get_probes (probe_fns_at pp) = Some f →
  same_result (invoke_sym_get_probes (S n) objfile w1)
    (call_get_probes_fn n f objfile w1).
Proof.
  intros Hp Hf. unfold invoke_sym_get_probes.
  rewrite after_install_active; unfold logging_copy; simpl. rewrite Hp.
  unfold proxy_for, load_probe_fns.
  rewrite (bind_silent (mret debug_sym_probe_fns) _ w1 debug_sym_probe_fns w1)
    by done.
  unfold debug_sym_probe_fns at 1. simpl sym_get_probes.
  rewrite nonnull_bind. simpl.
  erewrite (debug_sym_get_probes_run w1 objfile d x (static_sf a)
              after_install_key after_install_data after_install_real
              _ pp (probe_fns_at pp) f Hp); [| by destruct pp | done].
  apply same_result_printed_after.
Qed.

End After_install.

(** *** Claim C6 *)

(** C6 (amended).  Forwarding transparency, for every slot but
    [sym_segments].  After installing the logging over an original table,
    a call of a populated slot through the objfile's table, with any
    arguments, ends the same way (same returned value, or same failure)
    and leaves the same state as calling the original function of that
    slot directly with the same arguments; the call through the table
    costs one more level of nesting ([S n] against [n]). *)
Theorem shadow_calls_forward w objfile o a (n : nat) (symfile_flags : Z)
    (info : positive) (sectp buf : option positive) :
  objfile_mem w !! objfile = Some o →
  sf o = Static_sf a →
  symfile_debug_objfile_data_key w !! objfile = None →
  let real := static_sf a in
  let w1 := final (install_symfile_debug_logging objfile w) in
  (∀ f, sym_new_init real = Some f →
        same_result (invoke_sym_new_init (S n) objfile w1)
          (call_objfile_fn n f objfile w1))
  ∧ (∀ f, sym_init real = Some f →
          same_result (invoke_sym_init (S n) objfile w1)
            (call_objfile_fn n f objfile w1))
  ∧ (∀ f, sym_read real = Some f →
          same_result (invoke_sym_read (S n) objfile symfile_flags w1)
            (call_read_fn n f objfile symfile_flags w1))
  ∧ (∀ f, sym_finish real = Some f →
          same_result (invoke_sym_finish (S n) objfile w1)
            (call_objfile_fn n f objfile w1))
  ∧ (∀ f, sym_offsets real = Some f →
          same_result (invoke_sym_offsets (S n) objfile info w1)
            (call_offsets_fn n f objfile info w1))
  ∧ (∀ f, sym_read_linetable real = Some f →
          same_result (invoke_sym_read_linetable (S n) objfile w1)
            (call_objfile_fn n f objfile w1))
  ∧ (∀ f, sym_relocate real = Some f →
          same_result (invoke_sym_relocate (S n) objfile sectp buf w1)
            (call_relocate_fn n f objfile sectp buf w1))
  ∧ (∀ pp f, sym_probe_fns real = Some pp →
             sym_get_probes (probe_fns_at pp) = Some f →
             same_result (invoke_sym_get_probes (S n) objfile w1)
               (call_get_probes_fn n f objfile w1)).
Proof.
  intros Ho Hsf Hk real w1. subst real w1.
  repeat match goal with |- _ ∧ _ => split end; intros.
  - eapply invoke_sym_new_init_forwards; eauto.
  - eapply invoke_sym_init_forwards; eauto.
  - eapply invoke_sym_read_forwards; eauto.
  - eapply invoke_sym_finish_forwards; eauto.
  - eapply invoke_sym_offsets_forwards; eauto.
  - eapply invoke_sym_read_linetable_forwards; eauto.
  - eapply invoke_sym_relocate_forwards; eauto.
  - eapply invoke_sym_get_probes_forwards; eauto.
Qed.

(** * Further properties *)

(** ** The logging functions, in general *)

(** The six logging functions that return nothing print their line and
    then make the call: the run through the logging function is the run
    of the real function with that one line printed ahead of it, however
    the real function ends. *)
Theorem void_logging_functions_print_first w objfile d x a (n : nat)
    (symfile_flags : Z) (info : positive) :
  symfile_debug_objfile_data_key w !! objfile = Some d →
  debug_data_mem w !! d = Some x →
  real_sf x = Static_sf a →
  let real := static_sf a in
  (∀ f, sym_new_init real = Some f →
        call_objfile_fn (S n) Fn_debug_sym_new_init objfile w
        = printed_before [line_sym_new_init objfile]
            (call_objfile_fn n f objfile w))
  ∧ (∀ f, sym_init real = Some f →
          call_objfile_fn (S n) Fn_debug_sym_init objfile w
          = printed_before [line_sym_init objfile]
              (call_objfile_fn n f objfile w))
  ∧ (∀ f, sym_read real = Some f →
          call_read_fn (S n) Fn_debug_sym_read objfile symfile_flags w
          = printed_before [line_sym_read objfile symfile_flags]
              (call_read_fn n f objfile symfile_flags w))
  ∧ (∀ f, sym_finish real = Some f →
          call_objfile_fn (S n) Fn_debug_sym_finish objfile w
          = printed_before [line_sym_finish objfile]
              (call_objfile_fn n f objfile w))
  ∧ (∀ f, sym_offsets real = Some f →
          call_offsets_fn (S n) Fn_debug_sym_offsets objfile info w
          = printed_before [line_sym_offsets objfile info]
              (call_offsets_fn n f objfile info w))
  ∧ (∀ f, sym_read_linetable real = Some f →
          call_objfile_fn (S n) Fn_debug_sym_read_linetable objfile w
          = printed_before [line_sym_read_linetable objfile]
              (call_objfile_fn n f objfile w)).
Proof.
  intros Hk Hd Hreal real.
  assert (Ht : load_sym_fns (real_sf x) w = Result (Returned real) w [])
    by by rewrite Hreal.
  repeat match goal with |- _ ∧ _ => split end; intros f Hf; simpl.
  - by apply (debug_sym_new_init_run w objfile d x real).
  - by apply (debug_sym_init_run w objfile d x real).
  - by apply (debug_sym_read_run w objfile d x real).
  - by apply (debug_sym_finish_run w objfile d x real).
  - by apply (debug_sym_offsets_run w objfile d x real).
  - by apply (debug_sym_read_linetable_run w objfile d x real).
Qed.

(** [debug_sym_relocate] and [debug_sym_get_probes] make the call first:
    the run through the logging function is the run of the real function,
    followed, only if that returned, by one line that shows the value
    returned, which is passed on unchanged. *)
Theorem value_logging_functions_print_last w objfile d x a (n : nat)
    (sectp buf : option positive) :
  symfile_debug_objfile_data_key w !! objfile = Some d →
  debug_data_mem w !! d = Some x →
  real_sf x = Static_sf a →
  let real := static_sf a in
  (∀ f, sym_relocate real = Some f →
        call_relocate_fn (S n) Fn_debug_sym_relocate objfile sectp buf w
        = printed_after (call_relocate_fn n f objfile sectp buf w)
            (λ retval, [line_sym_relocate objfile sectp buf retval]))
  ∧ (∀ pp f, sym_probe_fns real = Some pp →
             sym_get_probes (probe_fns_at pp) = Some f →
             call_get_probes_fn (S n) Fn_debug_sym_get_probes objfile w
             = printed_after (call_get_probes_fn n f objfile w)
                 (λ retval, [line_sym_get_probes objfile retval])).
Proof.
  intros Hk Hd Hreal real.
  assert (Ht : load_sym_fns (real_sf x) w = Result (Returned real) w [])
    by by rewrite Hreal.
  split.
  - intros f Hf. simpl. by apply (debug_sym_relocate_run w objfile d x real).
  - intros pp f Hp Hf. simpl.
    apply (debug_sym_get_probes_run w objfile d x real Hk Hd Ht _ pp
             (probe_fns_at pp) f Hp); [by destruct pp | done].
Qed.

(** A logging function reached for an objfile that has no registry entry
    reads through the null pointer that [get] returns.  The six functions
    that return nothing have printed their line by then; the other two
    have printed nothing.  The state is untouched. *)
Theorem logging_functions_without_entry w objfile (n : nat) (symfile_flags : Z)
    (info : positive) (sectp buf : option positive) :
  symfile_debug_objfile_data_key w !! objfile = None →
  call_objfile_fn (S n) Fn_debug_sym_new_init objfile w
  = Result Fault w [line_sym_new_init objfile]
  ∧ call_objfile_fn (S n) Fn_debug_sym_init objfile w
    = Result Fault w [line_sym_init objfile]
  ∧ call_read_fn (S n) Fn_debug_sym_read objfile symfile_flags w
    = Result Fault w [line_sym_read objfile symfile_flags]
  ∧ call_objfile_fn (S n) Fn_debug_sym_finish objfile w
    = Result Fault w [line_sym_finish objfile]
  ∧ call_offsets_fn (S n) Fn_debug_sym_offsets objfile info w
    = Result Fault w [line_sym_offsets objfile info]
  ∧ call_objfile_fn (S n) Fn_debug_sym_read_linetable objfile w
    = Result Fault w [line_sym_read_linetable objfile]
  ∧ call_relocate_fn (S n) Fn_debug_sym_relocate objfile sectp buf w
    = Result Fault w []
  ∧ call_get_probes_fn (S n) Fn_debug_sym_get_probes objfile w
    = Result Fault w [].
Proof.
  intros Hk.
  repeat match goal with |- _ ∧ _ => split end; simpl;
    unfold debug_sym_new_init, debug_sym_init, debug_sym_read, debug_sym_finish,
      debug_sym_offsets, debug_sym_read_linetable, debug_sym_relocate,
      debug_sym_get_probes;
    mred; by rewrite Hk.
Qed.

(** ** The forwarding methods when [qf] is not null *)

Ltac qf_flags Ho Hq :=
  repeat (mred; rewrite ?Ho; mred; rewrite ?Hq;
          try match goal with
              | |- context [if debug_symfile ?w then _ else _] =>
                  destruct (debug_symfile w)
              end).

Ltac qf_forward Ho Hq :=
  unfold same_result; qf_flags Ho Hq;
  match goal with
  | |- _ = res ?c ∧ _ => destruct c as [[?| | | |] ? ?]
  end;
  qf_flags Ho Hq; done.

Section Some_qf.

Variables (w : world ext) (this : positive) (o : struct_objfile) (q : positive).
Hypothesis Ho : objfile_mem w !! this = Some o.
Hypothesis Hq : qf o = Some q.

Lemma find_last_source_symtab_some_qf  :
  same_result (objfile_find_last_source_symtab this  w)
    (qf_find_last_source_symtab (qf_object q) this  w).
Proof. unfold objfile_find_last_source_symtab. qf_forward Ho Hq. Qed.

Lemma forget_cached_source_info_some_qf  :
  same_result (objfile_forget_cached_source_info this  w)
    (qf_forget_cached_source_info (qf_object q) this  w).
Proof. unfold objfile_forget_cached_source_info. qf_forward Ho Hq. Qed.

Lemma map_symtabs_matching_filename_some_qf name real_path callback :
  same_result (objfile_map_symtabs_matching_filename this name real_path callback w)
    (qf_map_symtabs_matching_filename (qf_object q) this name real_path callback w).
Proof. unfold objfile_map_symtabs_matching_filename. qf_forward Ho Hq. Qed.

Lemma lookup_symbol_some_qf kind name domain :
  same_result (objfile_lookup_symbol this kind name domain w)
    (qf_lookup_symbol (qf_object q) this kind name domain w).
Proof. unfold objfile_lookup_symbol. qf_forward Ho Hq. Qed.

Lemma print_stats_some_qf print_bcache :
  same_result (objfile_print_stats this print_bcache w)
    (qf_print_stats (qf_object q) this print_bcache w).
Proof. unfold objfile_print_stats. qf_forward Ho Hq. Qed.

Lemma dump_some_qf  :
  same_result (objfile_dump this  w)
    (qf_dump (qf_object q) this  w).
Proof. unfold objfile_dump. qf_forward Ho Hq. Qed.

Lemma expand_symtabs_for_function_some_qf name :
  same_result (objfile_expand_symtabs_for_function this name w)
    (qf_expand_symtabs_for_function (qf_object q) this name w).
Proof. unfold objfile_expand_symtabs_for_function. qf_forward Ho Hq. Qed.

Lemma expand_all_symtabs_some_qf  :
  same_result (objfile_expand_all_symtabs this  w)
    (qf_expand_all_symtabs (qf_object q) this  w).
Proof. unfold objfile_expand_all_symtabs. qf_forward Ho Hq. Qed.

Lemma expand_symtabs_with_fullname_some_qf name :
  same_result (objfile_expand_symtabs_with_fullname this name w)
    (qf_expand_symtabs_with_fullname (qf_object q) this name w).
Proof. unfold objfile_expand_symtabs_with_fullname. qf_forward Ho Hq. Qed.

Lemma map_matching_symbols_some_qf lookup_name domain global callback ordered_compare :
  same_result (objfile_map_matching_symbols this lookup_name domain global callback ordered_compare w)
    (qf_map_matching_symbols (qf_object q) this lookup_name domain global callback ordered_compare w).
Proof. unfold objfile_map_matching_symbols. qf_forward Ho Hq. Qed.

Lemma expand_symtabs_matching_some_qf file_matcher lookup_name_p symbol_matcher expansion_notify search_kind :
  same_result (objfile_expand_symtabs_matching this file_matcher lookup_name_p symbol_matcher expansion_notify search_kind w)
    (qf_expand_symtabs_matching (qf_object q) this file_matcher lookup_name_p symbol_matcher expansion_notify search_kind w).
Proof. unfold objfile_expand_symtabs_matching. qf_forward Ho Hq. Qed.

Lemma find_pc_sect_compunit_symtab_some_qf msymbol pc section warn_if_readin :
  same_result (objfile_find_pc_sect_compunit_symtab this msymbol pc section warn_if_readin w)
    (qf_find_pc_sect_compunit_symtab (qf_object q) this msymbol pc section warn_if_readin w).
Proof. unfold objfile_find_pc_sect_compunit_symtab. qf_forward Ho Hq. Qed.

Lemma map_symbol_filenames_some_qf fun_ data need_fullname :
  same_result (objfile_map_symbol_filenames this fun_ data need_fullname w)
    (qf_map_symbol_filenames (qf_object q) this fun_ data need_fullname w).
Proof. unfold objfile_map_symbol_filenames. qf_forward Ho Hq. Qed.

Lemma find_compunit_symtab_by_address_some_qf pc :
  same_result (objfile_find_compunit_symtab_by_address this pc w)
    (qf_find_compunit_symtab_by_address (qf_object q) this pc w).
Proof. unfold objfile_find_compunit_symtab_by_address. qf_forward Ho Hq. Qed.

Lemma lookup_global_symbol_language_some_qf name domain symbol_found_p :
  objfile_lookup_global_symbol_language this name domain symbol_found_p w
  = qf_lookup_global_symbol_language (qf_object q) this name domain
      symbol_found_p w.
Proof.
  unfold objfile_lookup_global_symbol_language.
  rewrite (bind_silent (this_qf this) _ w (Some q) w); [done|].
  mred. rewrite Ho. mred. by rewrite Hq.
Qed.

End Some_qf.

(** For a live objfile with a [qf] object, each forwarding method other
    than [has_partial_symbols] ends the way the method of the [qf] object
    ends, called with the same arguments, and leaves the state that call
    left: the trace lines change neither.
    [lookup_global_symbol_language] prints nothing of its own even when
    [debug_symfile] is on. *)
Theorem forwarding_methods_some_qf w this o q
    (name : string) (real_path : option string) (callback : positive)
    (kind domain global pc need_fullname warn_if_readin search_kind : Z)
    (print_bcache symbol_found_p : bool) (lookup_name file_matcher
    symbol_matcher expansion_notify : positive)
    (ordered_compare lookup_name_p section fun_ data : option positive)
    (msymbol : bound_minimal_symbol) :
  objfile_mem w !! this = Some o →
  qf o = Some q →
  let Q := qf_object q in
  same_result (objfile_find_last_source_symtab this w)
    (qf_find_last_source_symtab Q this w)
  ∧ same_result (objfile_forget_cached_source_info this w)
      (qf_forget_cached_source_info Q this w)
  ∧ same_result
      (objfile_map_symtabs_matching_filename this name real_path callback w)
      (qf_map_symtabs_matching_filename Q this name real_path callback w)
  ∧ same_result (objfile_lookup_symbol this kind name domain w)
      (qf_lookup_symbol Q this kind name domain w)
  ∧ same_result (objfile_print_stats this print_bcache w)
      (qf_print_stats Q this print_bcache w)
  ∧ same_result (objfile_dump this w) (qf_dump Q this w)
  ∧ same_result (objfile_expand_symtabs_for_function this name w)
      (qf_expand_symtabs_for_function Q this name w)
  ∧ same_result (objfile_expand_all_symtabs this w)
      (qf_expand_all_symtabs Q this w)
  ∧ same_result (objfile_expand_symtabs_with_fullname this name w)
      (qf_expand_symtabs_with_fullname Q this name w)
  ∧ same_result
      (objfile_map_matching_symbols this lookup_name domain global callback
         ordered_compare w)
      (qf_map_matching_symbols Q this lookup_name domain global callback
         ordered_compare w)
  ∧ same_result
      (objfile_expand_symtabs_matching this file_matcher lookup_name_p
         symbol_matcher expansion_notify search_kind w)
      (qf_expand_symtabs_matching Q this file_matcher lookup_name_p
         symbol_matcher expansion_notify search_kind w)
  ∧ same_result
      (objfile_find_pc_sect_compunit_symtab this msymbol pc section
         warn_if_readin w)
      (qf_find_pc_sect_compunit_symtab Q this msymbol pc section
         warn_if_readin w)
  ∧ same_result
      (objfile_map_symbol_filenames this fun_ data need_fullname w)
      (qf_map_symbol_filenames Q this fun_ data need_fullname w)
  ∧ same_result (objfile_find_compunit_symtab_by_address this pc w)
      (qf_find_compunit_symtab_by_address Q this pc w)
  ∧ objfile_lookup_global_symbol_language this name domain symbol_found_p w
    = qf_lookup_global_symbol_language Q this name domain symbol_found_p w.
Proof.
  intros Ho Hq Q. subst Q.
  repeat match goal with |- _ ∧ _ => split end;
    eauto using find_last_source_symtab_some_qf,
      forget_cached_source_info_some_qf, map_symtabs_matching_filename_some_qf,
      lookup_symbol_some_qf, print_stats_some_qf, dump_some_qf,
      expand_symtabs_for_function_some_qf, expand_all_symtabs_some_qf,
      expand_symtabs_with_fullname_some_qf, map_matching_symbols_some_qf,
      expand_symtabs_matching_some_qf, find_pc_sect_compunit_symtab_some_qf,
      map_symbol_filenames_some_qf, find_compunit_symtab_by_address_some_qf,
      lookup_global_symbol_language_some_qf.
Qed.

(** [has_partial_symbols] with a [qf] object.  While the psymtabs have
    not been read, a [qf] that can read symbols lazily makes the answer
    true without [has_symbols] being asked; if it cannot, or once the
    psymtabs have been read (and then [can_lazily_read_symbols] is not
    asked), the answer is that of [has_symbols]. *)
Theorem has_partial_symbols_some_qf w this o q :
  objfile_mem w !! this = Some o →
  qf o = Some q →
  let Q := qf_object q in
  (Z.land (flags o) OBJF_PSYMTABS_READ = 0 →
   ∀ w' l, qf_can_lazily_read_symbols Q w = Result (Returned true) w' l →
           returns_unchanged (objfile_has_partial_symbols this w) true w')
  ∧ (Z.land (flags o) OBJF_PSYMTABS_READ = 0 →
     ∀ w' l o' q',
       qf_can_lazily_read_symbols Q w = Result (Returned false) w' l →
       objfile_mem w' !! this = Some o' → qf o' = Some q' →
       same_result (objfile_has_partial_symbols this w)
         (qf_has_symbols (qf_object q') this w'))
  ∧ (Z.land (flags o) OBJF_PSYMTABS_READ ≠ 0 →
     same_result (objfile_has_partial_symbols this w)
       (qf_has_symbols Q this w)).
Proof.
  intros Ho Hq Q. subst Q. unfold objfile_has_partial_symbols.
  rewrite (bind_silent _ _ _ _ _ (load_objfile_run _ _ _ Ho)).
  repeat match goal with |- _ ∧ _ => split end.
  - intros Hf w' l Hl. rewrite bool_decide_eq_true_2 by done. rewrite Hq.
    rewrite (bind_returned _ _ _ _ _ _ Hl).
    unfold returns_unchanged. mred. by destruct (debug_symfile w').
  - intros Hf w' l o' q' Hl Ho' Hq'. rewrite bool_decide_eq_true_2 by done.
    rewrite Hq. rewrite (bind_returned _ _ _ _ _ _ Hl).
    unfold same_result. mred. rewrite Ho'. mred. rewrite Hq'.
    destruct (qf_has_symbols (qf_object q') this w') as [[v| | | |] w'' l''];
      mred; try done.
    by destruct (debug_symfile w'').
  - intros Hf. rewrite bool_decide_eq_false_2 by done.
    rewrite (bind_silent (mret false) _ w false w) by done.
    unfold same_result. mred. rewrite Ho. mred. rewrite Hq.
    destruct (qf_has_symbols (qf_object q) this w) as [[v| | | |] w'' l''];
      mred; try done.
    by destruct (debug_symfile w'').
Qed.

(** ** Installing, uninstalling and replacing: what is left alone *)

Lemma frames_guard objfile objfile' p :
  objfile ≠ objfile' →
  frames objfile (objfile_set_sym_fns objfile' p : M ext _).
Proof.
  intros Hne. unfold objfile_set_sym_fns.
  apply frames_bind; [apply frames_symfile_debug_installed|intros b].
  apply frames_bind.
  { destruct b; [|apply frames_ret].
    apply frames_bind; [apply frames_get_world|intros w].
    apply frames_bind; [apply frames_gdb_assert|intros _].
    by apply frames_uninstall. }
  intros _.
  apply frames_bind; [by apply frames_store_objfile_sf|intros _].
  apply frames_bind; [apply frames_get_world|intros w].
  destruct (debug_symfile w); [by apply frames_install|apply frames_ret].
Qed.

(** Installing the logging for one objfile, uninstalling it, and
    replacing its table through [objfile_set_sym_fns] never change the
    table pointer or any other member of another objfile, nor its registry
    entry, nor [debug_symfile], however the call ends. *)
Theorem other_objfiles_left_alone objfile objfile' (p : sym_fns_ptr) w :
  objfile ≠ objfile' →
  same_at objfile w (final (install_symfile_debug_logging objfile' w))
  ∧ same_at objfile w (final (uninstall_symfile_debug_logging objfile' w))
  ∧ same_at objfile w (final (objfile_set_sym_fns objfile' p w)).
Proof.
  intros Hne. split; [|split].
  - by apply frames_install.
  - by apply frames_uninstall.
  - by apply frames_guard.
Qed.

Lemma silent_bind {A B : Type} (c : M ext A) (k : A → M ext B) :
  silent c → (∀ a, silent (k a)) → silent (c ≫= k).
Proof.
  intros Hc Hk w. specialize (Hc w). unfold mbind, M_mbind, M_bind.
  destruct (c w) as [[a| | | |] w' l]; simpl in *; try done.
  specialize (Hk a w'). destruct (k a w') as [r w'' l']. simpl in *.
  by subst.
Qed.

Lemma silent_ret {A : Type} (a : A) : silent (mret a : M ext A).
Proof. done. Qed.

Lemma silent_raise {A : Type} (r : outcome A) : silent (raise r : M ext A).
Proof. done. Qed.

Lemma silent_gdb_assert expr cond : silent (gdb_assert expr cond : M ext _).
Proof. by destruct cond. Qed.

Lemma silent_load_objfile objfile : silent (load_objfile objfile : M ext _).
Proof. intros w. mred. by destruct (objfile_mem w !! objfile). Qed.

Lemma silent_symfile_debug_installed objfile :
  silent (symfile_debug_installed objfile : M ext _).
Proof.
  intros w. mred. destruct (objfile_mem w !! objfile) as [o|]; [|done].
  by destruct (sf o).
Qed.

Lemma silent_load_data dd : silent (load_data dd : M ext _).
Proof.
  intros w. mred. destruct dd as [d|]; [|done].
  by destruct (debug_data_mem w !! d).
Qed.

Lemma silent_update_data d f : silent (update_data d f : M ext _).
Proof. intros w. mred. by destruct (debug_data_mem w !! d). Qed.

Lemma silent_load_sym_fns p : silent (load_sym_fns p : M ext _).
Proof.
  intros w. destruct p as [|a|d]; try done.
  mred. by destruct (debug_data_mem w !! d).
Qed.

Lemma silent_COPY_SF_PTR {F : Type} from to (name : sym_fns → option F)
    set_name func :
  silent (COPY_SF_PTR from to name set_name func : M ext _).
Proof.
  apply silent_bind; [apply silent_load_sym_fns|]. intros t.
  destruct (name t); [apply silent_update_data | apply silent_ret].
Qed.

Lemma silent_key_set objfile d : silent (key_set objfile d : M ext _).
Proof.
  intros w. mred. by destruct (symfile_debug_objfile_data_key w !! objfile).
Qed.

Lemma silent_key_clear objfile : silent (key_clear objfile : M ext _).
Proof.
  intros w. mred. by destruct (symfile_debug_objfile_data_key w !! objfile).
Qed.

Lemma silent_store_objfile_sf objfile p :
  silent (store_objfile_sf objfile p : M ext _).
Proof. intros w. mred. by destruct (objfile_mem w !! objfile). Qed.

Lemma silent_install objfile :
  silent (install_symfile_debug_logging objfile : M ext _).
Proof.
  unfold install_symfile_debug_logging.
  apply silent_bind; [apply silent_symfile_debug_installed|intros b].
  apply silent_bind; [apply silent_gdb_assert|intros _].
  apply silent_bind; [apply silent_load_objfile|intros o].
  apply silent_bind; [done|intros d].
  do 8 (apply silent_bind; [apply silent_COPY_SF_PTR|intros _]).
  apply silent_bind; [apply silent_load_sym_fns|intros t].
  apply silent_bind.
  { destruct (sym_probe_fns t); [apply silent_update_data|apply silent_ret]. }
  intros _.
  apply silent_bind; [apply silent_update_data|intros _].
  apply silent_bind; [apply silent_key_set|intros _].
  apply silent_store_objfile_sf.
Qed.

Lemma silent_uninstall objfile :
  silent (uninstall_symfile_debug_logging objfile : M ext _).
Proof.
  unfold uninstall_symfile_debug_logging.
  apply silent_bind; [apply silent_symfile_debug_installed|intros b].
  apply silent_bind; [apply silent_gdb_assert|intros _].
  apply silent_bind; [done|intros dd].
  apply silent_bind; [apply silent_load_data|intros x].
  apply silent_bind; [apply silent_store_objfile_sf|intros _].
  apply silent_key_clear.
Qed.

Lemma silent_guard objfile p :
  silent (objfile_set_sym_fns objfile p : M ext _).
Proof.
  unfold objfile_set_sym_fns.
  apply silent_bind; [apply silent_symfile_debug_installed|intros b].
  apply silent_bind.
  { destruct b; [|apply silent_ret].
    apply silent_bind; [done|intros w].
    apply silent_bind; [apply silent_gdb_assert|intros _].
    apply silent_uninstall. }
  intros _.
  apply silent_bind; [apply silent_store_objfile_sf|intros _].
  apply silent_bind; [done|intros w].
  destruct (debug_symfile w); [apply silent_install|apply silent_ret].
Qed.

Lemma silent_for_each {A : Type} (l : list A) (body : A → M ext unit) :
  (∀ item, silent (body item)) → silent (for_each l body).
Proof.
  intros Hbody. induction l as [|item l IH]; [done|]. simpl.
  apply silent_bind; [apply Hbody|by intros _].
Qed.

Lemma silent_handler args from_tty c :
  silent (set_debug_symfile args from_tty c : M ext _).
Proof.
  unfold set_debug_symfile. apply silent_bind; [done|intros w].
  apply silent_for_each. intros pspace.
  apply silent_for_each. intros objfile.
  apply silent_bind; [done|intros w'].
  destruct (debug_symfile w');
    (apply silent_bind; [apply silent_symfile_debug_installed|intros b]);
    destruct b; simpl; auto using silent_ret, silent_install, silent_uninstall.
Qed.

(** Installing, uninstalling, replacing a table and the handler of the
    setting print nothing on [gdb_stdlog], in any state and however they
    end (also when an assertion fails or a null pointer is read): all the
    output of this file comes from the logging functions and from the
    forwarding methods. *)
Theorem table_management_prints_nothing objfile (p : sym_fns_ptr) args from_tty c w :
  out (install_symfile_debug_logging objfile w) = []
  ∧ out (uninstall_symfile_debug_logging objfile w) = []
  ∧ out (objfile_set_sym_fns objfile p w) = []
  ∧ out (set_debug_symfile args from_tty c w) = [].
Proof.
  repeat split.
  - apply silent_install.
  - apply silent_uninstall.
  - apply silent_guard.
  - apply silent_handler.
Qed.
(** ** Replacing the table twice *)


(** ** The registry kept well formed *)

Lemma well_formed_entry w objfile d :
  well_formed w →
  symfile_debug_objfile_data_key w !! objfile = Some d →
  sf_of w objfile = Some (Debug_sf d) ∧ is_Some (debug_data_mem w !! d).
Proof. intros [H _] Hk. exact (H objfile d Hk). Qed.

Lemma well_formed_inj w objfile1 objfile2 d :
  well_formed w →
  symfile_debug_objfile_data_key w !! objfile1 = Some d →
  symfile_debug_objfile_data_key w !! objfile2 = Some d →
  objfile1 = objfile2.
Proof. intros [_ H] H1 H2. exact (H objfile1 d H1 objfile2 d H2 eq_refl). Qed.

Lemma well_formed_intro w :
  (∀ objfile d, symfile_debug_objfile_data_key w !! objfile = Some d →
                entry_ok w objfile d) →
  (∀ objfile1 objfile2 d,
      symfile_debug_objfile_data_key w !! objfile1 = Some d →
      symfile_debug_objfile_data_key w !! objfile2 = Some d →
      objfile1 = objfile2) →
  well_formed w.
Proof.
  intros H1 H2. split.
  - intros objfile d Hk. by apply H1.
  - intros objfile1 d1 Hk1 objfile2 d2 Hk2 <-. by apply H2 with d1.
Qed.

Lemma sf_of_live w objfile p :
  sf_of w objfile = Some p →
  ∃ o, objfile_mem w !! objfile = Some o ∧ sf o = p.
Proof.
  unfold sf_of. destruct (objfile_mem w !! objfile) as [o|]; [|done].
  simpl. intros [= <-]. by exists o.
Qed.

Lemma installed_in_entry w objfile d :
  well_formed w →
  symfile_debug_objfile_data_key w !! objfile = Some d →
  installed_in w objfile = true.
Proof.
  intros Hwf Hk. destruct (well_formed_entry _ _ _ Hwf Hk) as [Hsf _].
  destruct (sf_of_live _ _ _ Hsf) as (o & Ho & Hp).
  unfold installed_in. by rewrite Ho, Hk, Hp.
Qed.

(** Installing for an objfile without entry keeps the registry well
    formed: the new data is at an address that no entry names. *)
Lemma well_formed_with_logging w objfile o t :
  well_formed w →
  objfile_mem w !! objfile = Some o →
  symfile_debug_objfile_data_key w !! objfile = None →
  well_formed
    (world_with_logging w objfile o (fresh (dom (debug_data_mem w))) t).
Proof.
  intros Hwf Ho Hk. pose proof (fresh_data_unused w) as Hd.
  set (d := fresh (dom (debug_data_mem w))) in *.
  assert (Hnew : ∀ objfile', symfile_debug_objfile_data_key w !! objfile' ≠ Some d).
  { intros objfile' Hk'. destruct (well_formed_entry _ _ _ Hwf Hk') as [_ [x Hx]].
    congruence. }
  apply well_formed_intro; simpl.
  - intros objfile' d' Hk'. unfold entry_ok, sf_of. simpl.
    destruct (decide (objfile' = objfile)) as [->|Hne].
    + rewrite lookup_insert_eq in Hk'. injection Hk' as <-.
      by rewrite !lookup_insert_eq.
    + rewrite lookup_insert_ne in Hk' by done.
      destruct (well_formed_entry _ _ _ Hwf Hk') as [Hsf Hx].
      rewrite lookup_insert_ne by done. split; [done|].
      rewrite lookup_insert_ne; [done|]. intros ->. by destruct (Hnew objfile').
  - intros o1 o2 d' H1 H2.
    destruct (decide (o1 = objfile)) as [->|Hne1];
      destruct (decide (o2 = objfile)) as [->|Hne2]; try done.
    + rewrite lookup_insert_eq in H1. injection H1 as <-.
      rewrite lookup_insert_ne in H2 by done. by destruct (Hnew o2).
    + rewrite lookup_insert_eq in H2. injection H2 as <-.
      rewrite lookup_insert_ne in H1 by done. by destruct (Hnew o1).
    + rewrite lookup_insert_ne in H1, H2 by done.
      by apply (well_formed_inj w o1 o2 d').
Qed.

(** Uninstalling keeps it well formed: the freed data was that of this
    objfile alone. *)
Lemma well_formed_without_logging w objfile o d p :
  well_formed w →
  objfile_mem w !! objfile = Some o →
  symfile_debug_objfile_data_key w !! objfile = Some d →
  well_formed (world_without_logging w objfile o d p).
Proof.
  intros Hwf Ho Hk. apply well_formed_intro; simpl.
  - intros objfile' d' Hk'. unfold entry_ok, sf_of. simpl.
    destruct (decide (objfile' = objfile)) as [->|Hne].
    + by rewrite lookup_delete_eq in Hk'.
    + rewrite lookup_delete_ne in Hk' by done.
      destruct (well_formed_entry _ _ _ Hwf Hk') as [Hsf Hx].
      rewrite lookup_insert_ne by done. split; [done|].
      rewrite lookup_delete_ne; [done|]. intros ->.
      by destruct Hne; apply (well_formed_inj w objfile' objfile d').
  - intros o1 o2 d' H1 H2.
    destruct (decide (o1 = objfile)) as [->|Hne1];
      [by rewrite lookup_delete_eq in H1|].
    destruct (decide (o2 = objfile)) as [->|Hne2];
      [by rewrite lookup_delete_eq in H2|].
    rewrite lookup_delete_ne in H1, H2 by done.
    by apply (well_formed_inj w o1 o2 d').
Qed.

(** Installing, uninstalling and replacing a table keep the registry
    well formed: for a live objfile whose table is an original one and
    that has no entry, after install; for an objfile with an entry, after
    uninstall, which also restores the recorded pointer and removes the
    entry; and after [objfile_set_sym_fns] with a non-null original table,
    when the objfile has no entry while [debug_symfile] is off. *)
Theorem table_management_keeps_well_formed w objfile o a :
  well_formed w →
  objfile_mem w !! objfile = Some o →
  (symfile_debug_objfile_data_key w !! objfile = None →
   sf o = Static_sf a →
   let r := install_symfile_debug_logging objfile w in
   res r = Returned tt ∧ well_formed (final r))
  ∧ (∀ d x, symfile_debug_objfile_data_key w !! objfile = Some d →
            debug_data_mem w !! d = Some x →
            let r := uninstall_symfile_debug_logging objfile w in
            res r = Returned tt ∧ well_formed (final r)
            ∧ sf_of (final r) objfile = Some (real_sf x)
            ∧ symfile_debug_objfile_data_key (final r) !! objfile = None)
  ∧ ((debug_symfile w = false →
      symfile_debug_objfile_data_key w !! objfile = None) →
     let r := objfile_set_sym_fns objfile (Static_sf a) w in
     res r = Returned tt ∧ well_formed (final r)).
Proof.
  intros Hwf Ho. split; [|split].
  - intros Hk Hsf r. subst r.
    rewrite (install_run w objfile o (static_sf a)); [|done|by rewrite Hsf|done].
    split; [done|]. by apply well_formed_with_logging.
  - intros d x Hk Hd r. subst r.
    destruct (well_formed_entry _ _ _ Hwf Hk) as [Hsf _].
    destruct (sf_of_live _ _ _ Hsf) as (o' & Ho' & Hp).
    assert (o' = o) as -> by congruence.
    rewrite (uninstall_run w objfile o d x); [|done|by rewrite Hp|done|done].
    split; [done|]. split; [by apply well_formed_without_logging|].
    simpl. unfold sf_of. simpl. by rewrite lookup_insert_eq, lookup_delete_eq.
  - intros Hflag r. subst r.
    destruct (symfile_debug_objfile_data_key w !! objfile) as [d|] eqn:Hk.
    + destruct (well_formed_entry _ _ _ Hwf Hk) as [Hsf [x Hd]].
      destruct (sf_of_live _ _ _ Hsf) as (o' & Ho' & Hp).
      assert (o' = o) as -> by congruence.
      assert (Hds : debug_symfile w = true).
      { destruct (debug_symfile w); [done|]. by specialize (Hflag eq_refl). }
      rewrite (guard_run_installed w objfile o d x a); [|done|by rewrite Hp|done..].
      cbv zeta. split; [done|]. simpl.
      apply (well_formed_with_logging
               (world_without_logging w objfile o d (Static_sf a)) objfile
               (set_sf (Static_sf a) o)).
      * by apply well_formed_without_logging.
      * simpl. apply lookup_insert_eq.
      * simpl. apply lookup_delete_eq.
    + rewrite (guard_run_fresh w objfile o a) by done. cbv zeta.
      split; [done|]. simpl.
      set (w1 := set_objfile_mem _ w).
      assert (Hwf1 : well_formed w1).
      { apply well_formed_intro; simpl.
        - intros objfile' d' Hk'.
          destruct (well_formed_entry _ _ _ Hwf Hk') as [Hsf Hx].
          split; [|done]. unfold sf_of. simpl.
          rewrite lookup_insert_ne; [done|]. congruence.
        - intros o1 o2 d'. by apply well_formed_inj. }
      destruct (debug_symfile w); [|done].
      apply (well_formed_with_logging w1 objfile (set_sf (Static_sf a) o));
        [done | simpl; apply lookup_insert_eq | done].
Qed.

(** ** What the handler of the setting reaches *)

(** A loop whose every step returns, keeps [I] and moves the state along
    the preorder [S], under which what a step achieved ([G]) is kept. *)
Lemma for_each_inv {A : Type} (I : world ext → Prop)
    (S : world ext → world ext → Prop) (G : A → world ext → Prop)
    (l : list A) (body : A → M ext unit) w :
  (∀ w1, S w1 w1) →
  (∀ w1 w2 w3, S w1 w2 → S w2 w3 → S w1 w3) →
  (∀ item w1 w2, G item w1 → S w1 w2 → G item w2) →
  (∀ item w1, item ∈ l → I w1 →
     ∃ w2, body item w1 = Result (Returned tt) w2 [] ∧ I w2 ∧ S w1 w2
           ∧ G item w2) →
  I w →
  ∃ w', for_each l body w = Result (Returned tt) w' [] ∧ I w' ∧ S w w'
        ∧ ∀ item, item ∈ l → G item w'.
Proof.
  intros Hrefl Htrans Hstable. revert w.
  induction l as [|item l IH]; intros w Hstep HI.
  - exists w. repeat split; try done. intros item Hin. by inversion Hin.
  - destruct (Hstep item w) as (w1 & Hrun & HI1 & HS1 & HG1); [left|done|].
    destruct (IH w1) as (w2 & Hrun2 & HI2 & HS2 & HG2); [|done|].
    { intros item' w' Hin. apply Hstep. by right. }
    exists w2. simpl. rewrite (bind_silent _ _ _ _ _ Hrun).
    repeat split; try done.
    + by apply Htrans with w1.
    + intros item' Hin. inversion Hin; subst; [|by apply HG2].
      by apply Hstable with w1.
Qed.

Lemma toggle_one_installs w objfile o a :
  debug_symfile w = true →
  objfile_mem w !! objfile = Some o →
  sf o = Static_sf a →
  symfile_debug_objfile_data_key w !! objfile = None →
  toggle_one objfile w
  = Result (Returned tt)
      (world_with_logging w objfile o (fresh (dom (debug_data_mem w)))
         (static_sf a)) [].
Proof.
  intros Hds Ho Hsf Hk. unfold toggle_one.
  rewrite (bind_silent get_world _ w w w) by done. rewrite Hds.
  rewrite (bind_silent _ _ _ _ _ (symfile_debug_installed_run _ _ _ Ho)).
  rewrite installed_in_no_entry by done. simpl.
  apply install_run; [done|by rewrite Hsf|done].
Qed.

Lemma toggle_one_uninstalls w objfile o d x :
  debug_symfile w = false →
  objfile_mem w !! objfile = Some o →
  sf o ≠ NULL_sf →
  symfile_debug_objfile_data_key w !! objfile = Some d →
  debug_data_mem w !! d = Some x →
  toggle_one objfile w
  = Result (Returned tt) (world_without_logging w objfile o d (real_sf x)) [].
Proof.
  intros Hds Ho Hsf Hk Hd. unfold toggle_one.
  rewrite (bind_silent get_world _ w w w) by done. rewrite Hds.
  rewrite (bind_silent _ _ _ _ _ (symfile_debug_installed_run _ _ _ Ho)).
  assert (Hi : installed_in w objfile = true).
  { unfold installed_in. rewrite Ho, Hk. by destruct (sf o). }
  rewrite Hi. by apply uninstall_run.
Qed.

Lemma wraps_kept w w' objfile p :
  wraps w objfile p →
  objfile_mem w' !! objfile = objfile_mem w !! objfile →
  symfile_debug_objfile_data_key w' !! objfile
  = symfile_debug_objfile_data_key w !! objfile →
  (∀ d, symfile_debug_objfile_data_key w !! objfile = Some d →
        debug_data_mem w' !! d = debug_data_mem w !! d) →
  wraps w' objfile p.
Proof.
  intros (d & x & Hsf & Hk & Hd & Hr & Hc) Hom Hkey Hdm.
  exists d, x. unfold sf_of in *. rewrite Hom, Hkey, (Hdm d Hk). done.
Qed.

(** One step of the loops with [debug_symfile] on. *)
Lemma enabling_step w0 w objfile :
  is_Some (symfile_debug_objfile_data_key w0 !! objfile)
  ∨ is_static (sf_of w0 objfile) = true →
  enabling_invariant w0 w →
  ∃ w', toggle_one objfile w = Result (Returned tt) w' []
        ∧ enabling_invariant w0 w'
        ∧ (∀ objfile', is_Some (symfile_debug_objfile_data_key w !! objfile') →
                       is_Some (symfile_debug_objfile_data_key w' !! objfile'))
        ∧ is_Some (symfile_debug_objfile_data_key w' !! objfile).
Proof.
  intros Hready HI. pose proof HI as (Hds & Hwf & Hps & Hold & Hsame & Hwraps).
  destruct (symfile_debug_objfile_data_key w !! objfile) as [d|] eqn:Hk.
  - exists w. split; [|split; [done|split; [done|by rewrite Hk]]].
    apply toggle_one_noop.
    + destruct (well_formed_entry _ _ _ Hwf Hk) as [Hsf _].
      destruct (sf_of_live _ _ _ Hsf) as (o & Ho & _). eauto.
    + rewrite Hds. by apply installed_in_entry with d.
  - assert (Hk0 : symfile_debug_objfile_data_key w0 !! objfile = None).
    { destruct (symfile_debug_objfile_data_key w0 !! objfile) as [d0|] eqn:E;
        [|done]. rewrite (Hold _ _ E) in Hk. done. }
    destruct Hready as [[d0 E]|Hstatic]; [congruence|].
    destruct (sf_of w0 objfile) as [[|a|]|] eqn:Hsf0; try done.
    destruct (sf_of_live _ _ _ Hsf0) as (o & Ho0 & Hsf).
    assert (Ho : objfile_mem w !! objfile = Some o) by by rewrite Hsame.
    pose proof (fresh_data_unused w) as Hfresh.
    set (d := fresh (dom (debug_data_mem w))) in *.
    exists (world_with_logging w objfile o d (static_sf a)).
    split; [by apply toggle_one_installs|].
    split; [|split].
    + split; [done|]. split; [by apply well_formed_with_logging|].
      split; [done|]. simpl. split; [|split].
      * intros objfile' d' E. destruct (decide (objfile' = objfile)) as [->|Hne];
          [congruence|]. rewrite lookup_insert_ne by done. by apply Hold.
      * intros objfile' E. destruct (decide (objfile' = objfile)) as [->|Hne];
          [by rewrite lookup_insert_eq in E|].
        rewrite lookup_insert_ne in E by done.
        rewrite lookup_insert_ne by done. by apply Hsame.
      * intros objfile' a' E0 Hsf' Hsome.
        destruct (decide (objfile' = objfile)) as [->|Hne].
        -- assert (a' = a) as -> by congruence.
           exists d, (Build_debug_sym_fns_data (sf o) (logging_copy (static_sf a))).
           unfold sf_of. simpl. rewrite !lookup_insert_eq. simpl.
           repeat split; try done. by intros a' [= <-].
        -- rewrite lookup_insert_ne in Hsome by done.
           apply (wraps_kept w); [by apply Hwraps| | |]; simpl.
           ++ by rewrite lookup_insert_ne.
           ++ by rewrite lookup_insert_ne.
           ++ intros d' E. rewrite lookup_insert_ne; [done|]. intros <-.
              destruct (well_formed_entry _ _ _ Hwf E) as [_ [x Hx]]. congruence.
    + intros objfile' Hsome. simpl.
      destruct (decide (objfile' = objfile)) as [->|Hne];
        [by rewrite lookup_insert_eq|by rewrite lookup_insert_ne].
    + simpl. by rewrite lookup_insert_eq.
Qed.

Lemma all_listed_spec w (P : positive → Prop) :
  all_listed w P
  ↔ ∀ pspace objfile, pspace ∈ program_spaces w → objfile ∈ objfiles pspace →
                      P objfile.
Proof.
  unfold all_listed. rewrite Forall_forall. split.
  - intros H pspace objfile Hps. specialize (H pspace Hps).
    rewrite Forall_forall in H. apply H.
  - intros H pspace Hps. rewrite Forall_forall. intros objfile. by apply H.
Qed.

Lemma enabling_invariant_start w :
  debug_symfile w = true → well_formed w → enabling_invariant w w.
Proof.
  intros Hds Hwf. do 5 (split; [done|]).
  intros objfile a Hk _ [d Hd]. congruence.
Qed.

Lemma enabling_run w args from_tty c :
  debug_symfile w = true →
  well_formed w →
  all_listed w (λ objfile,
    is_Some (symfile_debug_objfile_data_key w !! objfile)
    ∨ is_static (sf_of w objfile) = true) →
  ∃ w', set_debug_symfile args from_tty c w = Result (Returned tt) w' []
        ∧ enabling_invariant w w'
        ∧ all_listed w (λ objfile,
            is_Some (symfile_debug_objfile_data_key w' !! objfile)).
Proof.
  intros Hds Hwf Hready. rewrite all_listed_spec in Hready.
  unfold set_debug_symfile. rewrite (bind_silent get_world _ w w w) by done.
  set (S := λ w1 w2 : world ext,
         ∀ objfile, is_Some (symfile_debug_objfile_data_key w1 !! objfile) →
                    is_Some (symfile_debug_objfile_data_key w2 !! objfile)).
  assert (Hrefl : ∀ w1, S w1 w1) by (by intros w1 objfile).
  assert (Htrans : ∀ w1 w2 w3, S w1 w2 → S w2 w3 → S w1 w3).
  { intros w1 w2 w3 H1 H2 objfile H. by apply H2, H1. }
  assert (Hinner : ∀ pspace w1, pspace ∈ program_spaces w →
            enabling_invariant w w1 →
            ∃ w2, for_each (objfiles pspace) toggle_one w1
                  = Result (Returned tt) w2 []
                  ∧ enabling_invariant w w2 ∧ S w1 w2
                  ∧ ∀ objfile, objfile ∈ objfiles pspace →
                      is_Some (symfile_debug_objfile_data_key w2 !! objfile)).
  { intros pspace w1 Hps HI1.
    apply (for_each_inv (enabling_invariant w) S
             (λ objfile w2,
                is_Some (symfile_debug_objfile_data_key w2 !! objfile)));
      [done | done | | | done].
    - intros objfile w2 w3 HG2 HS. by apply HS.
    - intros objfile w2 Hin HI2. apply enabling_step; [|done].
      by apply (Hready pspace). }
  destruct (for_each_inv (enabling_invariant w) S
              (λ pspace w1, ∀ objfile, objfile ∈ objfiles pspace →
                 is_Some (symfile_debug_objfile_data_key w1 !! objfile))
              (program_spaces w)
              (λ pspace, for_each (objfiles pspace) toggle_one) w
              Hrefl Htrans)
    as (w' & Hrun & HI & _ & HG).
  - intros pspace w1 w2 HG1 HS objfile Hin. by apply HS, HG1.
  - done.
  - by apply enabling_invariant_start.
  - exists w'. split; [exact Hrun|]. split; [done|].
    rewrite all_listed_spec. intros pspace objfile Hps Hin. by apply (HG pspace).
Qed.

(** With [debug_symfile] on and a well-formed registry, if every objfile
    of every program space either has the logging installed or points at
    an original table, the handler returns normally, the registry is well
    formed afterwards, and every one of these objfiles has the logging
    installed; those that had none before now wrap the table they pointed
    at. *)
Theorem set_debug_symfile_installs_everywhere w args from_tty c :
  debug_symfile w = true →
  well_formed w →
  all_listed w (λ objfile,
    is_Some (symfile_debug_objfile_data_key w !! objfile)
    ∨ is_static (sf_of w objfile) = true) →
  let r := set_debug_symfile args from_tty c w in
  res r = Returned tt
  ∧ well_formed (final r)
  ∧ all_listed w (λ objfile,
      installed_in (final r) objfile = true
      ∧ ∀ a, symfile_debug_objfile_data_key w !! objfile = None →
             sf_of w objfile = Some (Static_sf a) →
             wraps (final r) objfile (Static_sf a)).
Proof.
  intros Hds Hwf Hready r.
  destruct (enabling_run w args from_tty c Hds Hwf Hready)
    as (w' & Hrun & HI & Hall).
  subst r. rewrite Hrun. simpl.
  destruct HI as (_ & Hwf' & _ & _ & _ & Hwraps).
  split; [done|]. split; [done|].
  rewrite all_listed_spec in *. intros pspace objfile Hps Hin.
  destruct (Hall pspace objfile Hps Hin) as [d Hd]. split.
  - by apply installed_in_entry with d.
  - intros a Hk Hsf. apply Hwraps; eauto.
Qed.

(** One step of the loops with [debug_symfile] off. *)
Lemma disabling_step w0 w objfile :
  is_Some (objfile_mem w0 !! objfile) →
  disabling_invariant w0 w →
  ∃ w', toggle_one objfile w = Result (Returned tt) w' []
        ∧ disabling_invariant w0 w'
        ∧ (∀ objfile', symfile_debug_objfile_data_key w !! objfile' = None →
                       symfile_debug_objfile_data_key w' !! objfile' = None)
        ∧ symfile_debug_objfile_data_key w' !! objfile = None.
Proof.
  intros Hlive0 HI.
  pose proof HI as (Hds & Hwf & Hps & Hlive & Hpend & Hnever & Hdone).
  destruct (symfile_debug_objfile_data_key w !! objfile) as [d|] eqn:Hk.
  - destruct (well_formed_entry _ _ _ Hwf Hk) as [Hsf [x Hd]].
    destruct (sf_of_live _ _ _ Hsf) as (o & Ho & Hp).
    exists (world_without_logging w objfile o d (real_sf x)).
    split; [apply toggle_one_uninstalls; by rewrite ?Hp|].
    split; [|split].
    + split; [done|]. split; [by apply well_formed_without_logging|].
      split; [done|]. simpl. split; [|split; [|split]].
      * intros objfile' Hl. destruct (decide (objfile' = objfile)) as [->|Hne];
          [by rewrite lookup_insert_eq|].
        rewrite lookup_insert_ne by done. by apply Hlive.
      * intros objfile' d' E. destruct (decide (objfile' = objfile)) as [->|Hne];
          [by rewrite lookup_delete_eq in E|].
        rewrite lookup_delete_ne in E by done.
        destruct (Hpend _ _ E) as [E0 Hdm]. split; [done|].
        rewrite lookup_delete_ne; [done|]. intros ->.
        by destruct Hne; apply (well_formed_inj w objfile' objfile d').
      * intros objfile' E0. destruct (decide (objfile' = objfile)) as [->|Hne].
        { destruct (Hpend _ _ Hk) as [E _]. congruence. }
        unfold sf_of. simpl. rewrite lookup_insert_ne by done. by apply Hnever.
      * intros objfile' d' x' E0 Hd0 E.
        destruct (decide (objfile' = objfile)) as [->|Hne].
        -- destruct (Hpend _ _ Hk) as [E0' Hdm].
           assert (d' = d) as -> by congruence.
           assert (x' = x) as -> by congruence.
           unfold sf_of. simpl. by rewrite lookup_insert_eq.
        -- rewrite lookup_delete_ne in E by done.
           unfold sf_of. simpl. rewrite lookup_insert_ne by done.
           by apply (Hdone objfile' d' x').
    + intros objfile' E. simpl.
      destruct (decide (objfile' = objfile)) as [->|Hne];
        [by rewrite lookup_delete_eq|by rewrite lookup_delete_ne].
    + simpl. by rewrite lookup_delete_eq.
  - exists w. split; [|done].
    apply toggle_one_noop; [by apply Hlive|].
    rewrite Hds. by apply installed_in_no_entry.
Qed.

Lemma disabling_invariant_start w :
  debug_symfile w = false → well_formed w → disabling_invariant w w.
Proof.
  intros Hds Hwf. do 6 (split; [done|]).
  intros objfile d x Hk Hd Hk'. congruence.
Qed.

Lemma disabling_run w args from_tty c :
  debug_symfile w = false →
  well_formed w →
  all_listed w (λ objfile, is_Some (objfile_mem w !! objfile)) →
  ∃ w', set_debug_symfile args from_tty c w = Result (Returned tt) w' []
        ∧ disabling_invariant w w'
        ∧ all_listed w (λ objfile,
            symfile_debug_objfile_data_key w' !! objfile = None).
Proof.
  intros Hds Hwf Hlive. rewrite all_listed_spec in Hlive.
  unfold set_debug_symfile. rewrite (bind_silent get_world _ w w w) by done.
  set (S := λ w1 w2 : world ext,
         ∀ objfile, symfile_debug_objfile_data_key w1 !! objfile = None →
                    symfile_debug_objfile_data_key w2 !! objfile = None).
  assert (Hrefl : ∀ w1, S w1 w1) by (by intros w1 objfile).
  assert (Htrans : ∀ w1 w2 w3, S w1 w2 → S w2 w3 → S w1 w3).
  { intros w1 w2 w3 H1 H2 objfile H. by apply H2, H1. }
  assert (Hinner : ∀ pspace w1, pspace ∈ program_spaces w →
            disabling_invariant w w1 →
            ∃ w2, for_each (objfiles pspace) toggle_one w1
                  = Result (Returned tt) w2 []
                  ∧ disabling_invariant w w2 ∧ S w1 w2
                  ∧ ∀ objfile, objfile ∈ objfiles pspace →
                      symfile_debug_objfile_data_key w2 !! objfile = None).
  { intros pspace w1 Hps HI1.
    apply (for_each_inv (disabling_invariant w) S
             (λ objfile w2,
                symfile_debug_objfile_data_key w2 !! objfile = None));
      [done | done | | | done].
    - intros objfile w2 w3 HG2 HS. by apply HS.
    - intros objfile w2 Hin HI2. apply disabling_step; [|done].
      by apply (Hlive pspace). }
  destruct (for_each_inv (disabling_invariant w) S
              (λ pspace w1, ∀ objfile, objfile ∈ objfiles pspace →
                 symfile_debug_objfile_data_key w1 !! objfile = None)
              (program_spaces w)
              (λ pspace, for_each (objfiles pspace) toggle_one) w
              Hrefl Htrans)
    as (w' & Hrun & HI & _ & HG).
  - intros pspace w1 w2 HG1 HS objfile Hin. by apply HS, HG1.
  - done.
  - by apply disabling_invariant_start.
  - exists w'. split; [exact Hrun|]. split; [done|].
    rewrite all_listed_spec. intros pspace objfile Hps Hin. by apply (HG pspace).
Qed.

(** With [debug_symfile] off and a well-formed registry, if every objfile
    of every program space is live, the handler returns normally, the
    registry is well formed afterwards, and every one of these objfiles
    has no entry and no logging installed; one that had logging points at
    the real table that its logging data recorded, the others at the
    table they pointed at. *)
Theorem set_debug_symfile_uninstalls_everywhere w args from_tty c :
  debug_symfile w = false →
  well_formed w →
  all_listed w (λ objfile, is_Some (objfile_mem w !! objfile)) →
  let r := set_debug_symfile args from_tty c w in
  res r = Returned tt
  ∧ well_formed (final r)
  ∧ all_listed w (λ objfile,
      symfile_debug_objfile_data_key (final r) !! objfile = None
      ∧ installed_in (final r) objfile = false
      ∧ match symfile_debug_objfile_data_key w !! objfile with
        | Some d => ∃ x, debug_data_mem w !! d = Some x
                         ∧ sf_of (final r) objfile = Some (real_sf x)
        | None => sf_of (final r) objfile = sf_of w objfile
        end).
Proof.
  intros Hds Hwf Hlive r.
  destruct (disabling_run w args from_tty c Hds Hwf Hlive)
    as (w' & Hrun & HI & Hall).
  subst r. rewrite Hrun. simpl.
  destruct HI as (_ & Hwf' & _ & _ & _ & Hnever & Hdone).
  split; [done|]. split; [done|].
  rewrite all_listed_spec in *. intros pspace objfile Hps Hin.
  pose proof (Hall pspace objfile Hps Hin) as Hk'.
  split; [done|]. split; [by apply installed_in_no_entry|].
  destruct (symfile_debug_objfile_data_key w !! objfile) as [d|] eqn:Hk.
  - destruct (well_formed_entry _ _ _ Hwf Hk) as [_ [x Hd]].
    exists x. split; [done|]. by apply (Hdone objfile d x).
  - by apply Hnever.
Qed.

(** Switching the setting on and off again.  From a well-formed registry
    in which every objfile of every program space has no logging
    installed and points at an original table: the handler run with
    [debug_symfile] set to true installs the logging for each of them, and
    the handler run after that with [debug_symfile] set to false gives
    each of them back the very table pointer it had, with no registry
    entry left. *)
Theorem set_debug_symfile_on_then_off w args from_tty c :
  well_formed w →
  all_listed w (λ objfile,
    symfile_debug_objfile_data_key w !! objfile = None
    ∧ is_static (sf_of w objfile) = true) →
  let r1 := set_debug_symfile args from_tty c (with_debug_symfile true w) in
  let r2 := set_debug_symfile args from_tty c
              (with_debug_symfile false (final r1)) in
  res r1 = Returned tt
  ∧ res r2 = Returned tt
  ∧ all_listed w (λ objfile,
      installed_in (final r1) objfile = true
      ∧ sf_of (final r2) objfile = sf_of w objfile
      ∧ symfile_debug_objfile_data_key (final r2) !! objfile = None).
Proof.
  intros Hwf Hall. cbv zeta. rewrite all_listed_spec in Hall.
  set (w_on := with_debug_symfile true w).
  assert (Hwf_on : well_formed w_on) by exact Hwf.
  destruct (enabling_run w_on args from_tty c eq_refl Hwf_on)
    as (w1 & Hrun1 & HI1 & Hall1).
  { rewrite all_listed_spec. intros pspace objfile Hps Hin.
    right. by apply (Hall pspace objfile Hps Hin). }
  rewrite all_listed_spec in Hall1.
  pose proof HI1 as (_ & Hwf1 & Hps1 & _ & _ & Hwraps1).
  rewrite Hrun1. simpl.
  set (w_off := with_debug_symfile false w1).
  assert (Hwf_off : well_formed w_off) by exact Hwf1.
  assert (Hwrapped : ∀ pspace objfile,
            pspace ∈ program_spaces w → objfile ∈ objfiles pspace →
            ∃ a, sf_of w objfile = Some (Static_sf a)
                 ∧ wraps w1 objfile (Static_sf a)).
  { intros pspace objfile Hps Hin.
    destruct (Hall pspace objfile Hps Hin) as [Hk Hst].
    destruct (sf_of w objfile) as [[|a|]|] eqn:Hsf; try done.
    exists a. split; [done|]. apply Hwraps1; [done|done|].
    by apply (Hall1 pspace). }
  destruct (disabling_run w_off args from_tty c eq_refl Hwf_off)
    as (w2 & Hrun2 & HI2 & Hall2).
  { rewrite all_listed_spec. intros pspace objfile Hps Hin.
    change (program_spaces w_off) with (program_spaces w1) in Hps.
    rewrite Hps1 in Hps.
    destruct (Hwrapped pspace objfile Hps Hin) as (a & _ & d & x & Hsf & _).
    destruct (sf_of_live _ _ _ Hsf) as (o & Ho & _). by exists o. }
  rewrite Hrun2. simpl. split; [done|]. split; [done|].
  rewrite all_listed_spec in Hall2. rewrite all_listed_spec.
  intros pspace objfile Hps Hin.
  destruct (Hwrapped pspace objfile Hps Hin)
    as (a & Hsf & d & x & Hsf1 & Hk1 & Hd1 & Hreal & _).
  destruct HI2 as (_ & _ & _ & _ & _ & _ & Hdone).
  assert (Hk2 : symfile_debug_objfile_data_key w2 !! objfile = None).
  { apply (Hall2 pspace); [|done].
    change (program_spaces w_off) with (program_spaces w1).
    by rewrite Hps1. }
  split; [by apply installed_in_entry with d|]. split; [|done].
  rewrite Hsf, <- Hreal. by apply (Hdone objfile d x).
Qed.

(** ** The trace of the forwarding methods *)

Ltac qf_trace Ho Hq Hds :=
  unfold logged_around; mred; rewrite ?Ho; mred; rewrite ?Hds; mred;
  rewrite ?Ho; mred; rewrite ?Hq;
  match goal with
  | |- context [out ?c ++ _] => destruct c as [[?| | | |] w' l]
  end;
  mred;
  repeat match goal with
         | |- context [if debug_symfile ?w then _ else _] =>
             destruct (debug_symfile w)
         end;
  mred; simpl; rewrite ?app_nil_r, <- ?app_assoc; simpl;
  first [ eexists _, []; split; [by rewrite app_nil_r|]
        | eexists _, [_]; split; [reflexivity|] ];
  simpl; (split; [lia|]); intros Hv; first [reflexivity | exfalso; by eapply Hv].

Section Traced_qf.

Variables (w : world ext) (this : positive) (o : struct_objfile) (q : positive).
Hypothesis Ho : objfile_mem w !! this = Some o.
Hypothesis Hq : qf o = Some q.
Hypothesis Hds : debug_symfile w = true.

Lemma find_last_source_symtab_trace  :
  logged_around (objfile_find_last_source_symtab this  w)
    (qf_find_last_source_symtab (qf_object q) this  w).
Proof. unfold objfile_find_last_source_symtab. qf_trace Ho Hq Hds. Qed.

Lemma forget_cached_source_info_trace  :
  logged_around (objfile_forget_cached_source_info this  w)
    (qf_forget_cached_source_info (qf_object q) this  w).
Proof. unfold objfile_forget_cached_source_info. qf_trace Ho Hq Hds. Qed.

Lemma map_symtabs_matching_filename_trace name real_path callback :
  logged_around (objfile_map_symtabs_matching_filename this name real_path callback w)
    (qf_map_symtabs_matching_filename (qf_object q) this name real_path callback w).
Proof. unfold objfile_map_symtabs_matching_filename. qf_trace Ho Hq Hds. Qed.

Lemma lookup_symbol_trace kind name domain :
  logged_around (objfile_lookup_symbol this kind name domain w)
    (qf_lookup_symbol (qf_object q) this kind name domain w).
Proof. unfold objfile_lookup_symbol. qf_trace Ho Hq Hds. Qed.

Lemma print_stats_trace print_bcache :
  logged_around (objfile_print_stats this print_bcache w)
    (qf_print_stats (qf_object q) this print_bcache w).
Proof. unfold objfile_print_stats. qf_trace Ho Hq Hds. Qed.

Lemma dump_trace  :
  logged_around (objfile_dump this  w)
    (qf_dump (qf_object q) this  w).
Proof. unfold objfile_dump. qf_trace Ho Hq Hds. Qed.

Lemma expand_symtabs_for_function_trace name :
  logged_around (objfile_expand_symtabs_for_function this name w)
    (qf_expand_symtabs_for_function (qf_object q) this name w).
Proof. unfold objfile_expand_symtabs_for_function. qf_trace Ho Hq Hds. Qed.

Lemma expand_all_symtabs_trace  :
  logged_around (objfile_expand_all_symtabs this  w)
    (qf_expand_all_symtabs (qf_object q) this  w).
Proof. unfold objfile_expand_all_symtabs. qf_trace Ho Hq Hds. Qed.

Lemma expand_symtabs_with_fullname_trace name :
  logged_around (objfile_expand_symtabs_with_fullname this name w)
    (qf_expand_symtabs_with_fullname (qf_object q) this name w).
Proof. unfold objfile_expand_symtabs_with_fullname. qf_trace Ho Hq Hds. Qed.

Lemma map_matching_symbols_trace lookup_name domain global callback ordered_compare :
  logged_around (objfile_map_matching_symbols this lookup_name domain global callback ordered_compare w)
    (qf_map_matching_symbols (qf_object q) this lookup_name domain global callback ordered_compare w).
Proof. unfold objfile_map_matching_symbols. qf_trace Ho Hq Hds. Qed.

Lemma expand_symtabs_matching_trace file_matcher lookup_name_p symbol_matcher expansion_notify search_kind :
  logged_around (objfile_expand_symtabs_matching this file_matcher lookup_name_p symbol_matcher expansion_notify search_kind w)
    (qf_expand_symtabs_matching (qf_object q) this file_matcher lookup_name_p symbol_matcher expansion_notify search_kind w).
Proof. unfold objfile_expand_symtabs_matching. qf_trace Ho Hq Hds. Qed.

Lemma find_pc_sect_compunit_symtab_trace msymbol pc section warn_if_readin :
  logged_around (objfile_find_pc_sect_compunit_symtab this msymbol pc section warn_if_readin w)
    (qf_find_pc_sect_compunit_symtab (qf_object q) this msymbol pc section warn_if_readin w).
Proof. unfold objfile_find_pc_sect_compunit_symtab. qf_trace Ho Hq Hds. Qed.

Lemma map_symbol_filenames_trace fun_ data need_fullname :
  logged_around (objfile_map_symbol_filenames this fun_ data need_fullname w)
    (qf_map_symbol_filenames (qf_object q) this fun_ data need_fullname w).
Proof. unfold objfile_map_symbol_filenames. qf_trace Ho Hq Hds. Qed.

Lemma find_compunit_symtab_by_address_trace pc :
  logged_around (objfile_find_compunit_symtab_by_address this pc w)
    (qf_find_compunit_symtab_by_address (qf_object q) this pc w).
Proof. unfold objfile_find_compunit_symtab_by_address. qf_trace Ho Hq Hds. Qed.

End Traced_qf.

(** With [debug_symfile] on and a [qf] object, each forwarding method
    that logs its call (all but [has_partial_symbols] and
    [lookup_global_symbol_language]) prints its first line before anything
    the method of the [qf] object prints, so also when that method does
    not return; after the call it prints at most one line more, and none
    if the call did not return. *)
Theorem forwarding_methods_trace w this o q
    (name : string) (real_path : option string) (callback : positive)
    (kind domain global pc need_fullname warn_if_readin search_kind : Z)
    (print_bcache : bool) (lookup_name file_matcher
    symbol_matcher expansion_notify : positive)
    (ordered_compare lookup_name_p section fun_ data : option positive)
    (msymbol : bound_minimal_symbol) :
  objfile_mem w !! this = Some o →
  qf o = Some q →
  debug_symfile w = true →
  logged_around (objfile_find_last_source_symtab this w)
      (qf_find_last_source_symtab (qf_object q) this w)
  ∧ logged_around (objfile_forget_cached_source_info this w)
      (qf_forget_cached_source_info (qf_object q) this w)
  ∧ logged_around (objfile_map_symtabs_matching_filename this name real_path callback w)
      (qf_map_symtabs_matching_filename (qf_object q) this name real_path callback w)
  ∧ logged_around (objfile_lookup_symbol this kind name domain w)
      (qf_lookup_symbol (qf_object q) this kind name domain w)
  ∧ logged_around (objfile_print_stats this print_bcache w)
      (qf_print_stats (qf_object q) this print_bcache w)
  ∧ logged_around (objfile_dump this w)
      (qf_dump (qf_object q) this w)
  ∧ logged_around (objfile_expand_symtabs_for_function this name w)
      (qf_expand_symtabs_for_function (qf_object q) this name w)
  ∧ logged_around (objfile_expand_all_symtabs this w)
      (qf_expand_all_symtabs (qf_object q) this w)
  ∧ logged_around (objfile_expand_symtabs_with_fullname this name w)
      (qf_expand_symtabs_with_fullname (qf_object q) this name w)
  ∧ logged_around (objfile_map_matching_symbols this lookup_name domain global callback ordered_compare w)
      (qf_map_matching_symbols (qf_object q) this lookup_name domain global callback ordered_compare w)
  ∧ logged_around (objfile_expand_symtabs_matching this file_matcher lookup_name_p symbol_matcher expansion_notify search_kind w)
      (qf_expand_symtabs_matching (qf_object q) this file_matcher lookup_name_p symbol_matcher expansion_notify search_kind w)
  ∧ logged_around (objfile_find_pc_sect_compunit_symtab this msymbol pc section warn_if_readin w)
      (qf_find_pc_sect_compunit_symtab (qf_object q) this msymbol pc section warn_if_readin w)
  ∧ logged_around (objfile_map_symbol_filenames this fun_ data need_fullname w)
      (qf_map_symbol_filenames (qf_object q) this fun_ data need_fullname w)
  ∧ logged_around (objfile_find_compunit_symtab_by_address this pc w)
      (qf_find_compunit_symtab_by_address (qf_object q) this pc w).
Proof.
  intros Ho Hq Hds.
  repeat match goal with |- _ ∧ _ => split end;
    eauto using find_last_source_symtab_trace, forget_cached_source_info_trace,
      map_symtabs_matching_filename_trace, lookup_symbol_trace,
      print_stats_trace, dump_trace, expand_symtabs_for_function_trace,
      expand_all_symtabs_trace, expand_symtabs_with_fullname_trace,
      map_matching_symbols_trace, expand_symtabs_matching_trace,
      find_pc_sect_compunit_symtab_trace, map_symbol_filenames_trace,
      find_compunit_symtab_by_address_trace.
Qed.

(** ** A null table pointer, and a handler with nothing to do *)

(** A null table pointer is read through.  For a live objfile whose
    [sf] is null, install passes its assertion (whether or not the
    objfile has a registry entry), allocates the new data and then reads
    [real_sf->sym_new_init] through the null pointer; and
    [objfile_set_sym_fns] called with a null pointer while
    [debug_symfile] is on, for an objfile without entry, ends the same
    way. *)
Theorem null_table_is_read_through w objfile o :
  objfile_mem w !! objfile = Some o →
  (sf o = NULL_sf →
   install_symfile_debug_logging objfile w
   = Result Fault
       (with_data (fresh (dom (debug_data_mem w))) new_debug_sym_fns_data w) [])
  ∧ (symfile_debug_objfile_data_key w !! objfile = None →
     debug_symfile w = true →
     res (objfile_set_sym_fns objfile NULL_sf w) = Fault).
Proof.
  intros Ho. split.
  - by apply install_null_table.
  - by apply guard_null_table with o.
Qed.

(** When every objfile of every program space is live and has the
    logging installed exactly if [debug_symfile] is on, the handler
    returns normally and leaves the entire state as it was. *)
Theorem set_debug_symfile_nothing_to_do w args from_tty c :
  all_listed w (λ objfile,
    is_Some (objfile_mem w !! objfile)
    ∧ installed_in w objfile = debug_symfile w) →
  set_debug_symfile args from_tty c w = Result (Returned tt) w [].
Proof.
  rewrite all_listed_spec. intros Hall. by apply set_debug_symfile_noop.
Qed.

End Verification.

(** * The theorems at the small instance *)

Local Open Scope positive_scope.

Lemma install_preserves_absence_witness :
  let w := example_world (Static_sf 1) true in
  objfile_mem w !! 1 = Some (example_objfile (Static_sf 1))
  ∧ sf (example_objfile (Static_sf 1)) = Static_sf 1
  ∧ symfile_debug_objfile_data_key w !! 1 = None
  ∧ let r := install_symfile_debug_logging 1 w in
    res r = Returned tt
    ∧ ∃ d x,
        sf_of (final r) 1 = Some (Debug_sf d)
        ∧ symfile_debug_objfile_data_key (final r) !! 1 = Some d
        ∧ debug_data_mem (final r) !! d = Some x
        ∧ real_sf x = Static_sf 1
        ∧ ∀ s : slot,
            (holds_proxy s (debug_sf x) ↔ populated s (static_sf 1) = true)
            ∧ (populated s (static_sf 1) = false
               → populated s (debug_sf x) = false).
Proof.
  split; [reflexivity|]. split; [reflexivity|]. split; [reflexivity|].
  apply (install_preserves_absence (example_world (Static_sf 1) true) 1
           (example_objfile (Static_sf 1)) 1); reflexivity.
Defined.

Lemma install_uninstall_round_trip_witness :
  let w := example_world (Static_sf 1) true in
  objfile_mem w !! 1 = Some (example_objfile (Static_sf 1))
  ∧ sf (example_objfile (Static_sf 1)) = Static_sf 1
  ∧ symfile_debug_objfile_data_key w !! 1 = None
  ∧ let r := (install_symfile_debug_logging 1;;
              uninstall_symfile_debug_logging 1) w in
    res r = Returned tt
    ∧ sf_of (final r) 1 = Some (Static_sf 1)
    ∧ symfile_debug_objfile_data_key (final r) !! 1 = None
    ∧ final r = w.
Proof.
  split; [reflexivity|]. split; [reflexivity|]. split; [reflexivity|].
  apply (install_uninstall_round_trip (example_world (Static_sf 1) true) 1
           (example_objfile (Static_sf 1)) 1); reflexivity.
Defined.

Lemma objfile_set_sym_fns_replaces_witness :
  (let w := example_world_logging 1 in
   let p := Static_sf 2 in
   objfile_mem w !! 1 = Some (example_objfile (Debug_sf 1))
   ∧ consistent w 1 = true
   ∧ debug_symfile w = true
   ∧ valid_new_table w 1 p
   ∧ let r := objfile_set_sym_fns 1 p w in
     res r = Returned tt
     ∧ if debug_symfile w then
         installed_in (final r) 1 = true
         ∧ ∃ d x t,
             sf_of (final r) 1 = Some (Debug_sf d)
             ∧ symfile_debug_objfile_data_key (final r) !! 1 = Some d
             ∧ debug_data_mem (final r) !! d = Some x
             ∧ real_sf x = p
             ∧ table_at w p = Some t
             ∧ debug_sf x = logging_copy t
       else
         installed_in (final r) 1 = false
         ∧ sf_of (final r) 1 = Some p
         ∧ symfile_debug_objfile_data_key (final r) !! 1 = None)
  ∧ (let w := example_world (Static_sf 1) false in
     let p := NULL_sf in
     objfile_mem w !! 1 = Some (example_objfile (Static_sf 1))
     ∧ consistent w 1 = true
     ∧ debug_symfile w = false
     ∧ let r := objfile_set_sym_fns 1 p w in
       res r = Returned tt
       ∧ if debug_symfile w then
           installed_in (final r) 1 = true
           ∧ ∃ d x t,
               sf_of (final r) 1 = Some (Debug_sf d)
               ∧ symfile_debug_objfile_data_key (final r) !! 1 = Some d
               ∧ debug_data_mem (final r) !! d = Some x
               ∧ real_sf x = p
               ∧ table_at w p = Some t
               ∧ debug_sf x = logging_copy t
         else
           installed_in (final r) 1 = false
           ∧ sf_of (final r) 1 = Some p
           ∧ symfile_debug_objfile_data_key (final r) !! 1 = None).
Proof.
  assert (Hp : valid_new_table (example_world_logging 1) 1 (Static_sf 2)).
  { split; [by eexists | vm_compute; discriminate]. }
  split.
  - split; [vm_compute; reflexivity|]. split; [vm_compute; reflexivity|].
    split; [vm_compute; reflexivity|]. split; [exact Hp|].
    apply (objfile_set_sym_fns_replaces (example_world_logging 1) 1
             (example_objfile (Debug_sf 1)) (Static_sf 2));
      [vm_compute; reflexivity | vm_compute; reflexivity | intros _; exact Hp].
  - split; [vm_compute; reflexivity|]. split; [vm_compute; reflexivity|].
    split; [vm_compute; reflexivity|].
    apply (objfile_set_sym_fns_replaces (example_world (Static_sf 1) false) 1
             (example_objfile (Static_sf 1)) NULL_sf);
      [vm_compute; reflexivity | vm_compute; reflexivity
      | intros H; vm_compute in H; discriminate].
Defined.

(** With [debug_symfile] on, replacing the table by a null pointer makes
    the reinstallation read through that null pointer. *)
Lemma objfile_set_sym_fns_null_table :
  let w := example_world (Static_sf 1) true in
  let r := objfile_set_sym_fns 1 NULL_sf w in
  consistent w 1 = true
  ∧ debug_symfile w = true
  ∧ res r = Fault
  ∧ installed_in (final r) 1 = false.
Proof. vm_compute. repeat split. Qed.

Lemma install_uninstall_assertions_witness :
  let w := example_world_logging 1 in
  let w' := example_world (Static_sf 1) false in
  (objfile_mem w !! 1 = Some (example_objfile (Debug_sf 1))
   ∧ installed_in w 1 = true
   ∧ install_symfile_debug_logging 1 w
     = Result (InternalError "!symfile_debug_installed (objfile)") w [])
  ∧ (objfile_mem w' !! 1 = Some (example_objfile (Static_sf 1))
     ∧ installed_in w' 1 = false
     ∧ uninstall_symfile_debug_logging 1 w'
       = Result (InternalError "symfile_debug_installed (objfile)") w' []).
Proof.
  split.
  - split; [vm_compute; reflexivity|]. split; [vm_compute; reflexivity|].
    apply (install_uninstall_assertions (example_world_logging 1) 1
             (example_objfile (Debug_sf 1))); vm_compute; reflexivity.
  - split; [reflexivity|]. split; [reflexivity|].
    apply (install_uninstall_assertions (example_world (Static_sf 1) false) 1
             (example_objfile (Static_sf 1))); reflexivity.
Defined.

(** An objfile whose table pointer is null and that has no registry
    entry: installing does not stop at an assertion, it reads through the
    null pointer. *)
Lemma install_null_table_no_assertion :
  let w := example_world NULL_sf true in
  sf_of w 1 = Some NULL_sf
  ∧ symfile_debug_objfile_data_key w !! 1 = None
  ∧ res (install_symfile_debug_logging 1 w) = Fault.
Proof. vm_compute. repeat split. Qed.

Lemma set_debug_symfile_idempotent_witness :
  let w := example_world_half in
  installed_in w 1 = debug_symfile w
  ∧ owns_its_data w 1
  ∧ symfile_debug_objfile_data_key w !! 1 = Some 1
  ∧ installed_in w 2 = false
  ∧ let r := set_debug_symfile None 0 None w in
    let w' := final r in
    (∀ msg, res r ≠ InternalError msg)
    ∧ installed_in w' 2 = true
    ∧ installed_in w' 1 = installed_in w 1
    ∧ sf_of w' 1 = sf_of w 1
    ∧ symfile_debug_objfile_data_key w' !! 1
      = symfile_debug_objfile_data_key w !! 1
    ∧ debug_data_mem w' !! 1 = debug_data_mem w !! 1.
Proof.
  assert (Hm : installed_in example_world_half 1
               = debug_symfile example_world_half)
    by (vm_compute; reflexivity).
  assert (Hown : owns_its_data example_world_half 1) by compute_done.
  assert (Hk : symfile_debug_objfile_data_key example_world_half !! 1 = Some 1)
    by (vm_compute; reflexivity).
  split; [exact Hm|]. split; [exact Hown|]. split; [exact Hk|].
  split; [vm_compute; reflexivity|].
  destruct (set_debug_symfile_idempotent 1 None 0 None example_world_half Hm)
    as (H1 & H2 & H3 & H4 & H5).
  split; [exact H1|]. split; [vm_compute; reflexivity|].
  split; [exact H2|]. split; [exact H3|]. split; [exact H4|].
  exact (H5 Hown 1 Hk).
Defined.

Lemma objfile_set_sym_fns_asserts_toggle_witness :
  let w := example_world_stale 1 in
  installed_in w 1 = true
  ∧ debug_symfile w = false
  ∧ objfile_set_sym_fns 1 (Static_sf 2) w
    = Result (InternalError "debug_symfile") w [].
Proof.
  split; [vm_compute; reflexivity|]. split; [reflexivity|].
  apply (objfile_set_sym_fns_asserts_toggle (example_world_stale 1) 1
           (Static_sf 2)); [vm_compute; reflexivity | reflexivity].
Defined.

(** The original [sym_segments] of table 1 returns; the call through the
    logging table stops at the assertion of [debug_sym_segments]. *)
Lemma sym_segments_not_forwarded :
  let w1 := final (install_symfile_debug_logging 1
                     (example_world (Static_sf 1) true)) in
  sym_segments (static_sf 1) = Some (Backend_segments_fn 15)
  ∧ res (call_segments_fn (Backend_segments_fn 15) None w1) = Returned (Some 5)
  ∧ res (invoke_sym_segments 1 None w1)
    = InternalError "debug_sym_segments called".
Proof. vm_compute. repeat split. Qed.

(** *** Claim C2 *)

(** C2.  [debug_sym_relocate] and [debug_sym_get_probes] do not print
    before they call.  At the instance: (1) the real [sym_relocate] of
    table 2 throws, and the call through the logging table ends in the
    same exception with nothing printed at all; (2) the real
    [sym_relocate] of table 1 returns its buffer, and the call through
    the logging table prints one line, the one that carries the result;
    (3) likewise for [sym_get_probes]; (4) whereas [debug_sym_read]
    prints its line and then calls. *)
Theorem relocate_and_get_probes_print_after :
  invoke_sym_relocate 1 1 None None (example_world_logging 2)
  = Result (Thrown 1) (example_world_logging 2) []
  ∧ invoke_sym_relocate 1 1 (Some 3) (Some 4) (example_world_logging 1)
    = Result (Returned (Some 4)) (example_world_logging 1)
        [line_sym_relocate 1 (Some 3) (Some 4) (Some 4)]
  ∧ invoke_sym_get_probes 1 1 (example_world_logging 1)
    = Result (Returned 9) (example_world_logging 1) [line_sym_get_probes 1 9]
  ∧ invoke_sym_read 1 1 5%Z (example_world_logging 2)
    = Result (Returned tt) (example_world_logging 2) [line_sym_read 1 5].
Proof. vm_compute. repeat split. Qed.

Lemma shadow_calls_forward_witness :
  let w := example_world (Static_sf 1) true in
  objfile_mem w !! 1 = Some (example_objfile (Static_sf 1))
  ∧ sf (example_objfile (Static_sf 1)) = Static_sf 1
  ∧ symfile_debug_objfile_data_key w !! 1 = None
  ∧ let real := static_sf 1 in
    let w1 := final (install_symfile_debug_logging 1 w) in
    (∀ f, sym_new_init real = Some f →
          same_result (invoke_sym_new_init 1 1 w1) (call_objfile_fn 0 f 1 w1))
    ∧ (∀ f, sym_init real = Some f →
            same_result (invoke_sym_init 1 1 w1) (call_objfile_fn 0 f 1 w1))
    ∧ (∀ f, sym_read real = Some f →
            same_result (invoke_sym_read 1 1 5%Z w1) (call_read_fn 0 f 1 5%Z w1))
    ∧ (∀ f, sym_finish real = Some f →
            same_result (invoke_sym_finish 1 1 w1) (call_objfile_fn 0 f 1 w1))
    ∧ (∀ f, sym_offsets real = Some f →
            same_result (invoke_sym_offsets 1 1 7 w1) (call_offsets_fn 0 f 1 7 w1))
    ∧ (∀ f, sym_read_linetable real = Some f →
            same_result (invoke_sym_read_linetable 1 1 w1)
              (call_objfile_fn 0 f 1 w1))
    ∧ (∀ f, sym_relocate real = Some f →
            same_result (invoke_sym_relocate 1 1 (Some 3) (Some 4) w1)
              (call_relocate_fn 0 f 1 (Some 3) (Some 4) w1))
    ∧ (∀ pp f, sym_probe_fns real = Some pp →
               sym_get_probes (probe_fns_at pp) = Some f →
               same_result (invoke_sym_get_probes 1 1 w1)
                 (call_get_probes_fn 0 f 1 w1)).
Proof.
  split; [reflexivity|]. split; [reflexivity|]. split; [reflexivity|].
  apply (shadow_calls_forward (example_world (Static_sf 1) true) 1
           (example_objfile (Static_sf 1)) 1 0%nat 5%Z 7 (Some 3) (Some 4));
    reflexivity.
Defined.

Lemma forwarding_methods_null_qf_witness :
  let w := example_world (Static_sf 1) true in
  let msymbol := Build_bound_minimal_symbol None None in
  objfile_mem w !! 1 = Some (example_objfile (Static_sf 1))
  ∧ qf (example_objfile (Static_sf 1)) = None
  ∧ returns_unchanged (objfile_has_partial_symbols 1 w) false w
  ∧ returns_unchanged (objfile_find_last_source_symtab 1 w) None w
  ∧ returns_unchanged (objfile_forget_cached_source_info 1 w) tt w
  ∧ returns_unchanged
      (objfile_map_symtabs_matching_filename 1 "main.c" None 2 w) false w
  ∧ returns_unchanged (objfile_lookup_symbol 1 0 "main.c" 1 w) None w
  ∧ returns_unchanged (objfile_print_stats 1 true w) tt w
  ∧ returns_unchanged (objfile_dump 1 w) tt w
  ∧ returns_unchanged (objfile_expand_symtabs_for_function 1 "main.c" w) tt w
  ∧ returns_unchanged (objfile_expand_all_symtabs 1 w) tt w
  ∧ returns_unchanged (objfile_expand_symtabs_with_fullname 1 "main.c" w) tt w
  ∧ returns_unchanged (objfile_map_matching_symbols 1 3 1 1 2 None w) tt w
  ∧ returns_unchanged (objfile_expand_symtabs_matching 1 4 None 5 6 2 w) tt w
  ∧ returns_unchanged
      (objfile_find_pc_sect_compunit_symtab 1 msymbol 4096 None 0 w) None w
  ∧ returns_unchanged (objfile_map_symbol_filenames 1 None None 0 w) tt w
  ∧ returns_unchanged (objfile_find_compunit_symtab_by_address 1 4096 w) None w
  ∧ returns_unchanged
      (objfile_lookup_global_symbol_language 1 "main.c" 1 true w)
      (language_unknown, false) w.
Proof.
  split; [reflexivity|]. split; [reflexivity|].
  apply (forwarding_methods_null_qf (example_world (Static_sf 1) true) 1
           (example_objfile (Static_sf 1)) "main.c" None 2 0 1 1 4096 0 0 2
           true true 3 4 5 6 None None None None None
           (Build_bound_minimal_symbol None None));
    reflexivity.
Defined.

(** * The further properties at the small instance *)

Lemma void_logging_functions_print_first_witness :
  let w := example_world_logging 1 in
  symfile_debug_objfile_data_key w !! 1 = Some 1
  ∧ debug_data_mem w !! 1 = Some (example_data 1)
  ∧ real_sf (example_data 1) = Static_sf 1
  ∧ let real := static_sf 1 in
    (∀ f, sym_new_init real = Some f →
          call_objfile_fn 1 Fn_debug_sym_new_init 1 w
          = printed_before [line_sym_new_init 1] (call_objfile_fn 0 f 1 w))
    ∧ (∀ f, sym_init real = Some f →
            call_objfile_fn 1 Fn_debug_sym_init 1 w
            = printed_before [line_sym_init 1] (call_objfile_fn 0 f 1 w))
    ∧ (∀ f, sym_read real = Some f →
            call_read_fn 1 Fn_debug_sym_read 1 5%Z w
            = printed_before [line_sym_read 1 5] (call_read_fn 0 f 1 5%Z w))
    ∧ (∀ f, sym_finish real = Some f →
            call_objfile_fn 1 Fn_debug_sym_finish 1 w
            = printed_before [line_sym_finish 1] (call_objfile_fn 0 f 1 w))
    ∧ (∀ f, sym_offsets real = Some f →
            call_offsets_fn 1 Fn_debug_sym_offsets 1 7 w
            = printed_before [line_sym_offsets 1 7] (call_offsets_fn 0 f 1 7 w))
    ∧ (∀ f, sym_read_linetable real = Some f →
            call_objfile_fn 1 Fn_debug_sym_read_linetable 1 w
            = printed_before [line_sym_read_linetable 1]
                (call_objfile_fn 0 f 1 w)).
Proof.
  split; [vm_compute; reflexivity|]. split; [vm_compute; reflexivity|].
  split; [reflexivity|].
  apply (void_logging_functions_print_first (example_world_logging 1) 1 1
           (example_data 1) 1 0%nat 5%Z 7); vm_compute; reflexivity.
Defined.

Lemma value_logging_functions_print_last_witness :
  let w := example_world_logging 1 in
  symfile_debug_objfile_data_key w !! 1 = Some 1
  ∧ debug_data_mem w !! 1 = Some (example_data 1)
  ∧ real_sf (example_data 1) = Static_sf 1
  ∧ let real := static_sf 1 in
    (∀ f, sym_relocate real = Some f →
          call_relocate_fn 1 Fn_debug_sym_relocate 1 (Some 3) (Some 4) w
          = printed_after (call_relocate_fn 0 f 1 (Some 3) (Some 4) w)
              (λ retval, [line_sym_relocate 1 (Some 3) (Some 4) retval]))
    ∧ (∀ pp f, sym_probe_fns real = Some pp →
               sym_get_probes (probe_fns_at pp) = Some f →
               call_get_probes_fn 1 Fn_debug_sym_get_probes 1 w
               = printed_after (call_get_probes_fn 0 f 1 w)
                   (λ retval, [line_sym_get_probes 1 retval])).
Proof.
  split; [vm_compute; reflexivity|]. split; [vm_compute; reflexivity|].
  split; [reflexivity|].
  apply (value_logging_functions_print_last (example_world_logging 1) 1 1
           (example_data 1) 1 0%nat (Some 3) (Some 4)); vm_compute; reflexivity.
Defined.

Lemma logging_functions_without_entry_witness :
  let w := example_world (Static_sf 1) true in
  symfile_debug_objfile_data_key w !! 1 = None
  ∧ call_objfile_fn 1 Fn_debug_sym_new_init 1 w
    = Result Fault w [line_sym_new_init 1]
  ∧ call_objfile_fn 1 Fn_debug_sym_init 1 w = Result Fault w [line_sym_init 1]
  ∧ call_read_fn 1 Fn_debug_sym_read 1 5%Z w
    = Result Fault w [line_sym_read 1 5]
  ∧ call_objfile_fn 1 Fn_debug_sym_finish 1 w
    = Result Fault w [line_sym_finish 1]
  ∧ call_offsets_fn 1 Fn_debug_sym_offsets 1 7 w
    = Result Fault w [line_sym_offsets 1 7]
  ∧ call_objfile_fn 1 Fn_debug_sym_read_linetable 1 w
    = Result Fault w [line_sym_read_linetable 1]
  ∧ call_relocate_fn 1 Fn_debug_sym_relocate 1 (Some 3) (Some 4) w
    = Result Fault w []
  ∧ call_get_probes_fn 1 Fn_debug_sym_get_probes 1 w = Result Fault w [].
Proof.
  split; [reflexivity|].
  apply (logging_functions_without_entry (example_world (Static_sf 1) true) 1
           0%nat 5%Z 7 (Some 3) (Some 4)); reflexivity.
Defined.

Lemma forwarding_methods_some_qf_witness :
  let w := example_world_qf 0 true in
  let msymbol := Build_bound_minimal_symbol None None in
  objfile_mem w !! 1 = Some (example_objfile_qf 0)
  ∧ qf (example_objfile_qf 0) = Some 1
  ∧ let Q := qf_object 1 in
    same_result (objfile_find_last_source_symtab 1 w)
      (qf_find_last_source_symtab Q 1 w)
    ∧ same_result (objfile_forget_cached_source_info 1 w)
        (qf_forget_cached_source_info Q 1 w)
    ∧ same_result (objfile_map_symtabs_matching_filename 1 "main.c" None 2 w)
        (qf_map_symtabs_matching_filename Q 1 "main.c" None 2 w)
    ∧ same_result (objfile_lookup_symbol 1 0 "main.c" 1 w)
        (qf_lookup_symbol Q 1 0 "main.c" 1 w)
    ∧ same_result (objfile_print_stats 1 true w) (qf_print_stats Q 1 true w)
    ∧ same_result (objfile_dump 1 w) (qf_dump Q 1 w)
    ∧ same_result (objfile_expand_symtabs_for_function 1 "main.c" w)
        (qf_expand_symtabs_for_function Q 1 "main.c" w)
    ∧ same_result (objfile_expand_all_symtabs 1 w) (qf_expand_all_symtabs Q 1 w)
    ∧ same_result (objfile_expand_symtabs_with_fullname 1 "main.c" w)
        (qf_expand_symtabs_with_fullname Q 1 "main.c" w)
    ∧ same_result (objfile_map_matching_symbols 1 3 1 1 2 None w)
        (qf_map_matching_symbols Q 1 3 1 1 2 None w)
    ∧ same_result (objfile_expand_symtabs_matching 1 4 None 5 6 2 w)
        (qf_expand_symtabs_matching Q 1 4 None 5 6 2 w)
    ∧ same_result
        (objfile_find_pc_sect_compunit_symtab 1 msymbol 4096 None 0 w)
        (qf_find_pc_sect_compunit_symtab Q 1 msymbol 4096 None 0 w)
    ∧ same_result (objfile_map_symbol_filenames 1 None None 0 w)
        (qf_map_symbol_filenames Q 1 None None 0 w)
    ∧ same_result (objfile_find_compunit_symtab_by_address 1 4096 w)
        (qf_find_compunit_symtab_by_address Q 1 4096 w)
    ∧ objfile_lookup_global_symbol_language 1 "main.c" 1 true w
      = qf_lookup_global_symbol_language Q 1 "main.c" 1 true w.
Proof.
  split; [reflexivity|]. split; [reflexivity|].
  apply (forwarding_methods_some_qf (example_world_qf 0 true) 1
           (example_objfile_qf 0) 1 "main.c" None 2 0 1 1 4096 0 0 2
           true true 3 4 5 6 None None None None None
           (Build_bound_minimal_symbol None None));
    reflexivity.
Defined.

Lemma has_partial_symbols_some_qf_witness :
  let w := example_world_qf 8 true in
  objfile_mem w !! 1 = Some (example_objfile_qf 8)
  ∧ qf (example_objfile_qf 8) = Some 1
  ∧ Z.land (flags (example_objfile_qf 8)) OBJF_PSYMTABS_READ ≠ 0%Z
  ∧ same_result (objfile_has_partial_symbols 1 w)
      (qf_has_symbols (qf_object 1) 1 w).
Proof.
  split; [reflexivity|]. split; [reflexivity|]. split; [vm_compute; discriminate|].
  apply (has_partial_symbols_some_qf (example_world_qf 8 true) 1
           (example_objfile_qf 8) 1); [reflexivity | reflexivity |].
  vm_compute; discriminate.
Defined.

Lemma other_objfiles_left_alone_witness :
  let w := example_world (Static_sf 1) true in
  2 ≠ 1
  ∧ same_at 2 w (final (install_symfile_debug_logging 1 w))
  ∧ same_at 2 w (final (uninstall_symfile_debug_logging 1 w))
  ∧ same_at 2 w (final (objfile_set_sym_fns 1 (Static_sf 2) w)).
Proof.
  split; [lia|].
  apply (other_objfiles_left_alone 2 1 (Static_sf 2)
           (example_world (Static_sf 1) true)); lia.
Defined.


Lemma table_management_keeps_well_formed_witness :
  let w := example_world_two_logging in
  let o := example_objfile (Debug_sf 2) in
  well_formed w
  ∧ objfile_mem w !! 2 = Some o
  ∧ symfile_debug_objfile_data_key w !! 2 = Some 2
  ∧ debug_data_mem w !! 2 = Some (example_data 2)
  ∧ let r := uninstall_symfile_debug_logging 2 w in
    res r = Returned tt ∧ well_formed (final r)
    ∧ sf_of (final r) 2 = Some (real_sf (example_data 2))
    ∧ symfile_debug_objfile_data_key (final r) !! 2 = None.
Proof.
  split; [compute_done|]. split; [vm_compute; reflexivity|].
  split; [vm_compute; reflexivity|]. split; [vm_compute; reflexivity|].
  refine (proj1 (proj2 (table_management_keeps_well_formed
                          example_world_two_logging 2
                          (example_objfile (Debug_sf 2)) 1 _ _))
            2 (example_data 2) _ _);
    first [compute_done | vm_compute; reflexivity].
Defined.

Lemma set_debug_symfile_installs_everywhere_witness :
  let w := example_world_two true in
  debug_symfile w = true
  ∧ well_formed w
  ∧ all_listed w (λ objfile,
      is_Some (symfile_debug_objfile_data_key w !! objfile)
      ∨ is_static (sf_of w objfile) = true)
  ∧ let r := set_debug_symfile None 0 None w in
    res r = Returned tt
    ∧ well_formed (final r)
    ∧ all_listed w (λ objfile,
        installed_in (final r) objfile = true
        ∧ ∀ a, symfile_debug_objfile_data_key w !! objfile = None →
               sf_of w objfile = Some (Static_sf a) →
               wraps (final r) objfile (Static_sf a)).
Proof.
  split; [reflexivity|]. split; [compute_done|]. split; [compute_done|].
  apply (set_debug_symfile_installs_everywhere (example_world_two true)
           None 0 None); [reflexivity | compute_done | compute_done].
Defined.

Lemma set_debug_symfile_uninstalls_everywhere_witness :
  let w := example_world_two_logging in
  debug_symfile w = false
  ∧ well_formed w
  ∧ all_listed w (λ objfile, is_Some (objfile_mem w !! objfile))
  ∧ let r := set_debug_symfile None 0 None w in
    res r = Returned tt
    ∧ well_formed (final r)
    ∧ all_listed w (λ objfile,
        symfile_debug_objfile_data_key (final r) !! objfile = None
        ∧ installed_in (final r) objfile = false
        ∧ match symfile_debug_objfile_data_key w !! objfile with
          | Some d => ∃ x, debug_data_mem w !! d = Some x
                           ∧ sf_of (final r) objfile = Some (real_sf x)
          | None => sf_of (final r) objfile = sf_of w objfile
          end).
Proof.
  split; [reflexivity|]. split; [compute_done|]. split; [compute_done|].
  apply (set_debug_symfile_uninstalls_everywhere example_world_two_logging
           None 0 None); [reflexivity | compute_done | compute_done].
Defined.

Lemma set_debug_symfile_on_then_off_witness :
  let w := example_world_two false in
  well_formed w
  ∧ all_listed w (λ objfile,
      symfile_debug_objfile_data_key w !! objfile = None
      ∧ is_static (sf_of w objfile) = true)
  ∧ let r1 := set_debug_symfile None 0 None (with_debug_symfile true w) in
    let r2 := set_debug_symfile None 0 None
                (with_debug_symfile false (final r1)) in
    res r1 = Returned tt
    ∧ res r2 = Returned tt
    ∧ all_listed w (λ objfile,
        installed_in (final r1) objfile = true
        ∧ sf_of (final r2) objfile = sf_of w objfile
        ∧ symfile_debug_objfile_data_key (final r2) !! objfile = None).
Proof.
  split; [compute_done|]. split; [compute_done|].
  apply (set_debug_symfile_on_then_off (example_world_two false) None 0 None);
    compute_done.
Defined.

Lemma forwarding_methods_trace_witness :
  let w := example_world_qf 0 true in
  let msymbol := Build_bound_minimal_symbol None None in
  objfile_mem w !! 1 = Some (example_objfile_qf 0)
  ∧ qf (example_objfile_qf 0) = Some 1
  ∧ debug_symfile w = true
  ∧ logged_around (objfile_find_last_source_symtab 1 w)
      (qf_find_last_source_symtab (qf_object 1) 1 w)
  ∧ logged_around (objfile_forget_cached_source_info 1 w)
      (qf_forget_cached_source_info (qf_object 1) 1 w)
  ∧ logged_around (objfile_map_symtabs_matching_filename 1 "main.c" None 2 w)
      (qf_map_symtabs_matching_filename (qf_object 1) 1 "main.c" None 2 w)
  ∧ logged_around (objfile_lookup_symbol 1 0 "main.c" 1 w)
      (qf_lookup_symbol (qf_object 1) 1 0 "main.c" 1 w)
  ∧ logged_around (objfile_print_stats 1 true w)
      (qf_print_stats (qf_object 1) 1 true w)
  ∧ logged_around (objfile_dump 1 w)
      (qf_dump (qf_object 1) 1 w)
  ∧ logged_around (objfile_expand_symtabs_for_function 1 "main.c" w)
      (qf_expand_symtabs_for_function (qf_object 1) 1 "main.c" w)
  ∧ logged_around (objfile_expand_all_symtabs 1 w)
      (qf_expand_all_symtabs (qf_object 1) 1 w)
  ∧ logged_around (objfile_expand_symtabs_with_fullname 1 "main.c" w)
      (qf_expand_symtabs_with_fullname (qf_object 1) 1 "main.c" w)
  ∧ logged_around (objfile_map_matching_symbols 1 3 1 1 2 None w)
      (qf_map_matching_symbols (qf_object 1) 1 3 1 1 2 None w)
  ∧ logged_around (objfile_expand_symtabs_matching 1 4 None 5 6 2 w)
      (qf_expand_symtabs_matching (qf_object 1) 1 4 None 5 6 2 w)
  ∧ logged_around (objfile_find_pc_sect_compunit_symtab 1 msymbol 4096 None 0 w)
      (qf_find_pc_sect_compunit_symtab (qf_object 1) 1 msymbol 4096 None 0 w)
  ∧ logged_around (objfile_map_symbol_filenames 1 None None 0 w)
      (qf_map_symbol_filenames (qf_object 1) 1 None None 0 w)
  ∧ logged_around (objfile_find_compunit_symtab_by_address 1 4096 w)
      (qf_find_compunit_symtab_by_address (qf_object 1) 1 4096 w).
Proof.
  split; [reflexivity|]. split; [reflexivity|]. split; [reflexivity|].
  apply (forwarding_methods_trace (example_world_qf 0 true) 1
           (example_objfile_qf 0) 1 "main.c" None 2 0 1 1 4096 0 0 2
           true 3 4 5 6 None None None None None
           (Build_bound_minimal_symbol None None));
    reflexivity.
Defined.

Lemma null_table_is_read_through_witness :
  let w := example_world NULL_sf true in
  objfile_mem w !! 1 = Some (example_objfile NULL_sf)
  ∧ sf (example_objfile NULL_sf) = NULL_sf
  ∧ install_symfile_debug_logging 1 w
    = Result Fault
        (with_data (fresh (dom (debug_data_mem w))) new_debug_sym_fns_data w) [].
Proof.
  split; [reflexivity|]. split; [reflexivity|].
  apply (null_table_is_read_through (example_world NULL_sf true) 1
           (example_objfile NULL_sf)); reflexivity.
Defined.

Lemma set_debug_symfile_nothing_to_do_witness :
  let w := with_debug_symfile true example_world_two_logging in
  all_listed w (λ objfile,
    is_Some (objfile_mem w !! objfile)
    ∧ installed_in w objfile = debug_symfile w)
  ∧ set_debug_symfile None 0 None w = Result (Returned tt) w [].
Proof.
  split; [compute_done|].
  apply (set_debug_symfile_nothing_to_do
           (with_debug_symfile true example_world_two_logging) None 0 None).
  compute_done.
Defined.
